(** * SQLense demo: question-to-insight pipeline and fixture generator

    A shallow embedding of [app.py] (translator post-processing, result
    validator, the "Generate & Run SQL" button handler) and of [init_db.py]
    (the synthetic-data fixture build), with the properties the
    specification states about them; then the rest of [app.py] (the
    report request and the page script from its first line to its last)
    and further properties of both files.

    Conventions of the embedding.
    - Python [str] is [string]: the UTF-8 bytes of the text.  [upper] and
      [strip] are exact on ASCII text; bytes above 127 are left alone by
      [upper] and are never whitespace.
    - A Python exception is a value of [Exception]; a call that may raise
      returns [Result].
    - IEEE binary64 numbers are Rocq's primitive floats.
    - Library and service calls whose result the program cannot know
      (the chat-completion service, the SQL engine behind [read_sql_query],
      the order in which the array library adds floats, the pseudo-random
      generator, the clock) are inputs of the definitions. *)

From Stdlib Require Import ZArith List String Ascii Bool Lia.
From Stdlib Require Import PrimFloat FloatOps FloatAxioms SpecFloat.
From Stdlib Require Uint63.
From stdpp Require Import gmap strings list pretty.

Local Open Scope Z_scope.
Set Warnings "-inexact-float".

(** ** Python results and exceptions *)

Module Py.

Inductive Exception : Type :=
| ValueError (msg : string)
| TypeError (msg : string)
| OperationalError (msg : string)
| ProgrammingError (msg : string)
| ServiceError (msg : string).

(** [str(e)] *)
Definition exc_str (e : Exception) : string :=
  match e with
  | ValueError m | TypeError m | OperationalError m
  | ProgrammingError m | ServiceError m => m
  end.

Inductive Result (A : Type) : Type :=
| Ok (a : A)
| Raise (e : Exception).
Arguments Ok {A} a.
Arguments Raise {A} e.

Definition bind {A B} (r : Result A) (k : A -> Result B) : Result B :=
  match r with
  | Ok a => k a
  | Raise e => Raise e
  end.

End Py.

Import Py.

#[global] Instance Result_ret : MRet Result := fun A a => Ok a.
#[global] Instance Result_bind : MBind Result := fun A B k r => Py.bind r k.

(** ** Python string primitives *)

Module PyStr.

(** [c.isspace()] on ASCII: TAB, LF, VT, FF, CR, FS, GS, RS, US, SPACE. *)
Definition isspace (c : ascii) : bool :=
  let n := N_of_ascii c in
  ((9 <=? n) && (n <=? 13) || (28 <=? n) && (n <=? 32))%N.

Fixpoint lstrip (s : string) : string :=
  match s with
  | EmptyString => EmptyString
  | String c s' => if isspace c then lstrip s' else s
  end.

Definition rstrip (s : string) : string :=
  String.rev (lstrip (String.rev s)).

(** [s.strip()] *)
Definition strip (s : string) : string := rstrip (lstrip s).

(** A string that [lstrip] leaves alone: empty, or led by a non-space. *)
Definition led (s : string) : Prop :=
  match s with
  | EmptyString => True
  | String c _ => isspace c = false
  end.

(** [sub in s] *)
Fixpoint contains (sub s : string) : bool :=
  String.prefix sub s ||
  match s with
  | EmptyString => false
  | String _ s' => contains sub s'
  end.

Definition upper_char (c : ascii) : ascii :=
  let n := N_of_ascii c in
  if ((97 <=? n) && (n <=? 122))%N then ascii_of_N (n - 32) else c.

(** [s.upper()] *)
Fixpoint upper (s : string) : string :=
  match s with
  | EmptyString => EmptyString
  | String c s' => String (upper_char c) (upper s')
  end.

(** [s.split(sep)] for a non-empty [sep]: cut at the non-overlapping
    occurrences of [sep], scanning from the left.  [skip] counts the
    characters of a matched separator still to be passed over and [cur]
    holds the current piece, reversed. *)
Fixpoint split_go (sep : string) (skip : nat) (cur : string) (s : string)
  : list string :=
  match s with
  | EmptyString => [String.rev cur]
  | String c s' =>
      match skip with
      | S k => split_go sep k cur s'
      | O =>
          if String.prefix sep s
          then String.rev cur :: split_go sep (String.length sep - 1) EmptyString s'
          else split_go sep O (String c cur) s'
      end
  end.

Definition split (sep s : string) : list string :=
  split_go sep O EmptyString s.

(** [s.replace(old, new)] for a non-empty [old]. *)
Fixpoint replace_go (old new : string) (skip : nat) (s : string) : string :=
  match s with
  | EmptyString => EmptyString
  | String c s' =>
      match skip with
      | S k => replace_go old new k s'
      | O =>
          if String.prefix old s
          then new +:+ replace_go old new (String.length old - 1) s'
          else String c (replace_go old new O s')
      end
  end.

Definition replace (old new s : string) : string :=
  replace_go old new O s.

(** [sep.join(parts)] *)
Fixpoint join (sep : string) (parts : list string) : string :=
  match parts with
  | [] => EmptyString
  | [p] => p
  | p :: ps => p +:+ sep +:+ join sep ps
  end.

End PyStr.

(** ** Question translator ([app.py], [generate_sql_from_question]) *)

Module Translator.

Definition fence : string := "```".

(** ["SELECT" in part.upper()] *)
Definition has_select (part : string) : bool :=
  PyStr.contains "SELECT" (PyStr.upper part).

(** The [for part in parts: ... break] loop: the first part that
    mentions SELECT replaces [sql]; with none, [sql] is kept. *)
Fixpoint pick_part (parts : list string) (sql : string) : string :=
  match parts with
  | [] => sql
  | part :: rest => if has_select part then part else pick_part rest sql
  end.

(** Lines 75-87: what happens to the service's [content]. *)
Definition postprocess (content : string) : string :=
  let sql := PyStr.strip content in
  if PyStr.contains fence sql
  then
    let parts := PyStr.split fence sql in
    let sql := pick_part parts sql in
    PyStr.strip (PyStr.replace "sql" "" sql)
  else sql.

End Translator.

(** ** Numbers as Python prints them *)

Module PyNum.

(** [int] to [float]: the nearest binary64, ties to even. *)
Definition float_of_Z (z : Z) : float :=
  SF2Prim (binary_normalize prec emax z 0 false).

(** The quotient [n / d] ([0 < d]) rounded to the nearest integer, ties to
    even. *)
Definition round_half_even_div (n d : Z) : Z :=
  let q := n / d in
  let r := n mod d in
  match 2 * r ?= d with
  | Lt => q
  | Gt => q + 1
  | Eq => if Z.even q then q else q + 1
  end.

(** Thousands separators for a string of decimal digits given in reverse;
    [k] digits of the current group are out already. *)
Fixpoint commas_rev (k : nat) (s : string) : string :=
  match s with
  | EmptyString => EmptyString
  | String c s' =>
      match k with
      | 3%nat => String "," (String c (commas_rev 1 s'))
      | _ => String c (commas_rev (S k) s')
      end
  end.

Definition with_commas (digits : string) : string :=
  String.rev (commas_rev 0 (String.rev digits)).

Definition two_digits (n : Z) : string :=
  if n <? 10 then "0" +:+ pretty n else pretty n.

(** [format(x, ".2f")], and [format(x, ",.2f")] when [grouped]: the exact
    value of [x] in hundredths, rounded half to even. *)
Definition format_f2 (grouped : bool) (x : float) : string :=
  match Prim2SF x with
  | S754_nan => "nan"
  | S754_infinity s => if s then "-inf" else "inf"
  | S754_zero s => if s then "-0.00" else "0.00"
  | S754_finite s m e =>
      let hundredths :=
        if 0 <=? e then Z.pos m * 100 * 2 ^ e
        else round_half_even_div (Z.pos m * 100) (2 ^ (- e)) in
      let units := pretty (hundredths / 100) in
      (if s then "-" else "") +:+
      (if grouped then with_commas units else units) +:+
      "." +:+ two_digits (hundredths mod 100)
  end.

(** The binary64 nearest to [n / d], ties to even, for [0 <= n] and
    [0 < d]. *)
Definition float_of_ratio (n d : Z) : float :=
  match n, d with
  | Z.pos n', Z.pos d' =>
      SF2Prim (SFdiv prec emax (S754_finite false n' 0) (S754_finite false d' 0))
  | _, _ => 0%float
  end.

(** The exact value [m * 2^e] in hundredths, rounded half to even. *)
Definition hundredths (m : positive) (e : Z) : Z :=
  if 0 <=? e then Z.pos m * 100 * 2 ^ e
  else round_half_even_div (Z.pos m * 100) (2 ^ (- e)).

(** [round(x, 2)]: the exact value of [x] is rounded to hundredths, ties
    to even, and the result is the binary64 nearest to that. *)
Definition round2 (x : float) : float :=
  match Prim2SF x with
  | S754_finite s m e =>
      let r := float_of_ratio (hundredths m e) 100 in
      if s then (- r)%float else r
  | _ => x
  end.

(** Two's-complement wrap-around of a 64-bit signed integer. *)
Definition wrap64 (z : Z) : Z := (z + 2 ^ 63) mod 2 ^ 64 - 2 ^ 63.

End PyNum.

(** ** Query results: the part of pandas the validator touches *)

Module Pandas.

(** A column, by dtype.  [Float64] marks a missing value by NaN.  An
    object column holds text in every row ([Object]) or [None] in every
    row ([Nulls], what a column of NULLs comes back as); an object column
    that mixes the two is not followed. *)
Inductive Series : Type :=
| Int64 (values : list Z)
| Float64 (values : list float)
| Object (values : list string)
| Nulls (rows : nat).

(** [index_len] is [len(df.index)]; [cols] are the labelled columns in
    order (labels may repeat, as in [SELECT amount, amount ...]). *)
Record DataFrame : Type := {
  index_len : nat;
  cols : list (string * Series)
}.

(** [df.columns] *)
Definition columns (df : DataFrame) : list string := map fst (cols df).

(** [len(df)] *)
Definition len (df : DataFrame) : nat := index_len df.

(** [df.empty]: some axis has length 0. *)
Definition empty (df : DataFrame) : bool :=
  (index_len df =? 0)%nat || (length (cols df) =? 0)%nat.

(** [df.columns.is_unique]: no label occurs twice. *)
Fixpoint is_unique (labels : list string) : bool :=
  match labels with
  | [] => true
  | label :: rest => negb (existsb (String.eqb label) rest) && is_unique rest
  end.

(** [name in df.columns] *)
Definition has_column (name : string) (df : DataFrame) : bool :=
  existsb (String.eqb name) (columns df).

(** [df[name]]: the columns labelled [name].  One of them is a Series,
    several are a DataFrame. *)
Definition getitem (name : string) (df : DataFrame) : list Series :=
  map snd (List.filter (fun c => String.eqb name (fst c)) (cols df)).

(** What a reduction returns. *)
Inductive Scalar : Type :=
| IntScalar (z : Z)
| FloatScalar (f : float)
| StrScalar (s : string).

Definition nan_to_zero (x : float) : float :=
  if is_nan x then 0%float else x.

Definition count_valid (values : list float) : nat :=
  length (List.filter (fun x => negb (is_nan x)) values).

Section Reductions.
(** The array library's sum of a float array; the order in which it adds
    is its own business. *)
Variable float_sum : list float -> float.

(** [s.sum()]: integers add with wrap-around, floats add with NaN read as
    0, text concatenates, [None] is read as 0. *)
Definition sum (s : Series) : Scalar :=
  match s with
  | Int64 values => IntScalar (PyNum.wrap64 (fold_right Z.add 0 values))
  | Float64 values => FloatScalar (float_sum (map nan_to_zero values))
  | Object [] => IntScalar 0
  | Object values => StrScalar (fold_right String.append EmptyString values)
  | Nulls _ => IntScalar 0
  end.

(** [s.mean()]: the float sum over the count of valid entries, NaN when
    there are none ([None] is not one); text cannot be averaged. *)
Definition mean (s : Series) : Result float :=
  match s with
  | Int64 values =>
      Ok (if (0 <? length values)%nat
          then (float_sum (map PyNum.float_of_Z values)
                / PyNum.float_of_Z (Z.of_nat (length values)))%float
          else nan)
  | Float64 values =>
      Ok (if (0 <? count_valid values)%nat
          then (float_sum (map nan_to_zero values)
                / PyNum.float_of_Z (Z.of_nat (count_valid values)))%float
          else nan)
  | Object _ => Raise (TypeError "Could not convert string to numeric")
  | Nulls _ => Ok nan
  end.
End Reductions.

(** [f"{total:,.2f}"] *)
Definition format_total (total : Scalar) : Result string :=
  match total with
  | IntScalar z => Ok (PyNum.format_f2 true (PyNum.float_of_Z z))
  | FloatScalar f => Ok (PyNum.format_f2 true f)
  | StrScalar _ =>
      Raise (ValueError "Unknown format code 'f' for object of type 'str'")
  end.

(** [total < 0] *)
Definition lt0 (total : Scalar) : Result bool :=
  match total with
  | IntScalar z => Ok (z <? 0)
  | FloatScalar f => Ok (f <? 0)%float
  | StrScalar _ =>
      Raise (TypeError "'<' not supported between instances of 'str' and 'int'")
  end.

(** [total == 0] *)
Definition eq0 (total : Scalar) : bool :=
  match total with
  | IntScalar z => z =? 0
  | FloatScalar f => (f =? 0)%float
  | StrScalar _ => false
  end.

End Pandas.

(** ** Result validator ([app.py], [basic_result_validation]) *)

Module Validator.
Import Pandas.

Definition msg_empty : string :=
  "⚠️ Query returned 0 rows. Please double-check filters or logic.".

Definition msg_count (rows columns : nat) : string :=
  "✅ Query returned " +:+ pretty rows +:+ " rows and " +:+
  pretty columns +:+ " columns.".

Definition msg_total (formatted : string) : string :=
  "💰 Total amount in result set: $" +:+ formatted.

Definition msg_negative : string :=
  "⚠️ Total amount is negative. This may indicate refunds/chargebacks.".

Definition msg_zero : string :=
  "⚠️ Total amount is zero. Check if the query filter is too strict.".

Definition msg_rate (formatted : string) : string :=
  "🕵️ Estimated fraud rate in this result: " +:+ formatted +:+ "%".

Definition msg_high : string :=
  "🚨 Fraud rate seems unusually high. Consider deeper investigation.".

Definition msg_low : string :=
  "ℹ️ Fraud rate is very low in this slice. Check if sample size is sufficient.".

(** The returned [{"summary": checks}]. *)
Record Report : Type := { summary : list string }.

Section WithArrayLibrary.
Variable float_sum : list float -> float.

(** Lines 113-120. *)
Definition amount_check (df : DataFrame) (checks : list string)
  : Result (list string) :=
  if has_column "amount" df then
    match getitem "amount" df with
    | [column] =>
        let total := sum float_sum column in
        formatted ← format_total total;
        let checks := checks ++ [msg_total formatted] in
        negative ← lt0 total;
        if (negative : bool) then Ok (checks ++ [msg_negative])
        else if eq0 total then Ok (checks ++ [msg_zero])
        else Ok checks
    | _ =>
        Raise (TypeError "unsupported format string passed to Series.__format__")
    end
  else Ok checks.

(** [float(df["is_fraud"].mean() * 100)] *)
Definition fraud_rate (column : Series) : Result float :=
  m ← mean float_sum column;
  Ok (m * 100)%float.

(** Lines 123-129. *)
Definition fraud_check (df : DataFrame) (checks : list string)
  : Result (list string) :=
  if has_column "is_fraud" df then
    match getitem "is_fraud" df with
    | [column] =>
        rate ← fraud_rate column;
        let checks := checks ++ [msg_rate (PyNum.format_f2 false rate)] in
        if (10 <? rate)%float then Ok (checks ++ [msg_high])
        else if (rate <? 0.1)%float then Ok (checks ++ [msg_low])
        else Ok checks
    | _ => Raise (TypeError "cannot convert the series to <class 'float'>")
    end
  else Ok checks.

Definition basic_result_validation (df : DataFrame) : Result Report :=
  let checks := [] in
  if empty df then
    let checks := checks ++ [msg_empty] in
    Ok {| summary := checks |}
  else
    let checks := checks ++ [msg_count (len df) (length (columns df))] in
    checks ← amount_check df checks;
    checks ← fraud_check df checks;
    Ok {| summary := checks |}.

(** The lines the two blocks may add, for a well-typed frame. *)
Definition amount_lines (df : DataFrame) (lines : list string) : Prop :=
  match getitem "amount" df with
  | [] => lines = []
  | [column] =>
      exists formatted negative,
        format_total (sum float_sum column) = Ok formatted /\
        lt0 (sum float_sum column) = Ok negative /\
        (eq0 (sum float_sum column) = true -> negative = false) /\
        lines = msg_total formatted ::
                if negative then [msg_negative]
                else if eq0 (sum float_sum column) then [msg_zero] else []
  | _ => False
  end.

Definition fraud_lines (df : DataFrame) (lines : list string) : Prop :=
  match getitem "is_fraud" df with
  | [] => lines = []
  | [column] =>
      exists m,
        mean float_sum column = Ok m /\
        lines = msg_rate (PyNum.format_f2 false (m * 100)) ::
                if (10 <? m * 100)%float then [msg_high]
                else if (m * 100 <? 0.1)%float then [msg_low] else []
  | _ => False
  end.

End WithArrayLibrary.

(** Frames on which both checks go through: each of the two columns
    they read is absent, or is one column of numbers or of NULLs. *)
Definition numeric (s : Series) : bool :=
  match s with
  | Int64 _ | Float64 _ | Nulls _ => true
  | Object _ => false
  end.

Definition column_well_typed (name : string) (df : DataFrame) : bool :=
  match getitem name df with
  | [] => true
  | [column] => numeric column
  | _ => false
  end.

Definition well_typed (df : DataFrame) : bool :=
  column_well_typed "amount" df && column_well_typed "is_fraud" df.

End Validator.

(** ** The page script ([app.py], top level)

    A run of the script reads and writes [st.session_state], adds elements
    to the page, and talks to the chat service and to SQLite.  [st.stop()]
    ends the run; an exception propagates until an [except] catches it. *)

Module App.
Import Pandas.

Inductive Value : Type :=
| StrValue (s : string)
| FrameValue (df : DataFrame).

Inductive Element : Type :=
| Warning (body : string)
| Error (body : string).

Inductive IOEvent : Type :=
| ChatCompletion (system user : string)
| Connect (path : string)
| ReadSqlQuery (sql : string)
| Close.

Record World : Type := {
  session_state : gmap string Value;
  page : list Element;
  trace : list IOEvent
}.

Inductive Outcome (A : Type) : Type :=
| Returned (a : A)
| Raised (e : Exception)
| Stopped.
Arguments Returned {A} a.
Arguments Raised {A} e.
Arguments Stopped {A}.

Definition Script (A : Type) : Type := World -> Outcome A * World.

#[global] Instance Script_ret : MRet Script := fun A a w => (Returned a, w).

#[global] Instance Script_bind : MBind Script := fun A B k m w =>
  match m w with
  | (Returned a, w') => k a w'
  | (Raised e, w') => (Raised e, w')
  | (Stopped, w') => (Stopped, w')
  end.

(** [try: body / except Exception as e: handler e] *)
Definition try_except {A} (body : Script A) (handler : Exception -> Script A)
  : Script A := fun w =>
  match body w with
  | (Raised e, w') => handler e w'
  | r => r
  end.

(** [try: body / finally: final] *)
Definition try_finally {A} (body : Script A) (final : Script unit)
  : Script A := fun w =>
  let (o, w') := body w in
  match final w' with
  | (Returned _, w'') => (o, w'')
  | (Raised e, w'') => (Raised e, w'')
  | (Stopped, w'') => (Stopped, w'')
  end.

Definition log (ev : IOEvent) : Script unit := fun w =>
  (Returned tt,
   {| session_state := session_state w; page := page w;
      trace := trace w ++ [ev] |}).

Definition show (el : Element) : Script unit := fun w =>
  (Returned tt,
   {| session_state := session_state w; page := page w ++ [el];
      trace := trace w |}).

Definition st_warning (body : string) : Script unit := show (Warning body).
Definition st_error (body : string) : Script unit := show (Error body).
Definition st_stop {A} : Script A := fun w => (Stopped, w).

(** [st.session_state[key] = v] *)
Definition set_state (key : string) (v : Value) : Script unit := fun w =>
  (Returned tt,
   {| session_state := <[key := v]> (session_state w); page := page w;
      trace := trace w |}).

(** The answer of an outside call, as the script sees it. *)
Definition answer {A} (r : Result A) : Script A := fun w =>
  match r with
  | Ok a => (Returned a, w)
  | Raise e => (Raised e, w)
  end.

Definition DB_PATH : string := "card_transactions.db".

Section WithServices.
(** [client.chat.completions.create(...).choices[0].message.content], as
    a function of the system and the user message. *)
Variable chat_completion : string -> string -> Result string.
(** [pd.read_sql_query(sql, conn)] on the local store. *)
Variable read_sql_query : string -> Result DataFrame.
(** The schema prompt, a constant of the source. *)
Variable SCHEMA_PROMPT : string.

Definition generate_sql_from_question (question : string) : Script string :=
  log (ChatCompletion SCHEMA_PROMPT question);;
  content ← answer (chat_completion SCHEMA_PROMPT question);
  mret (Translator.postprocess content).

Definition run_sql (sql : string) : Script DataFrame :=
  log (Connect DB_PATH);;
  try_finally
    (log (ReadSqlQuery sql);; answer (read_sql_query sql))
    (log Close).

(** Lines 194-218: the body of [if generate_button:].  The spinners
    leave nothing on the page and are not recorded. *)
Definition on_generate_button (user_question : string) : Script unit :=
  (if String.eqb (PyStr.strip user_question) ""
   then st_warning "Please enter a question first.";; st_stop
   else mret tt);;
  generated_sql ←
    try_except (generate_sql_from_question user_question)
      (fun e => st_error ("Error calling OpenAI API: " +:+ exc_str e);;
                st_stop);
  df ←
    try_except (run_sql generated_sql)
      (fun e => st_error ("Error running SQL: " +:+ exc_str e);;
                st_stop);
  set_state "last_question" (StrValue user_question);;
  set_state "last_sql" (StrValue generated_sql);;
  set_state "last_df" (FrameValue df).

End WithServices.

End App.

(** ** Pseudo-random draws ([random])

    The generator is the sequence of raw numbers it will hand out next;
    every draw consumes one. *)

Module Random.

Definition Rng : Type := nat -> N.

Definition Rand (A : Type) : Type := Rng -> A * Rng.

#[global] Instance Rand_ret : MRet Rand := fun A a g => (a, g).

#[global] Instance Rand_bind : MBind Rand := fun A B k m g =>
  let (a, g') := m g in k a g'.

Definition next_raw : Rand N := fun g => (g O, fun i => g (S i)).

(** [random.random()]: a 53-bit integer as a binary64, times 2^-53. *)
Definition random : Rand float :=
  k ← next_raw;
  mret (of_uint63 (Uint63.of_Z (Z.of_N (k mod 2 ^ 53))) * 0x1p-53)%float.

(** [_randbelow(n)] for [0 < n]. *)
Definition randbelow (n : N) : Rand N :=
  k ← next_raw;
  mret (k mod n)%N.

(** [random.randint(a, b)] for [a <= b]. *)
Definition randint (a b : Z) : Rand Z :=
  k ← randbelow (Z.to_N (b - a + 1));
  mret (a + Z.of_N k).

(** [random.choice(seq)] for a non-empty [seq]. *)
Definition choice (seq : list string) : Rand string :=
  i ← randbelow (N.of_nat (length seq));
  mret (nth (N.to_nat i) seq EmptyString).

(** [random.uniform(a, b)], which is [a + (b - a) * random()] in
    binary64. *)
Definition uniform (a b : float) : Rand float :=
  r ← random;
  mret (a + (b - a) * r)%float.

End Random.

(** ** Calendar dates ([datetime])

    A date is its proleptic Gregorian ordinal: day 1 is 0001-01-01. *)

Module Datetime.

Definition days_before_month (month : Z) : Z :=
  match month with
  | 1 => 0 | 2 => 31 | 3 => 59 | 4 => 90 | 5 => 120 | 6 => 151
  | 7 => 181 | 8 => 212 | 9 => 243 | 10 => 273 | 11 => 304 | _ => 334
  end.

Definition days_in_month (month : Z) : Z :=
  match month with
  | 2 => 28
  | 4 | 6 | 9 | 11 => 30
  | _ => 31
  end.

(** [_ord2ymd]: ordinal to (year, month, day). *)
Definition ord2ymd (ordinal : Z) : Z * Z * Z :=
  let n := ordinal - 1 in
  let n400 := n / 146097 in
  let n := n mod 146097 in
  let n100 := n / 36524 in
  let n := n mod 36524 in
  let n4 := n / 1461 in
  let n := n mod 1461 in
  let n1 := n / 365 in
  let n := n mod 365 in
  let year := n400 * 400 + 1 + n100 * 100 + n4 * 4 + n1 in
  if (n1 =? 4) || (n100 =? 4) then (year - 1, 12, 31)
  else
    let leapyear := (n1 =? 3) && (negb (n4 =? 24) || (n100 =? 3)) in
    let month := Z.shiftr (n + 50) 5 in
    let preceding :=
      days_before_month month + (if (2 <? month) && leapyear then 1 else 0) in
    if n <? preceding
    then
      let month := month - 1 in
      let preceding :=
        preceding
        - (days_in_month month + (if (month =? 2) && leapyear then 1 else 0)) in
      (year, month, n - preceding + 1)
    else (year, month, n - preceding + 1).

(** [_is_leap] *)
Definition is_leap (year : Z) : bool :=
  (year mod 4 =? 0) && (negb (year mod 100 =? 0) || (year mod 400 =? 0)).

(** [_days_before_year]: the days before January 1st of [year]. *)
Definition days_before_year (year : Z) : Z :=
  let y := year - 1 in
  y * 365 + y / 4 - y / 100 + y / 400.

(** [_ymd2ord]: (year, month, day) to ordinal. *)
Definition ymd2ord (year month day : Z) : Z :=
  days_before_year year +
  (days_before_month month + (if (2 <? month) && is_leap year then 1 else 0)) +
  day.

(** [d.strftime("%Y-%m-%d")], for the four-digit years. *)
Definition strftime_ymd (ordinal : Z) : string :=
  let '(y, m, d) := ord2ymd ordinal in
  pretty y +:+ "-" +:+ PyNum.two_digits m +:+ "-" +:+ PyNum.two_digits d.

(** [d - timedelta(days=k)] *)
Definition minus_days (ordinal k : Z) : Z := ordinal - k.

End Datetime.

(** ** The embedded store ([sqlite3]) *)

Module Sqlite.

Inductive SqlValue : Type :=
| SqlInt (z : Z)
| SqlReal (x : float)
| SqlText (s : string)
| SqlNull.

(** A stored row: its rowid (the INTEGER PRIMARY KEY) and the values
    bound to the columns the INSERT names, in that order. *)
Record Row : Type := {
  rowid : Z;
  cells : list (string * SqlValue)
}.

Record Table : Type := {
  schema : list string;
  autoincrement : bool;
  rows : list Row
}.

(** The tables, and [sqlite_sequence]: the largest rowid ever handed out
    for each AUTOINCREMENT table. *)
Record Database : Type := {
  tables : gmap string Table;
  sqlite_sequence : gmap string Z
}.

Definition empty_db : Database := {| tables := ∅; sqlite_sequence := ∅ |}.

(** [DROP TABLE IF EXISTS name]: the table goes, and its
    [sqlite_sequence] entry with it. *)
Definition drop_table_if_exists (name : string) (db : Database) : Database :=
  {| tables := delete name (tables db);
     sqlite_sequence := delete name (sqlite_sequence db) |}.

(** [CREATE TABLE name (...)] *)
Definition create_table (name : string) (columns : list string) (auto : bool)
    (db : Database) : Result Database :=
  match tables db !! name with
  | Some _ => Raise (OperationalError ("table " +:+ name +:+ " already exists"))
  | None =>
      Ok {| tables :=
              <[name := {| schema := columns; autoincrement := auto;
                           rows := [] |}]> (tables db);
            sqlite_sequence := sqlite_sequence db |}
  end.

(** [CREATE TABLE IF NOT EXISTS name (...)] *)
Definition create_table_if_not_exists (name : string) (columns : list string)
    (auto : bool) (db : Database) : Result Database :=
  match tables db !! name with
  | Some _ => Ok db
  | None => create_table name columns auto db
  end.

(** [DELETE FROM name] *)
Definition delete_from (name : string) (db : Database) : Result Database :=
  match tables db !! name with
  | None => Raise (OperationalError ("no such table: " +:+ name))
  | Some t =>
      Ok {| tables :=
              <[name := {| schema := schema t;
                           autoincrement := autoincrement t;
                           rows := [] |}]> (tables db);
            sqlite_sequence := sqlite_sequence db |}
  end.

(** The text of [s] before and after the first [sep] ([s.partition(sep)]
    without the separator). *)
Definition partition (sep s : string) : string * string :=
  match PyStr.split sep s with
  | [] => (EmptyString, EmptyString)
  | before :: rest => (before, PyStr.join sep rest)
  end.

(** Reading [INSERT INTO name (c1, ..., cn) VALUES (?, ..., ?)]. *)
Definition insert_table (sql : string) : string :=
  PyStr.strip (fst (partition "(" (snd (partition "INSERT INTO" sql)))).

Definition insert_columns (sql : string) : list string :=
  map PyStr.strip
      (PyStr.split "," (fst (partition ")" (snd (partition "(" sql))))).

Definition insert_values (sql : string) : list string :=
  map PyStr.strip
      (PyStr.split ","
         (fst (partition ")" (snd (partition "(" (snd (partition "VALUES" sql))))))).

(** The statement's bind parameters: its [?] marks. *)
Fixpoint placeholders (sql : string) : nat :=
  match sql with
  | EmptyString => O
  | String c sql' =>
      ((if Ascii.eqb c "?" then 1 else 0) + placeholders sql')%nat
  end.

Definition max_rowid (t : Table) : Z :=
  fold_right Z.max 0 (map rowid (rows t)).

(** The rowid of the next row: one more than the largest in the table
    and, with AUTOINCREMENT, than the largest ever handed out. *)
Definition next_rowid (name : string) (t : Table) (db : Database) : Z :=
  let seen := if autoincrement t
              then default 0 (sqlite_sequence db !! name) else 0 in
  Z.max (max_rowid t) seen + 1.

(** One execution of the prepared INSERT with [params] bound. *)
Definition insert_row (name : string) (names : list string) (n : nat)
    (params : list SqlValue) (db : Database) : Result Database :=
  if negb (length params =? n)%nat
  then Raise (ProgrammingError "Incorrect number of bindings supplied.")
  else
    match tables db !! name with
    | None => Raise (OperationalError ("no such table: " +:+ name))
    | Some t =>
        let id := next_rowid name t db in
        let row := {| rowid := id; cells := combine names params |} in
        Ok {| tables :=
                <[name := {| schema := schema t;
                             autoincrement := autoincrement t;
                             rows := rows t ++ [row] |}]> (tables db);
              sqlite_sequence :=
                if autoincrement t
                then <[name := id]> (sqlite_sequence db)
                else sqlite_sequence db |}
    end.

Fixpoint insert_rows (name : string) (names : list string) (n : nat)
    (seq_of_params : list (list SqlValue)) (db : Database) : Result Database :=
  match seq_of_params with
  | [] => Ok db
  | params :: rest =>
      db' ← insert_row name names n params db;
      insert_rows name names n rest db'
  end.

(** Column names are the same when they differ in the case of ASCII
    letters only. *)
Definition same_name (a b : string) : bool :=
  String.eqb (PyStr.upper a) (PyStr.upper b).

(** [cur.executemany(sql, seq_of_params)] for an INSERT: the statement
    is prepared once (the table and every named column must exist, the
    VALUES list must be as long as the column list), then run per row. *)
Definition executemany (sql : string) (seq_of_params : list (list SqlValue))
    (db : Database) : Result Database :=
  let name := insert_table sql in
  let names := insert_columns sql in
  match tables db !! name with
  | None => Raise (OperationalError ("no such table: " +:+ name))
  | Some t =>
      if negb (forallb (fun c => existsb (same_name c) (schema t)) names)
      then Raise (OperationalError ("table " +:+ name +:+ " has no such column"))
      else if negb (length (insert_values sql) =? length names)%nat
      then Raise (OperationalError "values do not match the columns")
      else insert_rows name names (placeholders sql) seq_of_params db
  end.

(** The rows an AUTOINCREMENT table holds after a run of inserts: the
    old ones, then one per parameter tuple, numbered on from the largest
    rowid ever handed out. *)
Definition stored (names : list string) (last : Z)
    (seq_of_params : list (list SqlValue)) : list Row :=
  imap (fun i params =>
          {| rowid := last + 1 + Z.of_nat i; cells := combine names params |})
       seq_of_params.

(** The value a row holds for a column: the first one bound to it. *)
Definition cell (column : string) (r : Row) : SqlValue :=
  default SqlNull (snd <$> find (fun c => String.eqb column (fst c)) (cells r)).

End Sqlite.

(** ** Fixture build ([init_db.py], the second [create_db]) *)

Module InitDb.
Import Random Sqlite.

Definition DB_PATH : string := "card_transactions.db".

Definition states : list string :=
  ["NY"; "CA"; "TX"; "WA"; "FL"; "IL"; "NJ"; "VA"; "NV"; "AZ"].
Definition card_types : list string :=
  ["Platinum"; "Gold"; "Silver"; "Freedom"; "Basic"].
Definition channels : list string :=
  ["Online"; "Branch"; "Mobile"; "ATM"; "POS"].
Definition merchant_cats : list string :=
  ["Grocery"; "Travel"; "Dining"; "Fuel"; "Shopping"; "Entertainment";
   "Utilities"].

(** The columns of the CREATE TABLE statement; [transaction_id] is the
    INTEGER PRIMARY KEY AUTOINCREMENT. *)
Definition table_columns : list string :=
  ["transaction_id"; "customer_id"; "state"; "card_type"; "channel";
   "transaction_date"; "amount"; "is_fraud"; "merchant_cat";
   "product_version"].

(** One pass of the loop body, lines 110-126; [today] is the ordinal of
    [datetime.today()]. *)
Definition make_row (today : Z) : Rand (list SqlValue) :=
  customer_id ← randint 10000 99999;
  state ← choice states;
  card_type ← choice card_types;
  channel ← choice channels;
  merchant_cat ← choice merchant_cats;
  days_ago ← randint 0 365;
  let dt := Datetime.minus_days today days_ago in
  let transaction_date := Datetime.strftime_ymd dt in
  u ← uniform 5 5000;
  let amount := PyNum.round2 u in
  r ← random;
  let is_fraud := if (r <? 0.03)%float then 1 else 0 in
  product_version ← choice ["A"; "B"];
  mret [SqlInt customer_id; SqlText state; SqlText card_type;
        SqlText channel; SqlText transaction_date; SqlReal amount;
        SqlInt is_fraud; SqlText merchant_cat; SqlText product_version].

(** What one pass of the loop hands to the INSERT. *)
Definition row_shape (today : Z) (params : list SqlValue) : Prop :=
  exists customer_id state card_type channel merchant_cat days_ago cents
         is_fraud product_version,
    params =
      [SqlInt customer_id; SqlText state; SqlText card_type; SqlText channel;
       SqlText (Datetime.strftime_ymd (today - days_ago));
       SqlReal (PyNum.float_of_ratio cents 100); SqlInt is_fraud;
       SqlText merchant_cat;
       SqlText product_version] /\
    10000 <= customer_id <= 99999 /\
    In state states /\ In card_type card_types /\ In channel channels /\
    In merchant_cat merchant_cats /\
    0 <= days_ago <= 365 /\
    500 <= cents <= 500000 /\
    (is_fraud = 0 \/ is_fraud = 1) /\
    In product_version ["A"; "B"].

(** [for _ in range(n): rows.append(...)] *)
Fixpoint generate_rows (today : Z) (n : nat) : Rand (list (list SqlValue)) :=
  match n with
  | O => mret []
  | S n' =>
      row ← make_row today;
      rest ← generate_rows today n';
      mret (row :: rest)
  end.

Definition insert_sql : string := "
    INSERT INTO card_transactions (
        customer_id, state, card_type, channel,
        transaction_date, amount, is_fraud,
        merchant_cat, product_version
    ) VALUES (?,?,?,?,?,?,?,?,?);
    ".

(** What a build leaves behind: the store, the generator, the line it
    printed. *)
Record Built : Type := {
  store : Database;
  generator : Rng;
  printed : string
}.

(** [conn.commit()] makes the inserts durable and [conn.close()] releases
    the file; the store returned is the committed one. *)
Definition create_db (today : Z) (g : Rng) (db : Database) : Result Built :=
  let db := drop_table_if_exists "card_transactions" db in
  db ← create_table "card_transactions" table_columns true db;
  let (rows, g) := generate_rows today 5000 g in
  db ← executemany insert_sql rows db;
  Ok {| store := db; generator := g;
        printed := "✅ Created " +:+ pretty (length rows) +:+
                   " synthetic transactions in " +:+ DB_PATH |}.

(** The rows of [card_transactions]. *)
Definition transactions (db : Database) : list Row :=
  match tables db !! "card_transactions" with
  | Some t => rows t
  | None => []
  end.

End InitDb.

(** ** Fixture build, the earlier variant ([init_db.py], the first
    [create_db]) *)

Module EarlierVariant.
Import Random Sqlite.

Definition DB_PATH : string := "card_transactions.db".

Definition states : list string :=
  ["NY"; "CA"; "TX"; "WA"; "FL"; "IL"; "NJ"; "VA"; "NV"; "AZ"].
Definition card_types : list string :=
  ["Platinum"; "Gold"; "Silver"; "Freedom"; "Basic"].
Definition channels : list string :=
  ["Online"; "Branch"; "Mobile"; "ATM"; "POS"].
Definition merchant_cats : list string :=
  ["Grocery"; "Travel"; "Dining"; "Fuel"; "Shopping"; "Entertainment";
   "Utilities"].

(** The columns of the CREATE TABLE statement; [transaction_id] is the
    INTEGER PRIMARY KEY AUTOINCREMENT. *)
Definition table_columns : list string :=
  ["transaction_id"; "customer_id"; "state"; "card_type"; "channel";
   "transaction_date"; "amount"; "is_fraud"; "merchant_cat";
   "product_version"].

(** One pass of the loop body, lines 40-55. *)
Definition make_row (today : Z) : Rand (list SqlValue) :=
  customer_id ← randint 10000 99999;
  state ← choice states;
  card ← choice card_types;
  channel ← choice channels;
  merchant ← choice merchant_cats;
  category ← choice merchant_cats;
  days ← randint 0 365;
  let date := Datetime.minus_days today days in
  u ← uniform 5 5000;
  let amount := PyNum.round2 u in
  r ← random;
  let is_fraud := if (r <? 0.03)%float then 1 else 0 in
  version ← choice ["A"; "B"];
  mret [SqlInt customer_id; SqlText state; SqlText card; SqlText channel;
        SqlText (Datetime.strftime_ymd date); SqlReal amount;
        SqlInt is_fraud; SqlText category; SqlText version;
        SqlText "Grocery"].

(** What one pass of this loop hands to the INSERT: ten values, the
    eighth a drawn category and the tenth the constant. *)
Definition row_shape (params : list SqlValue) : Prop :=
  exists v1 v2 v3 v4 v5 v6 v7 category v9,
    params = [v1; v2; v3; v4; v5; v6; v7; SqlText category; v9;
              SqlText "Grocery"] /\
    In category merchant_cats.

Fixpoint generate_rows (today : Z) (n : nat) : Rand (list (list SqlValue)) :=
  match n with
  | O => mret []
  | S n' =>
      row ← make_row today;
      rest ← generate_rows today n';
      mret (row :: rest)
  end.

Definition insert_sql : string := "
    INSERT INTO card_transactions (
        customer_id, state, card_type, channel,
        transaction_date, amount, is_fraud,
        merchant_cat, product_version, merchant_cat
    ) VALUES (?,?,?,?,?,?,?,?,?,?);
    ".

Definition create_db (today : Z) (g : Rng) (db : Database)
  : Result InitDb.Built :=
  db ← create_table_if_not_exists "card_transactions" table_columns true db;
  db ← delete_from "card_transactions" db;
  let (rows, g) := generate_rows today 5000 g in
  db ← executemany insert_sql rows db;
  Ok {| InitDb.store := db; InitDb.generator := g;
        InitDb.printed :=
          "✅ Synthetic JPM credit DB created! You're a step closer to analyst superpowers." |}.

End EarlierVariant.

(** ** Sample inputs *)

Module Samples.
Import Pandas.

(** Adding a float array from left to right, starting from 0. *)
Definition left_to_right (values : list float) : float :=
  fold_left PrimFloat.add values 0%float.

(** A fenced answer with its tag. *)
Definition fenced_select : string := "```sql
SELECT state, SUM(amount) FROM card_transactions GROUP BY state LIMIT 50;
```".

(** A fenced answer without SELECT. *)
Definition fenced_delete : string :=
  "```sql DELETE FROM card_transactions;```".

(** A fenced query that mentions a name with "sql" in it. *)
Definition fenced_master : string :=
  "```sql SELECT name FROM sqlite_master;```".

(** No rows, and an "amount" column that is text. *)
Definition no_rows : DataFrame :=
  {| index_len := 0;
     cols := [("state", Object []); ("amount", Object [])] |}.

(** A charge and its refund. *)
Definition refund_pair : DataFrame :=
  {| index_len := 2;
     cols := [("state", Object ["NY"; "NY"]);
              ("amount", Float64 [120.5; -120.5]%float);
              ("is_fraud", Int64 [0; 0])] |}.

(** The same next to an "is_fraud" column that is text. *)
Definition zero_sum_text_flag : DataFrame :=
  {| index_len := 2;
     cols := [("amount", Float64 [120.5; -120.5]%float);
              ("is_fraud", Object ["no"; "no"])] |}.

(** Two columns of amounts under the one label. *)
Definition amount_twice : DataFrame :=
  {| index_len := 1;
     cols := [("amount", Float64 [12.5]%float);
              ("amount", Float64 [7.25]%float)] |}.



(** Twenty rows, one of them flagged. *)
Definition one_in_twenty : DataFrame :=
  {| index_len := 20;
     cols := [("is_fraud", Int64 (1 :: repeat 0 19))] |}.

(** Row counts by state: neither "amount" nor "is_fraud". *)
Definition counts_by_state : DataFrame :=
  {| index_len := 3;
     cols := [("state", Object ["NY"; "CA"; "TX"]);
              ("n", Int64 [512; 498; 505])] |}.

Definition question : string := "What is total transaction volume by state?".

(** A chat service that is down, one that answers with a fenced query,
    and a store that rejects every query. *)
Definition chat_down (system user : string) : Result string :=
  Raise (ServiceError "Connection error.").

Definition chat_fenced (system user : string) : Result string :=
  Ok fenced_select.

Definition store_rejects (sql : string) : Result DataFrame :=
  Raise (OperationalError "no such table: card_transactions").

Definition store_answers (sql : string) : Result DataFrame :=
  Ok counts_by_state.

Definition fresh_run : App.World :=
  {| App.session_state := ∅; App.page := []; App.trace := [] |}.

(** A generator that always hands out 0, one whose sixth and seventh
    numbers are not 0, and the day 2026-11-05. *)
Definition zeros : Random.Rng := fun _ => 0%N.
Definition draws : Random.Rng := fun i =>
  match i with
  | 5%nat => 30%N
  | 6%nat => 103010261747163%N
  | _ => 0%N
  end.
Definition a_day : Z := 739925.

End Samples.

(** ** The page ([app.py], top level and [generate_ai_report])

    One run of the script from its first line to its last.  What the
    environment and the widgets hand to this run (the API key, the text
    typed, whether the button was pressed, whether the box is ticked) is
    the run's input; the session state is what outlives it.  The handler
    of the button is the one of [App], run in place. *)

Module Page.
Import Pandas.
Set Warnings "-register-all".

(** What the script lays out, in order.  [Alert] is a warning or an
    error box, [PageConfig] the settings given to [st.set_page_config],
    [Expander] a fold with what was written inside it. *)
Inductive Element : Type :=
| PageConfig (page_title layout : string)
| Title (body : string)
| Caption (body : string)
| Markdown (body : string)
| Info (body : string)
| TextInput (label placeholder : string)
| Button (label : string)
| Alert (el : App.Element)
| Code (body language : string)
| Write (args : list string)
| Dataframe (df : DataFrame)
| Expander (label : string) (body : list Element)
| Checkbox (label : string).

(** The outside calls: those of the handler, and the chat call of
    [generate_ai_report] with its one user message. *)
Inductive IOEvent : Type :=
| Call (ev : App.IOEvent)
| ReportCompletion (prompt : string).

(** What a statement may raise: the exception of a library or service
    call, or a look-up [st.session_state[key]] gone wrong.  A missing key
    is Python's KeyError.  The script stores a frame under "last_df" and
    text under its two other keys; a value of the other kind under a key
    is not followed any further ([WrongKind]). *)
Inductive Failure : Type :=
| Library (e : Exception)
| KeyError (key : string)
| WrongKind (key : string).

(** [str(e)]; a KeyError prints its key in quotes. *)
Definition failure_str (e : Failure) : string :=
  match e with
  | Library e => exc_str e
  | KeyError key | WrongKind key => "'" +:+ key +:+ "'"
  end.

Record World : Type := {
  session_state : gmap string App.Value;
  page : list Element;
  trace : list IOEvent
}.

Inductive Outcome (A : Type) : Type :=
| Returned (a : A)
| Raised (e : Failure)
| Stopped.
Arguments Returned {A} a.
Arguments Raised {A} e.
Arguments Stopped {A}.

Definition Script (A : Type) : Type := World -> Outcome A * World.

#[global] Instance Page_ret : MRet Script := fun A a w => (Returned a, w).

#[global] Instance Page_bind : MBind Script := fun A B k m w =>
  match m w with
  | (Returned a, w') => k a w'
  | (Raised e, w') => (Raised e, w')
  | (Stopped, w') => (Stopped, w')
  end.

(** [try: body / except Exception as e: handler e]; [st.stop()] is not
    an [Exception] and passes through. *)
Definition try_except {A} (body : Script A) (handler : Failure -> Script A)
  : Script A := fun w =>
  match body w with
  | (Raised e, w') => handler e w'
  | r => r
  end.

(** The world after more elements and more calls. *)
Definition shown (w : World) (elements : list Element) (events : list IOEvent)
  : World :=
  {| session_state := session_state w; page := page w ++ elements;
     trace := trace w ++ events |}.

Definition show (el : Element) : Script unit := fun w =>
  (Returned tt, shown w [el] []).

Definition log (ev : IOEvent) : Script unit := fun w =>
  (Returned tt, shown w [] [ev]).

Definition st_markdown (body : string) : Script unit := show (Markdown body).
Definition st_error (body : string) : Script unit :=
  show (Alert (App.Error body)).
Definition st_stop {A} : Script A := fun w => (Stopped, w).

(** [str(list(df.columns))], for labels without quotes or backslashes. *)
Definition labels_repr (labels : list string) : string :=
  "[" +:+ PyStr.join ", " (map (fun label => "'" +:+ label +:+ "'") labels)
  +:+ "]".

(** [st.dataframe(df)]: the frame goes to the browser as an Arrow table,
    and the conversion refuses a frame in which a column label occurs
    twice, before it looks at any row. *)
Definition st_dataframe (df : DataFrame) : Script unit :=
  if is_unique (columns df) then show (Dataframe df)
  else fun w =>
    (Raised (Library (ValueError ("Duplicate column names found: " +:+
                                  labels_repr (columns df)))), w).

(** A widget shows itself and hands back its value in this run. *)
Definition widget {A} (el : Element) (value : A) : Script A :=
  show el;; mret value.

(** [with st.expander(label): body]: what [body] lays out goes into the
    fold, also when [body] does not run to its end. *)
Definition st_expander {A} (label : string) (body : Script A) : Script A :=
  fun w =>
    let (o, w') :=
      body {| session_state := session_state w; page := [];
              trace := trace w |} in
    (o, {| session_state := session_state w';
           page := page w ++ [Expander label (page w')];
           trace := trace w' |}).

(** The answer of an outside call, as the script sees it. *)
Definition answer {A} (r : Result A) : Script A := fun w =>
  match r with
  | Ok a => (Returned a, w)
  | Raise e => (Raised (Library e), w)
  end.

(** A part of the script written over the handler's world, run in
    place: it works on the session state as it is, and what it shows and
    calls is added to the page and to the trace. *)
Definition embed {A} (m : App.Script A) : Script A := fun w =>
  let (o, w') :=
    m {| App.session_state := session_state w; App.page := [];
         App.trace := [] |} in
  let w'' :=
    {| session_state := App.session_state w';
       page := page w ++ (Alert <$> App.page w');
       trace := trace w ++ (Call <$> App.trace w') |} in
  match o with
  | App.Returned a => (Returned a, w'')
  | App.Raised e => (Raised (Library e), w'')
  | App.Stopped => (Stopped, w'')
  end.

(** [key in st.session_state] *)
Definition has_key (key : string) : Script bool := fun w =>
  (Returned (match session_state w !! key with
             | Some _ => true
             | None => false
             end), w).

(** [st.session_state[key]], where the script goes on with a frame. *)
Definition get_frame (key : string) : Script DataFrame := fun w =>
  match session_state w !! key with
  | Some (App.FrameValue df) => (Returned df, w)
  | Some (App.StrValue _) => (Raised (WrongKind key), w)
  | None => (Raised (KeyError key), w)
  end.

(** [st.session_state[key]], where the script goes on with text. *)
Definition get_text (key : string) : Script string := fun w =>
  match session_state w !! key with
  | Some (App.StrValue s) => (Returned s, w)
  | Some (App.FrameValue _) => (Raised (WrongKind key), w)
  | None => (Raised (KeyError key), w)
  end.

(** [s.head(n)] and [df.head(n)] for [0 <= n]: the first [n] rows. *)
Definition head_series (n : nat) (s : Series) : Series :=
  match s with
  | Int64 values => Int64 (take n values)
  | Float64 values => Float64 (take n values)
  | Object values => Object (take n values)
  | Nulls rows => Nulls (Nat.min n rows)
  end.

Definition head (n : nat) (df : DataFrame) : DataFrame :=
  {| index_len := Nat.min n (index_len df);
     cols := map (fun c => (fst c, head_series n (snd c))) (cols df) |}.

(** The f-string of lines 143-163. *)
Definition report_prompt (question sql preview : string) : string :=
  "
You are a senior data analyst in a credit card center (JPMorgan-style).

User business question:
" +:+
  question +:+
  "

Executed SQL:
" +:+
  sql +:+
  "

Result preview (first 10 rows in markdown table format):
" +:+
  preview +:+
  "

Please provide a short English report with the following structure:

1. **What this query is analyzing** (1–2 sentences).
2. **Key insights from the result** (bullet points, focusing on patterns, anomalies, high-risk segments).
3. **Actionable recommendations** for risk management / portfolio strategy
   (e.g., which segments to monitor, potential campaigns, further drill-down analysis).

Keep the tone professional but concise.
    ".

(** The run's input. *)
Record Inputs : Type := {
  (** [os.getenv("OPENAI_API_KEY")] after [load_dotenv()] *)
  api_key : option string;
  (** what [st.text_input] hands back *)
  user_question : string;
  (** what [st.button] hands back *)
  generate_button : bool;
  (** what [st.checkbox] hands back, where it is shown *)
  report_checkbox : bool
}.

(** [not api_key]: no key, or an empty one. *)
Definition missing (api_key : option string) : bool :=
  match api_key with
  | None => true
  | Some key => String.eqb key ""
  end.

Section WithServices.
(** The array library's float sum, the two calls of the handler and the
    schema prompt, as in [Validator] and [App]. *)
Variable float_sum : list float -> float.
Variable chat_completion : string -> string -> Result string.
Variable read_sql_query : string -> Result DataFrame.
Variable SCHEMA_PROMPT : string.
(** The chat call of [generate_ai_report], as a function of its one user
    message, and [df.to_markdown(index=False)]. *)
Variable report_completion : string -> Result string.
Variable to_markdown : DataFrame -> Result string.

(** Lines 135-171. *)
Definition generate_ai_report (question sql : string) (df : DataFrame)
  : Script string :=
  preview ← answer (to_markdown (head 10 df));
  let prompt := report_prompt question sql preview in
  log (ReportCompletion prompt);;
  content ← answer (report_completion prompt);
  mret (PyStr.strip content).

(** Lines 12-18. *)
Definition page_header : Script unit :=
  show (PageConfig "SQLense: AI Copilot for SQL & Reporting" "wide");;
  show (Title "🧠 SQLense: AI Copilot for SQL & Reporting");;
  show (Caption "Prototype for a JPMorgan-style credit card analytics copilot").

(** Lines 24-26. *)
Definition require_api_key (api_key : option string) : Script unit :=
  if missing api_key
  then st_error "OPENAI_API_KEY not found. Please add it to your .env file.";;
       st_stop
  else mret tt.

(** Lines 176-192: the question box and the button, with what they hand
    back. *)
Definition ask_question (inputs : Inputs) : Script (string * bool) :=
  st_markdown "### Step 1 · Ask a business question";;
  show (Info "This demo uses a synthetic credit card transactions dataset stored in a local SQLite database.

Try questions like:
- What is total transaction volume by state?
- Show Platinum card volume by channel.
- What is fraud rate by state in the last 30 days?
- Compare transaction volume by card_type and merchant_cat.
");;
  user_question ←
    widget (TextInput "Type a business question (English only):"
              "e.g. What is total transaction volume by state in the last 90 days?")
           (user_question inputs);
  generate_button ←
    widget (Button "Generate & Run SQL") (generate_button inputs);
  mret (user_question, generate_button).

(** [for line in result_check["summary"]: st.write("- ", line)] *)
Fixpoint write_lines (lines : list string) : Script unit :=
  match lines with
  | [] => mret tt
  | line :: rest => show (Write ["- "; line]);; write_lines rest
  end.

(** Lines 221-252. *)
Definition show_last_result (inputs : Inputs) : Script unit :=
  stored ← has_key "last_df";
  if (stored : bool) then
    df ← get_frame "last_df";
    generated_sql ← get_text "last_sql";
    last_question ← get_text "last_question";
    st_markdown "### Step 2 · Generated SQL";;
    show (Code generated_sql "sql");;
    st_markdown "### Step 3 · Query Result";;
    show (Write ["Returned **" +:+ pretty (len df) +:+ "** rows."]);;
    st_dataframe df;;
    st_expander "✅ Auto validation on query result"
      (result_check ← answer (Validator.basic_result_validation float_sum df);
       write_lines (Validator.summary result_check));;
    if negb (empty df) then
      ticked ←
        widget (Checkbox "📄 Generate AI analysis & recommendations")
               (report_checkbox inputs);
      if (ticked : bool) then
        try_except
          (report_text ← generate_ai_report last_question generated_sql df;
           st_markdown "### Step 4 · AI-generated analysis & recommendations";;
           st_markdown report_text)
          (fun e =>
             st_error ("Error calling OpenAI for report: " +:+ failure_str e))
      else mret tt
    else mret tt
  else mret tt.

(** The script. *)
Definition main (inputs : Inputs) : Script unit :=
  page_header;;
  require_api_key (api_key inputs);;
  asked ← ask_question inputs;
  let (user_question, generate_button) := asked : string * bool in
  (if (generate_button : bool)
   then embed (App.on_generate_button chat_completion read_sql_query
                 SCHEMA_PROMPT user_question)
   else mret tt);;
  show_last_result inputs.

End WithServices.

(** *** What a run lays out, by part *)

Definition header : list Element :=
  [PageConfig "SQLense: AI Copilot for SQL & Reporting" "wide";
   Title "🧠 SQLense: AI Copilot for SQL & Reporting";
   Caption "Prototype for a JPMorgan-style credit card analytics copilot"].

Definition question_form : list Element :=
  [Markdown "### Step 1 · Ask a business question";
   Info "This demo uses a synthetic credit card transactions dataset stored in a local SQLite database.

Try questions like:
- What is total transaction volume by state?
- Show Platinum card volume by channel.
- What is fraud rate by state in the last 30 days?
- Compare transaction volume by card_type and merchant_cat.
";
   TextInput "Type a business question (English only):"
     "e.g. What is total transaction volume by state in the last 90 days?";
   Button "Generate & Run SQL"].

(** The stored query and the number of rows: what is laid out before
    the frame. *)
Definition result_top (generated_sql : string) (df : DataFrame)
  : list Element :=
  [Markdown "### Step 2 · Generated SQL";
   Code generated_sql "sql";
   Markdown "### Step 3 · Query Result";
   Write ["Returned **" +:+ pretty (len df) +:+ "** rows."]].

(** The stored query and its result, with the validator's lines in the
    fold. *)
Definition result_view (generated_sql : string) (df : DataFrame)
    (lines : list string) : list Element :=
  [Markdown "### Step 2 · Generated SQL";
   Code generated_sql "sql";
   Markdown "### Step 3 · Query Result";
   Write ["Returned **" +:+ pretty (len df) +:+ "** rows."];
   Dataframe df;
   Expander "✅ Auto validation on query result"
     (map (fun line => Write ["- "; line]) lines)].

Definition report_box : Element :=
  Checkbox "📄 Generate AI analysis & recommendations".

Definition report_heading : Element :=
  Markdown "### Step 4 · AI-generated analysis & recommendations".

(** The four calls of a request that went through. *)
Definition request_calls (prompt question sql : string) : list IOEvent :=
  [Call (App.ChatCompletion prompt question); Call (App.Connect App.DB_PATH);
   Call (App.ReadSqlQuery sql); Call App.Close].

(** A session as the script leaves it: no stored result, or a frame
    under "last_df" with text under "last_sql" and "last_question". *)
Definition coherent (state : gmap string App.Value) : Prop :=
  match state !! "last_df" with
  | None => True
  | Some v =>
      (exists df, v = App.FrameValue df) /\
      (exists sql, state !! "last_sql" = Some (App.StrValue sql)) /\
      (exists question,
         state !! "last_question" = Some (App.StrValue question))
  end.

End Page.

(** ** Sample runs of the page *)

Module PageSamples.
Import Pandas Samples.

Definition sample_sql : string :=
  "SELECT state, COUNT(*) AS n FROM card_transactions GROUP BY state LIMIT 50;".

(** A new session, sessions in which an earlier run stored a result,
    and a result whose "amount" is text. *)
Definition fresh_page : Page.World :=
  {| Page.session_state := ∅; Page.page := []; Page.trace := [] |}.

Definition session_with (df : DataFrame) : Page.World :=
  {| Page.session_state :=
       <["last_df" := App.FrameValue df]>
         (<["last_sql" := App.StrValue sample_sql]>
            (<["last_question" := App.StrValue question]> ∅));
     Page.page := []; Page.trace := [] |}.

Definition amount_text : DataFrame :=
  {| index_len := 2; cols := [("amount", Object ["12.50"; "7.25"])] |}.

(** What the environment and the widgets hand to a run. *)
Definition no_key : Page.Inputs :=
  {| Page.api_key := None; Page.user_question := question;
     Page.generate_button := true; Page.report_checkbox := true |}.

Definition pressed : Page.Inputs :=
  {| Page.api_key := Some "sk-sample"; Page.user_question := question;
     Page.generate_button := true; Page.report_checkbox := false |}.

Definition idle : Page.Inputs :=
  {| Page.api_key := Some "sk-sample"; Page.user_question := question;
     Page.generate_button := false; Page.report_checkbox := false |}.

Definition ticked : Page.Inputs :=
  {| Page.api_key := Some "sk-sample"; Page.user_question := question;
     Page.generate_button := false; Page.report_checkbox := true |}.

(** A report service that is down and one that answers, and a rendering
    of the preview. *)
Definition report_down (prompt : string) : Result string :=
  Raise (ServiceError "Connection error.").

Definition report_written (prompt : string) : Result string :=
  Ok " Volume is level across the three states.
".

Definition as_table (df : DataFrame) : Result string :=
  Ok "| state | n |".

End PageSamples.

(** * Properties *)

(** ** Strings *)

Section StringFacts.
Implicit Types s t : string.

Lemma append_cons c s t : String c s +:+ t = String c (s +:+ t).
Proof. reflexivity. Qed.

Lemma append_nil_r s : s +:+ "" = s.
Proof. induction s as [|c s IH]; [done|]. by rewrite append_cons, IH. Qed.

Lemma append_assoc s t u : (s +:+ t) +:+ u = s +:+ (t +:+ u).
Proof. induction s as [|c s IH]; [done|]. by rewrite !append_cons, IH. Qed.

Lemma rev_app_spec s t : String.rev_app s t = String.rev s +:+ t.
Proof.
  revert t. induction s as [|c s IH]; intros t; [done|].
  unfold String.rev. simpl. rewrite (IH (String c "")), IH.
  by rewrite append_assoc.
Qed.

Lemma rev_cons c s : String.rev (String c s) = String.rev s +:+ String c "".
Proof. unfold String.rev at 1. simpl. apply rev_app_spec. Qed.

Lemma rev_append s t : String.rev (s +:+ t) = String.rev t +:+ String.rev s.
Proof.
  induction s as [|c s IH].
  - by rewrite append_nil_r.
  - by rewrite append_cons, !rev_cons, IH, append_assoc.
Qed.

Lemma rev_involutive s : String.rev (String.rev s) = s.
Proof.
  induction s as [|c s IH]; [done|].
  by rewrite rev_cons, rev_append, IH.
Qed.

Lemma lstrip_led s : PyStr.led (PyStr.lstrip s).
Proof.
  induction s as [|c s IH]; simpl; [done|].
  destruct (PyStr.isspace c) eqn:E; [done | exact E].
Qed.

Lemma lstrip_fixed s : PyStr.led s -> PyStr.lstrip s = s.
Proof. destruct s as [|c s]; simpl; [done|]. by intros ->. Qed.

Lemma lstrip_snoc s c :
  PyStr.isspace c = false ->
  exists t, PyStr.lstrip (s +:+ String c "") = t +:+ String c "".
Proof.
  intros Hc. induction s as [|d s IH].
  - exists "". simpl. by rewrite Hc.
  - rewrite append_cons. simpl. destruct (PyStr.isspace d); [exact IH|].
    by exists (String d s).
Qed.

Lemma rstrip_led s : PyStr.led s -> PyStr.led (PyStr.rstrip s).
Proof.
  destruct s as [|c s]; [done|]. simpl. intros Hc.
  unfold PyStr.rstrip. rewrite rev_cons.
  destruct (lstrip_snoc (String.rev s) c Hc) as [t ->].
  by rewrite rev_append.
Qed.

Lemma rstrip_idempotent s : PyStr.rstrip (PyStr.rstrip s) = PyStr.rstrip s.
Proof.
  unfold PyStr.rstrip. rewrite rev_involutive.
  by rewrite (lstrip_fixed _ (lstrip_led _)).
Qed.

Lemma strip_idempotent s : PyStr.strip (PyStr.strip s) = PyStr.strip s.
Proof.
  unfold PyStr.strip.
  rewrite (lstrip_fixed (PyStr.rstrip (PyStr.lstrip s))).
  - apply rstrip_idempotent.
  - apply rstrip_led, lstrip_led.
Qed.

Lemma contains_cons sub c s :
  PyStr.contains sub (String c s) = false ->
  String.prefix sub (String c s) = false /\ PyStr.contains sub s = false.
Proof. simpl PyStr.contains. intros H. by apply orb_false_elim in H. Qed.

(** Replacing a substring that does not occur changes nothing. *)
Lemma replace_absent old new s :
  PyStr.contains old s = false -> PyStr.replace old new s = s.
Proof.
  unfold PyStr.replace. induction s as [|c s IH]; [done|].
  intros H. apply contains_cons in H as [Hp Hs].
  cbn [PyStr.replace_go]. rewrite Hp. by rewrite (IH Hs).
Qed.

(** The language tag in front of a body that does not mention it. *)
Lemma replace_leading_tag body :
  PyStr.contains "sql" body = false ->
  PyStr.replace "sql" "" ("sql" +:+ body) = body.
Proof.
  intros H. transitivity (PyStr.replace "sql" "" body).
  - unfold PyStr.replace. by destruct body.
  - by apply replace_absent.
Qed.

(** *** [split] and [join] *)

Lemma prefix_append sep s :
  String.prefix sep s = true -> exists rest, s = sep +:+ rest.
Proof.
  revert s. induction sep as [|a sep IH]; intros s H.
  - by exists s.
  - destruct s as [|c s]; [done|]. simpl in H.
    destruct (ascii_dec a c) as [->|]; [|done].
    destruct (IH s H) as [rest ->]. by exists rest.
Qed.

Lemma split_go_skip sep t cur rest :
  PyStr.split_go sep (String.length t) cur (t +:+ rest) =
  PyStr.split_go sep 0 cur rest.
Proof.
  induction t as [|c t IH]; [done|]. by rewrite append_cons.
Qed.

Lemma join_cons sep part parts :
  parts <> [] ->
  PyStr.join sep (part :: parts) = part +:+ sep +:+ PyStr.join sep parts.
Proof. by destruct parts. Qed.

Lemma split_go_nonempty sep skip cur s : PyStr.split_go sep skip cur s <> [].
Proof.
  revert skip cur. induction s as [|c s IH]; intros skip cur; [done|].
  destruct skip as [|skip]; cbn [PyStr.split_go]; [|apply IH].
  destruct (String.prefix sep (String c s)); [discriminate | apply IH].
Qed.

Lemma length_append s t :
  String.length (s +:+ t) = (String.length s + String.length t)%nat.
Proof. induction s as [|c s IH]; [done|]. rewrite append_cons. simpl. lia. Qed.

Lemma join_split_go sep n :
  sep <> "" ->
  forall s cur,
    (String.length s <= n)%nat ->
    PyStr.join sep (PyStr.split_go sep 0 cur s) = String.rev cur +:+ s.
Proof.
  intros Hsep. induction n as [|n IH]; intros s cur Hlen.
  - destruct s; [|simpl in Hlen; lia]. simpl. by rewrite append_nil_r.
  - destruct s as [|c s]; [simpl; by rewrite append_nil_r|].
    cbn [PyStr.split_go].
    destruct (String.prefix sep (String c s)) eqn:Hpre.
    + destruct sep as [|a sep']; [done|].
      destruct (prefix_append _ _ Hpre) as [rest Hrest].
      rewrite append_cons in Hrest. injection Hrest as -> ->.
      replace (String.length (String a sep') - 1)%nat
        with (String.length sep') by (simpl; lia).
      rewrite split_go_skip, join_cons by apply split_go_nonempty.
      rewrite IH.
      * by rewrite append_cons.
      * simpl in Hlen. rewrite length_append in Hlen. lia.
    + rewrite IH by (simpl in Hlen; lia).
      by rewrite rev_cons, append_assoc.
Qed.

(** Joining the pieces of a split with the separator gives the text
    back. *)
Lemma join_split sep s :
  sep <> "" -> PyStr.join sep (PyStr.split sep s) = s.
Proof.
  intros Hsep. unfold PyStr.split.
  by rewrite (join_split_go sep (String.length s) Hsep s "").
Qed.

End StringFacts.

(** ** Translator post-processing *)

Section TranslatorFacts.
Import Translator.

Lemma pick_part_find parts sql :
  pick_part parts sql = default sql (find has_select parts).
Proof.
  induction parts as [|part rest IH]; [done|].
  simpl. by destruct (has_select part).
Qed.

(** What the post-processing returns, by case.  With [sql] the trimmed
    response: when [sql] holds no code fence it is returned as it is.
    When it does, [sql] is cut at the fences and the first piece that
    mentions SELECT (in any letter case) is taken, or [sql] itself when
    there is none; what is returned is the text taken with "sql"
    replaced by nothing, trimmed. *)
Lemma postprocess_cases (content : string) :
  let sql := PyStr.strip content in
  let parts := PyStr.split fence sql in
  (PyStr.contains fence sql = false -> postprocess content = sql) /\
  (PyStr.contains fence sql = true ->
   (forall part, find has_select parts = Some part ->
      (PyStr.contains "sql" part = false ->
         postprocess content = PyStr.strip part) /\
      (forall body, part = "sql" +:+ body ->
         PyStr.contains "sql" body = false ->
         postprocess content = PyStr.strip body) /\
      postprocess content = PyStr.strip (PyStr.replace "sql" "" part)) /\
   (find has_select parts = None ->
      (PyStr.contains "sql" sql = false -> postprocess content = sql) /\
      postprocess content = PyStr.strip (PyStr.replace "sql" "" sql))).
Proof.
  intros sql parts. unfold postprocess. fold sql. fold parts.
  split; [by intros -> |]. intros ->. rewrite pick_part_find. split.
  - intros part ->. simpl. split; [|split; [|done]].
    + intros Hpart. by rewrite replace_absent.
    + intros body -> Hbody. by rewrite replace_leading_tag.
  - intros ->. simpl. split; [|done]. intros Hsql.
    rewrite (replace_absent _ _ _ Hsql). apply strip_idempotent.
Qed.

(** C1.  A fenced answer with its tag and without SELECT (the service
    answering with a DELETE): no piece of it is taken, and what comes
    back is neither the statement nor the trimmed answer as it was, but
    the answer with the tag deleted and the fences kept. *)
Example C1_fenced_without_select :
  PyStr.contains fence (PyStr.strip Samples.fenced_delete) = true /\
  find has_select (PyStr.split fence (PyStr.strip Samples.fenced_delete)) = None /\
  postprocess Samples.fenced_delete = "``` DELETE FROM card_transactions;```" /\
  postprocess Samples.fenced_delete <> PyStr.strip Samples.fenced_delete /\
  postprocess Samples.fenced_delete <> "DELETE FROM card_transactions;".
Proof.
  split; [by vm_compute|]. split; [by vm_compute|].
  split; [by vm_compute|]. split; intros H; by vm_compute in H.
Qed.

End TranslatorFacts.

(** ** Result validator *)

Section FloatFacts.

(** A float equal to zero is not below zero. *)
Lemma float_eq0_not_lt0 (x : float) :
  (x =? 0)%float = true -> (x <? 0)%float = false.
Proof.
  rewrite FloatAxioms.eqb_spec, FloatAxioms.ltb_spec. unfold SFeqb, SFltb.
  by destruct (SFcompare (Prim2SF x) (Prim2SF 0)) as [[]|].
Qed.

(** Below 0.1 is not above 10. *)
Lemma float_lt_tenth_not_gt_ten (x : float) :
  (x <? 0.1)%float = true -> (10 <? x)%float = false.
Proof.
  rewrite !FloatAxioms.ltb_spec.
  replace (Prim2SF 0.1) with (S754_finite false 7205759403792794 (-56))
    by (by vm_compute).
  replace (Prim2SF 10) with (S754_finite false 5629499534213120 (-49))
    by (by vm_compute).
  unfold SFltb, SFcompare.
  destruct (Prim2SF x) as [[]|[]| |[] m e]; try done.
  destruct (Z.compare_spec e (-56)), (Z.compare_spec (-49) e);
    try done; lia.
Qed.

End FloatFacts.

Section ValidatorFacts.
Import Pandas Validator.
Variable float_sum : list float -> float.

Ltac distinct_messages H :=
  cbv [msg_empty msg_count msg_total msg_negative msg_zero msg_rate msg_high
       msg_low String.append] in H;
  discriminate H.

(** A message that is there, in a list that is written out. *)
Ltac listed :=
  repeat first
    [ apply list_elem_of_here
    | apply list_elem_of_further
    | apply elem_of_app; right ].

(** Membership of a message in a list that is written out. *)
Ltac among H :=
  repeat match type of H with
    | _ ∈ [] => by apply elem_of_nil in H
    | _ ∈ _ :: _ => apply elem_of_cons in H as [H|H]
    | _ ∈ _ ++ _ => apply elem_of_app in H as [H|H]
    | _ ∈ (if ?b then _ else _) => destruct b eqn:?
    | @eq string _ _ => distinct_messages H
    end.

Lemma has_column_getitem name df :
  has_column name df = false <-> getitem name df = [].
Proof.
  unfold has_column, getitem, columns.
  induction (cols df) as [|[label column] rest IH]; [done|].
  simpl. destruct (String.eqb name label); simpl; [done | exact IH].
Qed.

Lemma numeric_format fs column :
  numeric column = true ->
  exists formatted negative,
    format_total (sum fs column) = Ok formatted /\
    lt0 (sum fs column) = Ok negative /\
    (eq0 (sum fs column) = true -> negative = false).
Proof.
  destruct column as [values|values|values|rows]; [| |done|]; intros _; simpl.
  - eexists _, _. split; [done|]. split; [done|]. lia.
  - eexists _, _. split; [done|]. split; [done|]. apply float_eq0_not_lt0.
  - eexists _, _. split; [done|]. split; done.
Qed.

(** What the amount block adds for a single numeric column. *)
Lemma amount_check_numeric df checks column :
  getitem "amount" df = [column] -> numeric column = true ->
  exists formatted negative,
    format_total (sum float_sum column) = Ok formatted /\
    lt0 (sum float_sum column) = Ok negative /\
    (eq0 (sum float_sum column) = true -> negative = false) /\
    amount_check float_sum df checks =
    Ok (checks ++ msg_total formatted ::
          if negative then [msg_negative]
          else if eq0 (sum float_sum column) then [msg_zero] else []).
Proof.
  intros Hget Hnum. unfold amount_check.
  destruct (has_column "amount" df) eqn:Hhas.
  2: { apply has_column_getitem in Hhas. congruence. }
  rewrite Hget.
  destruct (numeric_format float_sum column Hnum)
    as (formatted & negative & Hfmt & Hlt & Hz).
  exists formatted, negative. split; [done|]. split; [done|]. split; [done|].
  rewrite Hfmt, Hlt. simpl.
  destruct negative; [|destruct (eq0 _)]; by rewrite <- ?app_assoc.
Qed.

Lemma amount_check_absent df checks :
  getitem "amount" df = [] -> amount_check float_sum df checks = Ok checks.
Proof.
  intros H. apply has_column_getitem in H. unfold amount_check. by rewrite H.
Qed.

Lemma numeric_mean fs column :
  numeric column = true -> exists m, mean fs column = Ok m.
Proof. destruct column; [by eexists | by eexists | done | by eexists]. Qed.

(** What the fraud block adds for a single numeric column. *)
Lemma fraud_check_numeric df checks column :
  getitem "is_fraud" df = [column] -> numeric column = true ->
  exists m,
    mean float_sum column = Ok m /\
    fraud_check float_sum df checks =
    Ok (checks ++ msg_rate (PyNum.format_f2 false (m * 100)) ::
          if (10 <? m * 100)%float then [msg_high]
          else if (m * 100 <? 0.1)%float then [msg_low] else []).
Proof.
  intros Hget Hnum. unfold fraud_check.
  destruct (has_column "is_fraud" df) eqn:Hhas.
  2: { apply has_column_getitem in Hhas. congruence. }
  rewrite Hget. unfold fraud_rate.
  destruct (numeric_mean float_sum column Hnum) as [m Hm].
  exists m. split; [done|]. rewrite Hm. simpl.
  destruct (10 <? m * 100)%float; [|destruct (m * 100 <? 0.1)%float];
    by rewrite <- ?app_assoc.
Qed.

Lemma fraud_check_absent df checks :
  getitem "is_fraud" df = [] -> fraud_check float_sum df checks = Ok checks.
Proof.
  intros H. apply has_column_getitem in H. unfold fraud_check. by rewrite H.
Qed.

Lemma validate_shape df :
  empty df = false -> well_typed df = true ->
  exists amount fraud,
    basic_result_validation float_sum df =
    Ok {| summary := msg_count (len df) (length (columns df)) ::
                     amount ++ fraud |} /\
    amount_lines float_sum df amount /\ fraud_lines float_sum df fraud.
Proof.
  intros Hne Hwt. unfold basic_result_validation. rewrite Hne.
  apply andb_prop in Hwt as [Ha Hf].
  unfold column_well_typed in Ha, Hf. unfold amount_lines, fraud_lines.
  destruct (getitem "amount" df) as [|ca [|]] eqn:Ea; [| |done];
    destruct (getitem "is_fraud" df) as [|cf [|]] eqn:Ef; try done; simpl.
  - rewrite (amount_check_absent _ _ Ea). simpl.
    rewrite (fraud_check_absent _ _ Ef). by exists [], [].
  - rewrite (amount_check_absent _ _ Ea). simpl.
    destruct (fraud_check_numeric df [msg_count (len df) (length (columns df))]
                cf Ef Hf) as (m & Hm & ->).
    eexists [], _. split; [done|]. split; [done|]. by exists m.
  - destruct (amount_check_numeric df [msg_count (len df) (length (columns df))]
                ca Ea Ha) as (formatted & negative & Hfmt & Hlt & Hz & ->).
    simpl. rewrite (fraud_check_absent _ _ Ef).
    eexists _, []. rewrite app_nil_r. split; [done|]. split; [|done].
    by exists formatted, negative.
  - destruct (amount_check_numeric df [msg_count (len df) (length (columns df))]
                ca Ea Ha) as (formatted & negative & Hfmt & Hlt & Hz & ->).
    simpl.
    destruct (fraud_check_numeric df
                (msg_count (len df) (length (columns df)) :: msg_total formatted ::
                   (if negative then [msg_negative]
                    else if eq0 (sum float_sum ca) then [msg_zero] else []))
                cf Ef Hf) as (m & Hm & ->).
    eexists (_ :: _), (_ :: _). split; [by rewrite <- app_comm_cons|].
    split; [by exists formatted, negative | by exists m].
Qed.

(** What the amount block returns, when it returns: the lines it was
    given and those of [amount_lines], on any frame. *)
Lemma amount_check_lines df checks out :
  amount_check float_sum df checks = Ok out <->
  exists lines, out = checks ++ lines /\ amount_lines float_sum df lines.
Proof.
  unfold amount_check, amount_lines.
  destruct (has_column "amount" df) eqn:Hhas.
  - destruct (getitem "amount" df) as [|column [|c2 rest]] eqn:Hget.
    + apply has_column_getitem in Hget. congruence.
    + destruct (sum float_sum column) as [z|f|t] eqn:Hsum;
        cbn [format_total lt0 eq0 mbind Result_bind Py.bind].
      * split.
        -- intros Hout.
           exists (msg_total (PyNum.format_f2 true (PyNum.float_of_Z z)) ::
                   if z <? 0 then [msg_negative]
                   else if z =? 0 then [msg_zero] else []).
           split.
           ++ destruct (z <? 0); [|destruct (z =? 0)];
                injection Hout as <-; by rewrite <- ?app_assoc.
           ++ eexists _, _. split; [reflexivity|]. split; [reflexivity|].
              split; [lia|reflexivity].
        -- intros (lines & -> & formatted & negative & [= <-] & [= <-] & _ & ->).
           destruct (z <? 0); [|destruct (z =? 0)]; by rewrite <- ?app_assoc.
      * split.
        -- intros Hout.
           exists (msg_total (PyNum.format_f2 true f) ::
                   if (f <? 0)%float then [msg_negative]
                   else if (f =? 0)%float then [msg_zero] else []).
           split.
           ++ destruct (f <? 0)%float; [|destruct (f =? 0)%float];
                injection Hout as <-; by rewrite <- ?app_assoc.
           ++ eexists _, _. split; [reflexivity|]. split; [reflexivity|].
              split; [apply float_eq0_not_lt0|reflexivity].
        -- intros (lines & -> & formatted & negative & [= <-] & [= <-] & _ & ->).
           destruct (f <? 0)%float; [|destruct (f =? 0)%float];
             by rewrite <- ?app_assoc.
      * split; [done|]. by intros (lines & _ & formatted & negative & ? & _).
    + split; [done|]. by intros (lines & _ & ?).
  - apply has_column_getitem in Hhas. rewrite Hhas. split.
    + intros [= <-]. exists []. by rewrite app_nil_r.
    + intros (lines & -> & ->). by rewrite app_nil_r.
Qed.

(** The same for the fraud block. *)
Lemma fraud_check_lines df checks out :
  fraud_check float_sum df checks = Ok out <->
  exists lines, out = checks ++ lines /\ fraud_lines float_sum df lines.
Proof.
  unfold fraud_check, fraud_lines, fraud_rate.
  destruct (has_column "is_fraud" df) eqn:Hhas.
  - destruct (getitem "is_fraud" df) as [|column [|c2 rest]] eqn:Hget.
    + apply has_column_getitem in Hget. congruence.
    + destruct (mean float_sum column) as [m|e] eqn:Hmean;
        cbn [mbind Result_bind Py.bind].
      * split.
        -- intros Hout. eexists. split; [|exists m; split; reflexivity].
           destruct (10 <? m * 100)%float; [|destruct (m * 100 <? 0.1)%float];
             injection Hout as <-; by rewrite <- ?app_assoc.
        -- intros (lines & -> & m' & [= <-] & ->).
           destruct (10 <? m * 100)%float; [|destruct (m * 100 <? 0.1)%float];
             by rewrite <- ?app_assoc.
      * split; [done|]. by intros (lines & _ & m & ? & _).
    + split; [done|]. by intros (lines & _ & ?).
  - apply has_column_getitem in Hhas. rewrite Hhas. split.
    + intros [= <-]. exists []. by rewrite app_nil_r.
    + intros (lines & -> & ->). by rewrite app_nil_r.
Qed.

(** On any frame with rows: the reports the validator returns are the
    count line followed by the lines of the two blocks. *)
Lemma validate_returns df report :
  empty df = false ->
  basic_result_validation float_sum df = Ok report <->
  exists amount fraud,
    summary report =
      msg_count (len df) (length (columns df)) :: amount ++ fraud /\
    amount_lines float_sum df amount /\ fraud_lines float_sum df fraud.
Proof.
  intros Hne. unfold basic_result_validation. rewrite Hne. cbn [app].
  split.
  - destruct (amount_check float_sum df _) as [checks|e] eqn:Ha; [|done].
    cbn [mbind Result_bind Py.bind].
    destruct (fraud_check float_sum df checks) as [checks'|e] eqn:Hf; [|done].
    cbn [mbind Result_bind Py.bind]. intros [= <-]. cbn [summary].
    apply amount_check_lines in Ha as (amount & -> & Ha).
    apply fraud_check_lines in Hf as (fraud & -> & Hf).
    exists amount, fraud. by rewrite <- app_assoc.
  - intros (amount & fraud & Hsum & Ha & Hf). destruct report as [lines].
    cbn [summary] in Hsum. subst lines.
    assert (amount_check float_sum df [msg_count (len df) (length (columns df))]
            = Ok ([msg_count (len df) (length (columns df))] ++ amount)) as ->
      by (apply amount_check_lines; by exists amount).
    cbn [mbind Result_bind Py.bind].
    assert (fraud_check float_sum df
              ([msg_count (len df) (length (columns df))] ++ amount)
            = Ok (([msg_count (len df) (length (columns df))] ++ amount)
                  ++ fraud)) as ->
      by (apply fraud_check_lines; by exists fraud).
    cbn [mbind Result_bind Py.bind]. by rewrite <- app_assoc.
Qed.

Lemma empty_frame_report df :
  empty df = true ->
  basic_result_validation float_sum df = Ok {| summary := [msg_empty] |}.
Proof. intros H. unfold basic_result_validation. by rewrite H. Qed.

(** C2.  An empty result gets the empty-result warning and nothing else,
    whatever its columns hold: neither block is run. *)
Theorem C2_empty_result_single_warning df :
  empty df = true ->
  basic_result_validation float_sum df = Ok {| summary := [msg_empty] |}.
Proof. apply empty_frame_report. Qed.

(** C5.  For a non-empty result the report, when there is one, starts
    with the line that gives the number of rows and then the number of
    columns of the result, in decimal: "✅ Query returned R rows and C
    columns."; and there is a report for every frame on which both
    checks go through. *)
Theorem C5_count_message_first df :
  empty df = false ->
  (forall report, basic_result_validation float_sum df = Ok report ->
     exists rest,
       summary report =
       ("✅ Query returned " +:+ pretty (len df) +:+ " rows and " +:+
        pretty (length (columns df)) +:+ " columns.") :: rest) /\
  (well_typed df = true ->
     exists rest,
       basic_result_validation float_sum df =
       Ok {| summary :=
               ("✅ Query returned " +:+ pretty (len df) +:+ " rows and " +:+
                pretty (length (columns df)) +:+ " columns.") :: rest |}).
Proof.
  intros Hne. split.
  - intros report Hreport.
    apply (validate_returns df report Hne) in Hreport
      as (amount & fraud & -> & _).
    by eexists.
  - intros Hwt.
    destruct (validate_shape df Hne Hwt) as (amount & fraud & -> & _).
    by eexists.
Qed.

(** The fraud block adds none of the amount lines, and conversely. *)
Lemma fraud_lines_apart df lines :
  fraud_lines float_sum df lines ->
  (msg_zero ∉ lines) /\ (msg_negative ∉ lines) /\
  (forall formatted, (msg_total formatted ∉ lines)).
Proof.
  unfold fraud_lines.
  destruct (getitem "is_fraud" df) as [|column [|]]; [intros -> | | done].
  - repeat split; intros; apply not_elem_of_nil.
  - intros (m & _ & ->).
    repeat split; intros; intros H; among H.
Qed.

Lemma amount_lines_apart df lines :
  amount_lines float_sum df lines ->
  (msg_high ∉ lines) /\ (msg_low ∉ lines) /\
  (forall formatted, (msg_rate formatted ∉ lines)).
Proof.
  unfold amount_lines.
  destruct (getitem "amount" df) as [|column [|]]; [intros -> | | done].
  - repeat split; intros; apply not_elem_of_nil.
  - intros (formatted & negative & _ & _ & _ & ->).
    repeat split; intros; intros H; among H.
Qed.


Lemma fraud_lines_single df lines column :
  fraud_lines float_sum df lines -> In column (getitem "is_fraud" df) ->
  getitem "is_fraud" df = [column].
Proof.
  unfold fraud_lines.
  destruct (getitem "is_fraud" df) as [|c [|c2 rest]]; [done| |done].
  intros _ [->|[]]. reflexivity.
Qed.


(** C4.  For a non-empty result: whenever the validator returns a
    report, an "is_fraud" column of mean 0.05 leaves both the high-fraud
    warning and the low-sample note out of it; the first is in the
    report exactly when the rate (the mean times 100) is above 10, the
    second exactly when the rate is below 0.1.  And it returns a report,
    one column being labelled "is_fraud" and having a mean, whenever the
    amount block goes through. *)
Theorem C4_fraud_thresholds_strict df :
  empty df = false ->
  (forall report,
     basic_result_validation float_sum df = Ok report ->
     (forall column,
        In column (getitem "is_fraud" df) ->
        mean float_sum column = Ok 0.05%float ->
        (msg_high ∉ summary report) /\ (msg_low ∉ summary report)) /\
     ((msg_high ∈ summary report) <->
      exists column m,
        getitem "is_fraud" df = [column] /\ mean float_sum column = Ok m /\
        (10 <? m * 100)%float = true) /\
     ((msg_low ∈ summary report) <->
      exists column m,
        getitem "is_fraud" df = [column] /\ mean float_sum column = Ok m /\
        (m * 100 <? 0.1)%float = true)) /\
  (forall column m lines,
     getitem "is_fraud" df = [column] ->
     mean float_sum column = Ok m ->
     amount_check float_sum df [] = Ok lines ->
     exists report, basic_result_validation float_sum df = Ok report).
Proof.
  intros Hne. split.
  - intros report Hreport.
    apply (validate_returns df report Hne) in Hreport
      as (amount & fraud & -> & Ha & Hf).
    cbn [summary].
    apply amount_lines_apart in Ha as (Hah & Hal & _).
    assert (Hhigh :
      msg_high ∈ msg_count (len df) (length (columns df)) :: amount ++ fraud
      <-> exists column m,
            getitem "is_fraud" df = [column] /\
            mean float_sum column = Ok m /\ (10 <? m * 100)%float = true).
    { unfold fraud_lines in Hf.
      destruct (getitem "is_fraud" df) as [|column [|c2 rest]];
        [subst fraud| |done].
      - split; [|by intros (? & ? & ? & _)].
        intros H. among H. by apply Hah in H.
      - destruct Hf as (m & Hm & ->). split.
        + intros H. among H; [by apply Hah in H|]. by exists column, m.
        + intros (column' & m' & [= <-] & Hm' & Hgt).
          rewrite Hm in Hm'. injection Hm' as <-. rewrite Hgt. listed. }
    assert (Hlow :
      msg_low ∈ msg_count (len df) (length (columns df)) :: amount ++ fraud
      <-> exists column m,
            getitem "is_fraud" df = [column] /\
            mean float_sum column = Ok m /\ (m * 100 <? 0.1)%float = true).
    { unfold fraud_lines in Hf.
      destruct (getitem "is_fraud" df) as [|column [|c2 rest]];
        [subst fraud| |done].
      - split; [|by intros (? & ? & ? & _)].
        intros H. among H. by apply Hal in H.
      - destruct Hf as (m & Hm & ->). split.
        + intros H. among H; [by apply Hal in H|]. by exists column, m.
        + intros (column' & m' & [= <-] & Hm' & Hlt).
          rewrite Hm in Hm'. injection Hm' as <-.
          rewrite (float_lt_tenth_not_gt_ten _ Hlt), Hlt. listed. }
    split; [|by split].
    intros column Hin Hmean.
    pose proof (fraud_lines_single _ _ _ Hf Hin) as Hget. split.
    + intros H. apply Hhigh in H as (column' & m & Hget' & Hm & Hgt).
      rewrite Hget in Hget'. injection Hget' as <-.
      rewrite Hmean in Hm. injection Hm as <-. by vm_compute in Hgt.
    + intros H. apply Hlow in H as (column' & m & Hget' & Hm & Hlt).
      rewrite Hget in Hget'. injection Hget' as <-.
      rewrite Hmean in Hm. injection Hm as <-. by vm_compute in Hlt.
  - intros column m lines Hget Hmean Hamount.
    apply amount_check_lines in Hamount as (amount & _ & Ha).
    exists {| summary := msg_count (len df) (length (columns df)) ::
                         amount ++
                         msg_rate (PyNum.format_f2 false (m * 100)) ::
                         if (10 <? m * 100)%float then [msg_high]
                         else if (m * 100 <? 0.1)%float then [msg_low]
                         else [] |}.
    apply (validate_returns df _ Hne). eexists amount, _.
    split; [reflexivity|]. split; [exact Ha|].
    unfold fraud_lines. rewrite Hget. by exists m.
Qed.

(** On a frame on which both checks go through (each of "amount" and
    "is_fraud" is absent, or labels one column of numbers or of NULLs)
    the validator raises nothing and returns a report; without an
    "amount" column the report has none of the amount block's lines, and
    without an "is_fraud" column none of the fraud block's. *)
Lemma validator_returns_on_readable_columns df :
  well_typed df = true ->
  exists report,
    basic_result_validation float_sum df = Ok report /\
    (has_column "amount" df = false ->
       (msg_negative ∉ summary report) /\ (msg_zero ∉ summary report) /\
       forall formatted, (msg_total formatted ∉ summary report)) /\
    (has_column "is_fraud" df = false ->
       (msg_high ∉ summary report) /\ (msg_low ∉ summary report) /\
       forall formatted, (msg_rate formatted ∉ summary report)).
Proof.
  intros Hwt. destruct (empty df) eqn:Hempty.
  - rewrite (empty_frame_report df Hempty). eexists.
    split; [done|]. simpl.
    split; intros _; repeat split; intros; intros H; among H.
  - destruct (validate_shape df Hempty Hwt) as (amount & fraud & -> & Ha & Hf).
    eexists. split; [done|]. simpl.
    pose proof (amount_lines_apart _ _ Ha) as (Hah & Hal & Har).
    pose proof (fraud_lines_apart _ _ Hf) as (Hfz & Hfn & Hft).
    split.
    + intros Habsent. apply has_column_getitem in Habsent.
      unfold amount_lines in Ha. rewrite Habsent in Ha. subst amount.
      repeat split; intros; intros H; among H;
        first [by apply Hfz | by apply Hfn | by eapply Hft].
    + intros Habsent. apply has_column_getitem in Habsent.
      unfold fraud_lines in Hf. rewrite Habsent in Hf. subst fraud.
      repeat split; intros; intros H; among H;
        first [by apply Hah | by apply Hal | by eapply Har].
Qed.

(** With an "amount" column the line after the counts reports the
    formatted total; with an "is_fraud" column the report holds the
    formatted rate. *)
Theorem validator_reports_total_and_rate df :
  empty df = false -> well_typed df = true ->
  exists report,
    basic_result_validation float_sum df = Ok report /\
    (forall column,
       getitem "amount" df = [column] ->
       exists formatted,
         format_total (sum float_sum column) = Ok formatted /\
         summary report !! 1%nat = Some (msg_total formatted)) /\
    (forall column,
       getitem "is_fraud" df = [column] ->
       exists m,
         mean float_sum column = Ok m /\
         msg_rate (PyNum.format_f2 false (m * 100)) ∈ summary report).
Proof.
  intros Hne Hwt.
  destruct (validate_shape df Hne Hwt) as (amount & fraud & -> & Ha & Hf).
  eexists. split; [done|]. cbn [summary]. split.
  - intros column Hget. unfold amount_lines in Ha. rewrite Hget in Ha.
    destruct Ha as (formatted & negative & Hfmt & _ & _ & ->).
    by exists formatted.
  - intros column Hget. unfold fraud_lines in Hf. rewrite Hget in Hf.
    destruct Hf as (m & Hm & ->). exists m. split; [done|]. listed.
Qed.

End ValidatorFacts.

(** ** The button handler *)

Section AppFacts.
Import App.
Variable chat_completion : string -> string -> Result string.
Variable read_sql_query : string -> Result Pandas.DataFrame.
Variable SCHEMA_PROMPT : string.

Ltac run_script :=
  unfold on_generate_button, generate_sql_from_question, run_sql,
    try_except, try_finally, st_error, st_warning, st_stop, show, log,
    answer, set_state, mbind, mret, Script_bind, Script_ret;
  simpl.

Lemma is_nonempty (s : string) : s <> "" -> String.eqb s "" = false.
Proof. intros H. by apply String.eqb_neq. Qed.

(** When both steps succeed the three session keys are written and
    nothing is put on the page. *)
Lemma on_generate_button_success question content df w :
  PyStr.strip question <> "" ->
  chat_completion SCHEMA_PROMPT question = Ok content ->
  read_sql_query (Translator.postprocess content) = Ok df ->
  on_generate_button chat_completion read_sql_query SCHEMA_PROMPT question w =
  (Returned tt,
   {| session_state :=
        <["last_df" := FrameValue df]>
          (<["last_sql" := StrValue (Translator.postprocess content)]>
             (<["last_question" := StrValue question]> (session_state w)));
      page := page w;
      trace := trace w ++
               [ChatCompletion SCHEMA_PROMPT question; Connect DB_PATH;
                ReadSqlQuery (Translator.postprocess content); Close] |}).
Proof.
  intros Hq Hchat Hread. run_script.
  rewrite (is_nonempty _ Hq), Hchat. simpl. rewrite Hread. simpl.
  by rewrite <- !app_assoc.
Qed.

(** C8.  With a question to ask: if the translation call raises, or it
    answers and the query then raises, the run stops there; the session
    state is what it was, the page gains the one error message, and
    each outside call was made once. *)
Theorem C8_failure_halts_without_state_change question w :
  PyStr.strip question <> "" ->
  (forall e,
     chat_completion SCHEMA_PROMPT question = Raise e ->
     on_generate_button chat_completion read_sql_query SCHEMA_PROMPT question w =
     (Stopped,
      {| session_state := session_state w;
         page := page w ++ [Error ("Error calling OpenAI API: " +:+ exc_str e)];
         trace := trace w ++ [ChatCompletion SCHEMA_PROMPT question] |})) /\
  (forall content e,
     chat_completion SCHEMA_PROMPT question = Ok content ->
     read_sql_query (Translator.postprocess content) = Raise e ->
     on_generate_button chat_completion read_sql_query SCHEMA_PROMPT question w =
     (Stopped,
      {| session_state := session_state w;
         page := page w ++ [Error ("Error running SQL: " +:+ exc_str e)];
         trace := trace w ++
                  [ChatCompletion SCHEMA_PROMPT question; Connect DB_PATH;
                   ReadSqlQuery (Translator.postprocess content); Close] |})).
Proof.
  intros Hq. split.
  - intros e Hchat. run_script. by rewrite (is_nonempty _ Hq), Hchat.
  - intros content e Hchat Hread. run_script.
    rewrite (is_nonempty _ Hq), Hchat. simpl. rewrite Hread. simpl.
    by rewrite <- !app_assoc.
Qed.

End AppFacts.

(** ** Fixture build *)

Section RoundingFacts.

Lemma round_half_even_div_bounds n d lo hi :
  0 < d -> lo * d <= n <= hi * d ->
  lo <= PyNum.round_half_even_div n d <= hi.
Proof.
  intros Hd [Hlo Hhi]. unfold PyNum.round_half_even_div.
  pose proof (Z.div_mod n d ltac:(lia)) as Hdm.
  pose proof (Z.mod_pos_bound n d Hd) as Hr.
  assert (lo <= n / d) by (apply Z.div_le_lower_bound; lia).
  assert (n / d <= hi) by (apply Z.div_le_upper_bound; lia).
  destruct (Z.compare_spec (2 * (n mod d)) d) as [Heq|Hlt|Hgt].
  - destruct (Z.even (n / d)); [lia|]. nia.
  - lia.
  - nia.
Qed.

End RoundingFacts.

(** *** Binary64 rounding

    The operations of [SpecFloat] round an exact product or sum
    [m * 2^e] by shifting [m] to the right and looking at the bits that
    fall off.  What is needed here is that the result stays between two
    integers the exact value lies between. *)

Section RoundingBounds.

Lemma iter_pos_nat {A : Type} (f : A -> A) p x :
  SpecFloat.iter_pos f p x = Nat.iter (Pos.to_nat p) f x.
Proof.
  revert x. induction p as [p IH|p IH|]; intros x; cbn [SpecFloat.iter_pos].
  - rewrite !IH, <- Nat.iter_add, <- Nat.iter_succ_r. f_equal. lia.
  - rewrite !IH, <- Nat.iter_add. f_equal. lia.
  - reflexivity.
Qed.

(** Some bit that fell off was 1. *)
Definition inexact (mrs : shr_record) : bool := shr_r mrs || shr_s mrs.

Lemma shr_1_spec mrs :
  0 <= shr_m mrs ->
  shr_m (shr_1 mrs) = shr_m mrs / 2 /\
  inexact (shr_1 mrs) = Z.odd (shr_m mrs) || inexact mrs.
Proof.
  destruct mrs as [m r s]. cbn [shr_m]. intros Hm.
  rewrite <- Z.div2_div. unfold inexact.
  destruct m as [|[p|p|]|p]; cbn; try lia; auto.
Qed.

Lemma shr_iter n m :
  0 <= m ->
  let mrs := Nat.iter n shr_1 {| shr_m := m; shr_r := false; shr_s := false |} in
  shr_m mrs = m / 2 ^ Z.of_nat n /\
  (inexact mrs = false <-> m mod 2 ^ Z.of_nat n = 0).
Proof.
  intros Hm. induction n as [|n IH].
  - cbn. rewrite Z.div_1_r, Z.mod_1_r. tauto.
  - cbv zeta in *. rewrite Nat.iter_succ. destruct IH as [IHm IHi].
    set (st := Nat.iter n shr_1 _) in *.
    assert (0 < 2 ^ Z.of_nat n) as Hpow by (apply Z.pow_pos_nonneg; lia).
    assert (0 <= shr_m st) as Hst.
    { rewrite IHm. apply Z.div_pos; lia. }
    destruct (shr_1_spec st Hst) as [H1 H2].
    replace (2 ^ Z.of_nat (S n)) with (2 ^ Z.of_nat n * 2)
      by (rewrite Nat2Z.inj_succ, Z.pow_succ_r; lia).
    split.
    + rewrite H1, IHm, Z.div_div; lia.
    + rewrite H2, Z.rem_mul_r by lia. rewrite orb_false_iff, IHi, IHm.
      rewrite Zmod_odd.
      pose proof (Z.mod_pos_bound m (2 ^ Z.of_nat n) Hpow).
      destruct (Z.odd (m / 2 ^ Z.of_nat n)); split; intros; try split;
        try lia; auto.
Qed.

Lemma shr_exact m e n :
  0 <= m -> 0 < n ->
  exists mrs,
    shr {| shr_m := m; shr_r := false; shr_s := false |} e n = (mrs, e + n) /\
    shr_m mrs = m / 2 ^ n /\
    (inexact mrs = false <-> m mod 2 ^ n = 0).
Proof.
  intros Hm Hn. destruct n as [|p|p]; try lia.
  cbn [shr]. eexists. split; [reflexivity|].
  rewrite iter_pos_nat, <- (positive_nat_Z p).
  apply (shr_iter (Pos.to_nat p) m Hm).
Qed.

Lemma round_nearest_even_bounds mrs :
  let m1 := round_nearest_even (shr_m mrs) (loc_of_shr_record mrs) in
  shr_m mrs <= m1 <= shr_m mrs + 1 /\
  (inexact mrs = false -> m1 = shr_m mrs).
Proof.
  destruct mrs as [m [|] [|]]; cbn; try destruct (Z.even m);
    split; try lia; try discriminate; auto.
Qed.

(** [m * 2^e] lies between the integers [L] and [H]. *)
Definition fits (L H m e : Z) : Prop :=
  e <= 0 /\ L * 2 ^ (- e) <= m <= H * 2 ^ (- e).

Lemma digits2_pos_size p : digits2_pos p = Pos.size p.
Proof. induction p; cbn; congruence. Qed.

Lemma fexp_nonpos H m e :
  H < 2 ^ 53 -> 0 <= m -> e <= 0 -> m <= H * 2 ^ (- e) ->
  fexp prec emax (Zdigits2 m + e) <= 0.
Proof.
  intros HH Hm He Hle. unfold fexp, emin, prec, emax.
  apply Z.max_lub; [|lia].
  destruct m as [|p|p]; [cbn; lia| |lia].
  cbn [Zdigits2]. rewrite digits2_pos_size.
  assert (0 < 2 ^ (- e)) as Hpow by (apply Z.pow_pos_nonneg; lia).
  assert (2 ^ Z.pos (Pos.size p) < 2 ^ (54 - e)) as Hlt.
  { pose proof (Pos.size_le p) as Hs.
    apply Pos2Z.pos_le_pos in Hs. rewrite Pos2Z.inj_pow in Hs.
    replace (54 - e) with (1 + 53 + - e) by lia.
    rewrite !Z.pow_add_r by lia. change (2 ^ 1) with 2.
    change (Z.pos p~0) with (2 * Z.pos p) in Hs. nia. }
  apply Z.pow_lt_mono_r_iff in Hlt; lia.
Qed.

(** One shift to the exponent the format asks for: the mantissa that is
    left, and the one rounded to nearest, stay between the bounds. *)
Lemma shr_fexp_fits L H m e :
  0 <= L -> H < 2 ^ 53 -> 0 <= m -> fits L H m e ->
  exists mrs e',
    shr_fexp prec emax m e loc_Exact = (mrs, e') /\
    0 <= shr_m mrs /\
    fits L H (shr_m mrs) e' /\
    fits L H (round_nearest_even (shr_m mrs) (loc_of_shr_record mrs)) e'.
Proof.
  intros HL HH Hm [He [Hlo Hhi]].
  pose proof (fexp_nonpos H m e HH Hm He Hhi) as Hfexp.
  unfold shr_fexp. cbn [shr_record_of_loc].
  set (n := fexp prec emax (Zdigits2 m + e) - e) in *.
  destruct (Z.lt_ge_cases 0 n) as [Hn|Hn].
  - destruct (shr_exact m e n Hm Hn) as (mrs & -> & Hmrs & Hex).
    exists mrs, (e + n). split; [reflexivity|].
    assert (0 < 2 ^ n) as Hpn by (apply Z.pow_pos_nonneg; lia).
    assert (0 < 2 ^ (- (e + n))) as Hpe by (apply Z.pow_pos_nonneg; lia).
    assert (2 ^ (- e) = 2 ^ (- (e + n)) * 2 ^ n) as Hsplit.
    { rewrite <- Z.pow_add_r by lia. f_equal. lia. }
    rewrite Hsplit in Hlo, Hhi.
    assert (L * 2 ^ (- (e + n)) <= m / 2 ^ n) as Hlow.
    { apply Z.div_le_lower_bound; [lia|]. nia. }
    assert (0 <= m / 2 ^ n) as Hpos by (apply Z.div_pos; lia).
    destruct (round_nearest_even_bounds mrs) as [[Hr1 Hr2] Hr3].
    rewrite Hmrs in *.
    assert (round_nearest_even (m / 2 ^ n) (loc_of_shr_record mrs)
            <= H * 2 ^ (- (e + n))) as Hup.
    { pose proof (Z.div_mod m (2 ^ n) ltac:(lia)) as Hdm.
      pose proof (Z.mod_pos_bound m (2 ^ n) Hpn) as Hmod.
      destruct (Z.eq_dec (m mod 2 ^ n) 0) as [Hz|Hnz].
      - rewrite Hr3 by (apply Hex; exact Hz). nia.
      - assert (m / 2 ^ n < H * 2 ^ (- (e + n))) by nia. lia. }
    unfold fits. repeat split; try lia.
  - assert (shr {| shr_m := m; shr_r := false; shr_s := false |} e n
            = ({| shr_m := m; shr_r := false; shr_s := false |}, e)) as ->.
    { destruct n; try lia; reflexivity. }
    eexists _, _. split; [reflexivity|]. cbn. unfold fits. repeat split; lia.
Qed.

(** A binary64 that is not negative and whose value lies between the
    integers [L] and [H]. *)
Definition within (L H : Z) (x : spec_float) : Prop :=
  match x with
  | S754_zero _ => L <= 0
  | S754_finite false m e => fits L H (Z.pos m) e
  | _ => False
  end.

Definition between (L H : Z) (x : float) : Prop := within L H (Prim2SF x).

Lemma binary_round_aux_within L H m e :
  0 <= L -> H < 2 ^ 53 -> 0 <= m -> fits L H m e ->
  within L H (binary_round_aux prec emax false m e loc_Exact).
Proof.
  intros HL HH Hm Hfits. unfold binary_round_aux.
  destruct (shr_fexp_fits L H m e HL HH Hm Hfits)
    as (mrs1 & e1 & -> & Hm1 & Hf1 & Hr1).
  set (m1 := round_nearest_even (shr_m mrs1) (loc_of_shr_record mrs1)) in *.
  assert (0 <= m1) as Hm1'.
  { pose proof (round_nearest_even_bounds mrs1) as [[? ?] _]. unfold m1. lia. }
  destruct (shr_fexp_fits L H m1 e1 HL HH Hm1' Hr1)
    as (mrs2 & e2 & -> & Hm2 & Hf2 & _).
  destruct (shr_m mrs2) as [|p|p] eqn:E; [| |lia].
  - cbn. destruct Hf2 as [He2 [Hlo _]].
    assert (0 < 2 ^ (- e2)) by (apply Z.pow_pos_nonneg; lia). nia.
  - destruct Hf2 as [He2 Hb].
    replace (e2 <=? emax - prec) with true
      by (symmetry; apply Z.leb_le; unfold emax, prec; lia).
    cbn. split; assumption.
Qed.

Lemma pos_iter_xO m d : Z.pos (Pos.iter xO m d) = Z.pos m * 2 ^ Z.pos d.
Proof.
  induction d as [|d IH] using Pos.peano_ind.
  - cbn. lia.
  - rewrite Pos.iter_succ, Pos2Z.inj_xO, IH, Pos2Z.inj_succ, Z.pow_succ_r; lia.
Qed.

Lemma shl_align_value m e e' mz ez :
  shl_align m e e' = (mz, ez) ->
  ez <= e /\ Z.pos mz = Z.pos m * 2 ^ (e - ez).
Proof.
  unfold shl_align. destruct (e' - e) as [|d|d] eqn:E; intros [= <- <-].
  - rewrite Z.sub_diag. cbn. lia.
  - rewrite Z.sub_diag. cbn. lia.
  - rewrite pos_iter_xO. split; [lia|]. do 2 f_equal. lia.
Qed.

Lemma fits_shift L H m e ez :
  ez <= e -> fits L H m e -> fits L H (m * 2 ^ (e - ez)) ez.
Proof.
  intros Hez [He [Hlo Hhi]]. unfold fits.
  assert (0 < 2 ^ (e - ez)) by (apply Z.pow_pos_nonneg; lia).
  assert (2 ^ (- ez) = 2 ^ (- e) * 2 ^ (e - ez)) as ->.
  { rewrite <- Z.pow_add_r by lia. f_equal. lia. }
  repeat split; nia.
Qed.

Lemma binary_round_within L H m e :
  0 <= L -> H < 2 ^ 53 -> fits L H (Z.pos m) e ->
  within L H (binary_round prec emax false m e).
Proof.
  intros HL HH Hfits. unfold binary_round.
  destruct (shl_align m e _) as [mz ez] eqn:E.
  apply shl_align_value in E as [Hez Hmz].
  apply binary_round_aux_within; try assumption; try lia.
  rewrite Hmz. apply fits_shift; assumption.
Qed.

Lemma within_weaken L H L' H' x :
  L' <= L -> H <= H' -> within L H x -> within L' H' x.
Proof.
  intros HL HH. destruct x as [ | | |[|] m e]; cbn; try tauto; try lia.
  intros [He [Hlo Hhi]]. unfold fits.
  assert (0 < 2 ^ (- e)) by (apply Z.pow_pos_nonneg; lia).
  repeat split; nia.
Qed.

(** A product of two such numbers, rounded. *)
Lemma mul_within H1 H2 x y :
  0 <= H1 -> 0 <= H2 -> H1 * H2 < 2 ^ 53 ->
  within 0 H1 x -> within 0 H2 y ->
  within 0 (H1 * H2) (SF64mul x y).
Proof.
  intros Hh1 Hh2 HH Hx Hy.
  destruct x as [ | | |[|] mx ex]; cbn in Hx; try tauto;
    destruct y as [ | | |[|] my ey]; cbn in Hy; try tauto; cbn; try lia.
  destruct Hx as [Hex [_ Hx]], Hy as [Hey [_ Hy]].
  apply binary_round_aux_within; try lia.
  unfold fits. rewrite Pos2Z.inj_mul.
  assert (0 < 2 ^ (- ex)) by (apply Z.pow_pos_nonneg; lia).
  assert (0 < 2 ^ (- ey)) by (apply Z.pow_pos_nonneg; lia).
  replace (- (ex + ey)) with (- ex + - ey) by lia.
  rewrite Z.pow_add_r by lia. repeat split; nia.
Qed.

(** A sum of two such numbers, the first at least 1, rounded. *)
Lemma add_within L1 H1 H2 x y :
  1 <= L1 -> 0 <= H2 -> H1 + H2 < 2 ^ 53 ->
  within L1 H1 x -> within 0 H2 y ->
  within L1 (H1 + H2) (SF64add x y).
Proof.
  intros HL Hh2 HH Hx Hy.
  destruct x as [ | | |[|] mx ex]; cbn in Hx; try tauto; try lia.
  destruct y as [ | | |[|] my ey]; cbn in Hy; try tauto.
  - cbn. apply (within_weaken L1 H1 L1 (H1 + H2)
                  (S754_finite false mx ex)); [lia | lia | exact Hx].
  - unfold SF64add, SFadd. cbn [cond_Zopp].
    destruct (shl_align mx ex (Z.min ex ey)) as [ax ez1] eqn:E1.
    destruct (shl_align my ey (Z.min ex ey)) as [ay ez2] eqn:E2.
    cbn [fst]. change (Z.pos ax + Z.pos ay) with (Z.pos (ax + ay)).
    cbn [binary_normalize].
    assert (fits L1 H1 (Z.pos ax) (Z.min ex ey) /\
            fits 0 H2 (Z.pos ay) (Z.min ex ey)) as [Fx Fy].
    { unfold shl_align in E1, E2.
      destruct (Z.min ex ey - ex) as [|d|d] eqn:D1;
        destruct (Z.min ex ey - ey) as [|d'|d'] eqn:D2; try lia;
        injection E1 as <- <-; injection E2 as <- <-;
        rewrite ?pos_iter_xO.
      - replace (Z.min ex ey) with ex by lia. split; [exact Hx|].
        replace ex with ey by lia. exact Hy.
      - replace (Z.min ex ey) with ex by lia. split; [exact Hx|].
        replace (Z.pos d') with (ey - ex) by lia.
        apply fits_shift; [lia | exact Hy].
      - replace (Z.min ex ey) with ey by lia. split; [|exact Hy].
        replace (Z.pos d) with (ex - ey) by lia.
        apply fits_shift; [lia | exact Hx]. }
    apply binary_round_within; try lia.
    destruct Fx as [He [Hlo Hhi]], Fy as [_ [Hlo' Hhi']].
    unfold fits. rewrite Pos2Z.inj_add. repeat split; lia.
Qed.

(** [random()] lies between 0 and 1. *)
Lemma random_within (k : N) :
  between 0 1
    (of_uint63 (Uint63.of_Z (Z.of_N (k mod 2 ^ 53))) * 0x1p-53)%float.
Proof.
  unfold between. rewrite mul_spec, of_uint63_spec.
  pose proof (N.mod_upper_bound k (2 ^ 53) ltac:(done)) as Hk.
  set (j := (k mod 2 ^ 53)%N) in *.
  assert (0 <= Z.of_N j < 2 ^ 53) as Hj.
  { split; [lia|]. change (2 ^ 53) with (Z.of_N (2 ^ 53)). lia. }
  rewrite Uint63.of_Z_spec, Z.mod_small
    by (change Uint63.wB with (2 ^ 63); lia).
  change (Prim2SF 0x1p-53)
    with (S754_finite false 4503599627370496 (-105)).
  destruct (Z.of_N j) as [|p|p] eqn:E; [cbn; lia| |lia].
  cbn [binary_normalize].
  assert (within 0 (2 ^ 53 - 1) (binary_round prec emax false p 0)) as Hp.
  { apply binary_round_within; try lia. unfold fits. cbn. lia. }
  destruct (binary_round prec emax false p 0) as [ | | |[|] m e];
    cbn [within] in Hp; try tauto.
  destruct Hp as [He [_ Hm]].
  change (SF64mul (S754_finite false m e)
            (S754_finite false 4503599627370496 (-105)))
    with (binary_round_aux prec emax false
            (Z.pos (m * 4503599627370496)) (e + -105) loc_Exact).
  apply binary_round_aux_within; try lia.
  unfold fits. rewrite Pos2Z.inj_mul.
  assert (0 < 2 ^ (- e)) by (apply Z.pow_pos_nonneg; lia).
  replace (- (e + -105)) with (- e + 105) by lia.
  rewrite Z.pow_add_r by lia. repeat split; lia.
Qed.

(** [uniform(5, 5000)] lies between 5 and 5000, the two roundings of
    [5 + 4995 * random()] included. *)
Lemma uniform_within (k : N) :
  between 5 5000
    (5 + (5000 - 5) *
         (of_uint63 (Uint63.of_Z (Z.of_N (k mod 2 ^ 53))) * 0x1p-53))%float.
Proof.
  unfold between. change (5000 - 5)%float with 4995%float.
  rewrite add_spec, mul_spec.
  change 5000 with (5 + 4995 * 1). apply add_within; try lia.
  - change (Prim2SF 5) with (S754_finite false 5629499534213120 (-50)).
    cbn. unfold fits. cbn. lia.
  - apply mul_within; try lia.
    + change (Prim2SF 4995) with (S754_finite false 5492060580741120 (-40)).
      cbn. unfold fits. cbn. lia.
    + apply random_within.
Qed.

(** Rounded to hundredths, a float between 5 and 5000 is the binary64
    nearest to [cents / 100] for some [cents] from 500 to 500000. *)
Lemma round2_cents (x : float) :
  between 5 5000 x ->
  exists cents,
    PyNum.round2 x = PyNum.float_of_ratio cents 100 /\ 500 <= cents <= 500000.
Proof.
  unfold between, PyNum.round2.
  destruct (Prim2SF x) as [ | | |[|] m e]; cbn [within]; try tauto; try lia.
  intros [He [Hlo Hhi]]. exists (PyNum.hundredths m e). split; [reflexivity|].
  unfold PyNum.hundredths. destruct (Z.leb_spec 0 e) as [H0|H0].
  - replace e with 0 in * by lia. cbn in *. lia.
  - assert (0 < 2 ^ (- e)) by (apply Z.pow_pos_nonneg; lia).
    apply round_half_even_div_bounds; [lia|]. lia.
Qed.

End RoundingBounds.


Section SqliteFacts.
Import Sqlite.

Lemma max_rowid_nonneg t : 0 <= max_rowid t.
Proof.
  unfold max_rowid. induction (rows t) as [|r rest IH]; simpl; lia.
Qed.

Lemma max_rowid_snoc sch auto rws r :
  max_rowid {| schema := sch; autoincrement := auto; rows := rws ++ [r] |} =
  Z.max (max_rowid {| schema := sch; autoincrement := auto; rows := rws |})
        (rowid r).
Proof.
  unfold max_rowid. simpl. induction rws as [|r' rest IH]; simpl; lia.
Qed.

Lemma insert_rows_autoincrement name names n seq_of_params :
  forall db t,
    tables db !! name = Some t ->
    autoincrement t = true ->
    max_rowid t <= default 0 (sqlite_sequence db !! name) ->
    Forall (fun params => length params = n) seq_of_params ->
    exists db',
      insert_rows name names n seq_of_params db = Ok db' /\
      tables db' =
      <[name := {| schema := schema t; autoincrement := true;
                   rows := rows t ++
                           stored names (default 0 (sqlite_sequence db !! name))
                             seq_of_params |}]> (tables db).
Proof.
  induction seq_of_params as [|params rest IH]; intros db t Ht Hauto Hmax Hlen.
  - exists db. split; [done|]. unfold stored. simpl. rewrite app_nil_r.
    rewrite <- Hauto. destruct t. by rewrite insert_id.
  - apply Forall_cons in Hlen as [Hp Hrest].
    set (last := default 0 (sqlite_sequence db !! name)) in *.
    simpl. unfold insert_row. rewrite Hp, Nat.eqb_refl, Ht. simpl.
    assert (Hid : next_rowid name t db = last + 1).
    { unfold next_rowid. rewrite Hauto. fold last. lia. }
    rewrite Hid, Hauto.
    match goal with
    | |- context [insert_rows _ _ _ _ ?d] => set (db1 := d)
    end.
    set (row := {| rowid := last + 1; cells := combine names params |}).
    set (t1 := {| schema := schema t; autoincrement := true;
                  rows := rows t ++ [row] |}).
    destruct (IH db1 t1) as (db' & Hrun & Htables); subst db1; simpl.
    + apply lookup_insert_eq.
    + done.
    + rewrite lookup_insert_eq. simpl. unfold t1. rewrite max_rowid_snoc.
      destruct t as [sch auto rws]. simpl in *. unfold max_rowid in *.
      simpl in *. lia.
    + done.
    + exists db'. split; [exact Hrun|]. rewrite Htables. simpl.
      rewrite insert_insert_eq, lookup_insert_eq. simpl. f_equal. f_equal.
      rewrite <- app_assoc. f_equal. unfold stored. simpl.
      rewrite Z.add_0_r. f_equal. apply imap_ext. intros i x _. simpl.
      f_equal. lia.
Qed.

(** [executemany] into a table just created. *)
Lemma executemany_fresh_table sql seq_of_params db columns :
  tables db !! insert_table sql =
    Some {| schema := columns; autoincrement := true; rows := [] |} ->
  sqlite_sequence db !! insert_table sql = None ->
  forallb (fun c => existsb (same_name c) columns) (insert_columns sql) = true ->
  length (insert_values sql) = length (insert_columns sql) ->
  Forall (fun params => length params = placeholders sql) seq_of_params ->
  exists db',
    executemany sql seq_of_params db = Ok db' /\
    tables db' !! insert_table sql =
      Some {| schema := columns; autoincrement := true;
              rows := stored (insert_columns sql) 0 seq_of_params |}.
Proof.
  intros Ht Hseq Hcols Hvalues Hlen. unfold executemany.
  rewrite Ht. cbn [schema]. rewrite Hcols, Hvalues, Nat.eqb_refl.
  cbn [negb].
  destruct (insert_rows_autoincrement (insert_table sql) (insert_columns sql)
              (placeholders sql) seq_of_params db _ Ht eq_refl)
    as (db' & Hrun & Htables).
  - rewrite Hseq. cbn. lia.
  - exact Hlen.
  - exists db'. split; [exact Hrun|].
    rewrite Htables, lookup_insert_eq, Hseq. reflexivity.
Qed.

Lemma create_table_after_drop name columns db :
  exists db',
    create_table name columns true (drop_table_if_exists name db) = Ok db' /\
    tables db' !! name =
      Some {| schema := columns; autoincrement := true; rows := [] |} /\
    sqlite_sequence db' !! name = None.
Proof.
  unfold create_table, drop_table_if_exists. cbn [tables sqlite_sequence].
  rewrite lookup_delete_eq. eexists. split; [reflexivity|].
  cbn [tables sqlite_sequence]. by rewrite lookup_insert_eq, lookup_delete_eq.
Qed.

Lemma stored_rowids names last seq_of_params :
  map rowid (stored names last seq_of_params) =
  (fun i => last + 1 + Z.of_nat i) <$> seq 0 (length seq_of_params).
Proof.
  unfold stored. revert last.
  induction seq_of_params as [|params rest IH]; intros last; [done|].
  simpl. f_equal.
  rewrite <- fmap_S_seq, <- list_fmap_compose.
  transitivity ((fun i => last + 1 + 1 + Z.of_nat i) <$> seq 0 (length rest)).
  - rewrite <- (IH (last + 1)). f_equal. apply imap_ext. intros i x _. simpl.
    f_equal. lia.
  - apply list_fmap_ext. intros i x _. simpl. lia.
Qed.

Lemma stored_length names last seq_of_params :
  length (stored names last seq_of_params) = length seq_of_params.
Proof. apply length_imap. Qed.

Lemma stored_elem names last seq_of_params row :
  row ∈ stored names last seq_of_params ->
  exists params, params ∈ seq_of_params /\ cells row = combine names params.
Proof.
  unfold stored. intros H. apply elem_of_lookup_imap in H as (i & params & -> & H).
  exists params. split; [|done]. by eapply list_elem_of_lookup_2.
Qed.

End SqliteFacts.

Section RandomFacts.
Import Random.

Lemma randbelow_range (n k : N) : (0 < n)%N -> (k mod n < n)%N.
Proof. intros H. apply N.mod_upper_bound. lia. Qed.

Lemma randbelow_range_Z (n k : N) :
  (0 < n)%N -> 0 <= Z.of_N (k mod n) < Z.of_N n.
Proof.
  intros H. split; [apply N2Z.is_nonneg|].
  by apply N2Z.inj_lt, randbelow_range.
Qed.

Lemma choice_elem (seq : list string) (k : N) :
  seq <> [] ->
  In (nth (N.to_nat (k mod N.of_nat (length seq))) seq EmptyString) seq.
Proof.
  intros Hne. apply nth_In.
  assert (0 < N.of_nat (length seq))%N by (destruct seq; [done | simpl; lia]).
  pose proof (randbelow_range (N.of_nat (length seq)) k ltac:(done)). lia.
Qed.

End RandomFacts.

Section CalendarFacts.
Import Datetime.

Lemma days_before_year_cycles n400 n100 n4 n1 :
  0 <= n100 <= 3 -> 0 <= n4 <= 24 -> 0 <= n1 <= 3 ->
  days_before_year (n400 * 400 + 1 + n100 * 100 + n4 * 4 + n1) =
  n400 * 146097 + n100 * 36524 + n4 * 1461 + n1 * 365.
Proof.
  intros H100 H4 H1. unfold days_before_year. cbv zeta.
  replace (n400 * 400 + 1 + n100 * 100 + n4 * 4 + n1 - 1)
    with (n400 * 400 + n100 * 100 + n4 * 4 + n1) by lia.
  set (y := n400 * 400 + n100 * 100 + n4 * 4 + n1).
  assert (y / 4 = n400 * 100 + n100 * 25 + n4) as ->
    by (symmetry; apply (Z.div_unique y 4 _ n1); unfold y; lia).
  assert (y / 100 = n400 * 4 + n100) as ->
    by (symmetry; apply (Z.div_unique y 100 _ (n4 * 4 + n1)); unfold y; lia).
  assert (y / 400 = n400) as ->
    by (symmetry;
        apply (Z.div_unique y 400 _ (n100 * 100 + n4 * 4 + n1)); unfold y; lia).
  unfold y. lia.
Qed.

Lemma is_leap_cycles n400 n100 n4 n1 :
  0 <= n100 <= 3 -> 0 <= n4 <= 24 -> 0 <= n1 <= 3 ->
  is_leap (n400 * 400 + 1 + n100 * 100 + n4 * 4 + n1) =
  (n1 =? 3) && (negb (n4 =? 24) || (n100 =? 3)).
Proof.
  intros H100 H4 H1. unfold is_leap.
  set (year := n400 * 400 + 1 + n100 * 100 + n4 * 4 + n1).
  assert (year mod 4 = (n1 + 1) mod 4) as ->.
  { unfold year.
    replace (n400 * 400 + 1 + n100 * 100 + n4 * 4 + n1)
      with (n1 + 1 + (n400 * 100 + n100 * 25 + n4) * 4) by lia.
    apply Z.mod_add. lia. }
  assert (year mod 100 = (n4 * 4 + n1 + 1) mod 100) as ->.
  { unfold year.
    replace (n400 * 400 + 1 + n100 * 100 + n4 * 4 + n1)
      with (n4 * 4 + n1 + 1 + (n400 * 4 + n100) * 100) by lia.
    apply Z.mod_add. lia. }
  assert (year mod 400 = (n100 * 100 + n4 * 4 + n1 + 1) mod 400) as ->.
  { unfold year.
    replace (n400 * 400 + 1 + n100 * 100 + n4 * 4 + n1)
      with (n100 * 100 + n4 * 4 + n1 + 1 + n400 * 400) by lia.
    apply Z.mod_add. lia. }
  destruct (Z.eqb_spec n1 3) as [->|Hn1].
  - destruct (Z.eqb_spec n4 24) as [->|Hn4].
    + destruct (Z.eqb_spec n100 3) as [->|Hn100]; [reflexivity|].
      assert (n100 = 0 \/ n100 = 1 \/ n100 = 2) as [->|[->| ->]] by lia;
        reflexivity.
    + replace ((3 + 1) mod 4) with 0 by reflexivity.
      rewrite (Z.mod_small (n4 * 4 + 3 + 1)) by lia.
      destruct (Z.eqb_spec (n4 * 4 + 3 + 1) 0); [lia|]. reflexivity.
  - rewrite (Z.mod_small (n1 + 1)) by lia.
    destruct (Z.eqb_spec (n1 + 1) 0); [lia|]. reflexivity.
Qed.

(** [_ymd2ord] undoes [_ord2ymd]. *)
Lemma ymd2ord_ord2ymd ordinal :
  1 <= ordinal ->
  let '(year, month, day) := ord2ymd ordinal in
  ymd2ord year month day = ordinal.
Proof.
  intros Hord. unfold ord2ymd. cbv zeta.
  set (n0 := ordinal - 1).
  set (n400 := n0 / 146097). set (r400 := n0 mod 146097).
  set (n100 := r400 / 36524). set (r100 := r400 mod 36524).
  set (n4 := r100 / 1461). set (r4 := r100 mod 1461).
  set (n1 := r4 / 365). set (n := r4 mod 365).
  pose proof (Z.div_mod n0 146097 ltac:(lia)) as E400.
  pose proof (Z.mod_pos_bound n0 146097 ltac:(lia)) as B400.
  pose proof (Z.div_mod r400 36524 ltac:(lia)) as E100.
  pose proof (Z.mod_pos_bound r400 36524 ltac:(lia)) as B100.
  pose proof (Z.div_mod r100 1461 ltac:(lia)) as E4.
  pose proof (Z.mod_pos_bound r100 1461 ltac:(lia)) as B4.
  pose proof (Z.div_mod r4 365 ltac:(lia)) as E1.
  pose proof (Z.mod_pos_bound r4 365 ltac:(lia)) as B1.
  fold n400 r400 in E400, B400. fold n100 r100 in E100, B100.
  fold n4 r4 in E4, B4. fold n1 n in E1, B1.
  assert (n0 = ordinal - 1) as En0 by reflexivity.
  clearbody n n1 r4 n4 r100 n100 r400 n400 n0.
  destruct (Z.eqb_spec n1 4) as [H1|H1];
    [|destruct (Z.eqb_spec n100 4) as [H100|H100]]; cbn [orb].
  - unfold ymd2ord.
    replace (n400 * 400 + 1 + n100 * 100 + n4 * 4 + n1 - 1)
      with (n400 * 400 + 1 + n100 * 100 + n4 * 4 + 3) by lia.
    rewrite days_before_year_cycles, is_leap_cycles by lia.
    destruct (Z.eqb_spec n4 24); [lia|]. cbn. lia.
  - unfold ymd2ord.
    replace (n400 * 400 + 1 + n100 * 100 + n4 * 4 + n1 - 1)
      with ((n400 + 1) * 400 + 1 + 3 * 100 + 24 * 4 + 3 - 400) by lia.
    replace ((n400 + 1) * 400 + 1 + 3 * 100 + 24 * 4 + 3 - 400)
      with (n400 * 400 + 1 + 3 * 100 + 24 * 4 + 3) by lia.
    rewrite days_before_year_cycles, is_leap_cycles by lia.
    cbn. lia.
  - rewrite Z.shiftr_div_pow2 by lia.
    set (month := (n + 50) / 2 ^ 5).
    pose proof (Z.div_mod (n + 50) (2 ^ 5) ltac:(lia)) as Em.
    pose proof (Z.mod_pos_bound (n + 50) (2 ^ 5) ltac:(lia)) as Bm.
    fold month in Em. change (2 ^ 5) with 32 in Em, Bm.
    assert (days_before_year (n400 * 400 + 1 + n100 * 100 + n4 * 4 + n1) =
            n400 * 146097 + n100 * 36524 + n4 * 1461 + n1 * 365) as Hdby
      by (apply days_before_year_cycles; lia).
    assert (is_leap (n400 * 400 + 1 + n100 * 100 + n4 * 4 + n1) =
            (n1 =? 3) && (negb (n4 =? 24) || (n100 =? 3))) as Hleap
      by (apply is_leap_cycles; lia).
    set (leapyear := (n1 =? 3) && (negb (n4 =? 24) || (n100 =? 3))) in *.
    set (year := n400 * 400 + 1 + n100 * 100 + n4 * 4 + n1) in *.
    clearbody month leapyear year.
    assert (month = 1 \/ month = 2 \/ month = 3 \/ month = 4 \/ month = 5 \/
            month = 6 \/ month = 7 \/ month = 8 \/ month = 9 \/ month = 10 \/
            month = 11 \/ month = 12) as Hmonth by lia.
    destruct Hmonth as [->|[->|[->|[->|[->|[->|[->|[->|[->|[->|[->| ->]]]]]]]]]]];
      destruct leapyear; cbn;
      match goal with
      | |- context [n <? ?p] => destruct (Z.ltb_spec n p)
      end;
      unfold ymd2ord; rewrite Hdby, Hleap;
      repeat match goal with
        | |- context [days_in_month ?m] =>
            let v := eval vm_compute in (days_in_month m) in
            change (days_in_month m) with v
        | |- context [days_before_month ?m] =>
            let v := eval vm_compute in (days_before_month m) in
            change (days_before_month m) with v
        | |- context [(?a =? 2)] =>
            let v := eval vm_compute in (a =? 2) in
            change (a =? 2) with v
        | |- context [(2 <? ?a)] =>
            let v := eval vm_compute in (2 <? a) in
            change (2 <? a) with v
        end;
      cbn [andb]; lia.
Qed.

End CalendarFacts.

Section InitDbFacts.
Import Random Sqlite InitDb.

Lemma make_row_shape today g : row_shape today (fst (make_row today g)).
Proof.
  unfold row_shape.
  cbv [make_row randint choice uniform random randbelow next_raw mbind mret
       Rand_bind Rand_ret fst Datetime.minus_days].
  destruct (round2_cents _ (uniform_within (g 6%nat)))
    as (cents & Hcents & Hrange).
  eexists _, _, _, _, _, _, cents, _, _. split; [by rewrite Hcents|].
  change (Z.to_N (99999 - 10000 + 1)) with 90000%N.
  change (Z.to_N (365 - 0 + 1)) with 366%N.
  pose proof (randbelow_range_Z 90000 (g 0%nat) ltac:(done)).
  pose proof (randbelow_range_Z 366 (g 5%nat) ltac:(done)).
  repeat split; try lia; try (by apply choice_elem).
  match goal with
  | |- context [(?r <? 0.03)%float] => destruct (r <? 0.03)%float
  end; [by right | by left].
Qed.

Lemma generate_rows_shape today n :
  forall g,
    length (fst (generate_rows today n g)) = n /\
    Forall (row_shape today) (fst (generate_rows today n g)).
Proof.
  induction n as [|n IH]; intros g; [done|].
  cbn [generate_rows]. unfold mbind, mret, Rand_bind, Rand_ret.
  pose proof (make_row_shape today g) as Hrow.
  destruct (make_row today g) as [row g1].
  specialize (IH g1). destruct (generate_rows today n g1) as [rest g2].
  simpl in *. destruct IH as [-> Hrest]. split; [done|].
  by apply Forall_cons.
Qed.

Lemma row_shape_length today params :
  row_shape today params -> length params = 9%nat.
Proof. by intros (? & ? & ? & ? & ? & ? & ? & ? & ? & -> & _). Qed.

Lemma insert_sql_table : insert_table insert_sql = "card_transactions".
Proof. by vm_compute. Qed.

Lemma insert_sql_columns :
  insert_columns insert_sql =
  ["customer_id"; "state"; "card_type"; "channel"; "transaction_date";
   "amount"; "is_fraud"; "merchant_cat"; "product_version"].
Proof. by vm_compute. Qed.

Lemma insert_sql_values : length (insert_values insert_sql) = 9%nat.
Proof. by vm_compute. Qed.

Lemma insert_sql_placeholders : placeholders insert_sql = 9%nat.
Proof. by vm_compute. Qed.

(** A build succeeds from any store, and leaves in [card_transactions]
    exactly the generated rows, numbered from 1. *)
Lemma create_db_result today g db :
  exists built,
    create_db today g db = Ok built /\
    transactions (store built) =
    stored (insert_columns insert_sql) 0 (fst (generate_rows today 5000 g)).
Proof.
  unfold create_db.
  destruct (create_table_after_drop "card_transactions" table_columns db)
    as (db1 & -> & Htable & Hseq).
  cbn [mbind Result_bind Py.bind].
  destruct (generate_rows_shape today 5000 g) as [_ Hshape].
  destruct (generate_rows today 5000 g) as [rows g']. cbn [fst] in *.
  rewrite <- insert_sql_table in Htable, Hseq.
  destruct (executemany_fresh_table insert_sql rows db1 table_columns
              Htable Hseq) as (db2 & -> & Hrows).
  - by vm_compute.
  - by vm_compute.
  - rewrite insert_sql_placeholders. eapply Forall_impl; [exact Hshape|].
    intros params. apply row_shape_length.
  - cbn [mbind Result_bind Py.bind]. eexists. split; [reflexivity|].
    cbn [store]. unfold transactions. rewrite <- insert_sql_table.
    by rewrite Hrows.
Qed.

End InitDbFacts.

Section FixtureClaims.
Import Random Sqlite InitDb.

Lemma rowids_from_one n :
  (fun i => 0 + 1 + Z.of_nat i) <$> seq 0 n = Z.of_nat <$> seq 1 n.
Proof.
  rewrite <- fmap_S_seq, <- list_fmap_compose.
  apply list_fmap_ext. intros i x _. simpl. lia.
Qed.

Lemma rowids_distinct n : NoDup (Z.of_nat <$> seq 1 n).
Proof. apply NoDup_fmap_2; [intros x y; apply Nat2Z.inj | apply NoDup_seq]. Qed.

(** The identifiers a build leaves are 1, 2, ..., 5000. *)
Lemma create_db_rowids today g db built :
  create_db today g db = Ok built ->
  map rowid (transactions (store built)) = Z.of_nat <$> seq 1 5000.
Proof.
  intros Hbuilt.
  destruct (create_db_result today g db) as (built' & Hrun & Hrows).
  rewrite Hrun in Hbuilt. injection Hbuilt as <-.
  rewrite Hrows, stored_rowids.
  rewrite (proj1 (generate_rows_shape today 5000 g)).
  apply rowids_from_one.
Qed.

(** C6.  Two builds in a row, from any store: both succeed, and the
    table then holds 5000 rows whose identifiers are 1, 2, ..., 5000 in
    order, without repetition; what the table holds after a build is the
    same whatever store the build started from. *)
Theorem C6_rebuild_replaces_table today1 g1 today2 g2 db :
  exists first second,
    create_db today1 g1 db = Ok first /\
    create_db today2 g2 (store first) = Ok second /\
    length (transactions (store second)) = 5000%nat /\
    map rowid (transactions (store second)) = Z.of_nat <$> seq 1 5000 /\
    NoDup (map rowid (transactions (store second))) /\
    (forall other built,
       create_db today2 g2 other = Ok built ->
       transactions (store built) = transactions (store second)).
Proof.
  destruct (create_db_result today1 g1 db) as (first & Hfirst & _).
  destruct (create_db_result today2 g2 (store first))
    as (second & Hsecond & Hrows).
  exists first, second. split; [exact Hfirst|]. split; [exact Hsecond|].
  pose proof (create_db_rowids _ _ _ _ Hsecond) as Hids.
  split; [|split; [exact Hids|split]].
  - rewrite Hrows, stored_length.
    exact (proj1 (generate_rows_shape today2 5000 g2)).
  - rewrite Hids. apply rowids_distinct.
  - intros other built Hbuilt.
    destruct (create_db_result today2 g2 other) as (built' & Hrun & Hrows').
    rewrite Hrun in Hbuilt. injection Hbuilt as <-.
    rewrite Hrows'. symmetry. exact Hrows.
Qed.

Lemma generate_rows_succ today n g :
  fst (generate_rows today (S n) g) =
  fst (make_row today g) ::
  fst (generate_rows today n (snd (make_row today g))).
Proof.
  cbn [generate_rows]. unfold mbind, mret, Rand_bind, Rand_ret.
  destruct (make_row today g) as [row g1]. cbn [snd].
  by destruct (generate_rows today n g1).
Qed.

Lemma stored_cons names last params rest :
  stored names last (params :: rest) =
  {| rowid := last + 1; cells := combine names params |} ::
  stored names (last + 1) rest.
Proof.
  unfold stored. cbn [imap]. f_equal; [f_equal; lia|].
  apply imap_ext. intros i x _. cbn. f_equal. lia.
Qed.

(** The first row of a build is the first pass of the loop, stored
    under the identifier 1. *)
Lemma create_db_first_row today g db built :
  create_db today g db = Ok built ->
  exists rest,
    transactions (store built) =
    {| rowid := 1;
       cells := combine (insert_columns insert_sql) (fst (make_row today g)) |}
    :: rest.
Proof.
  intros Hbuilt.
  destruct (create_db_result today g db) as (built' & Hrun & Hrows).
  rewrite Hrun in Hbuilt. injection Hbuilt as <-. rewrite Hrows.
  change 5000%nat with (S 4999).
  rewrite generate_rows_succ, stored_cons. eexists. reflexivity.
Qed.

(** C7.  Every row a build leaves has an identifier of its own.  Its
    transaction date is the build date moved back by 0 to 365 days,
    written as year, month and day of that day (the day they stand for,
    for a day of the calendar).  Its amount is the binary64 nearest to a
    whole number of hundredths from 5.00 to 5000.00. *)
Theorem C7_fixture_row_invariants today g db :
  exists built,
    create_db today g db = Ok built /\
    NoDup (map rowid (transactions (store built))) /\
    Forall
      (fun row =>
         exists days_ago year month day cents,
           0 <= days_ago <= 365 /\
           Datetime.ord2ymd (today - days_ago) = (year, month, day) /\
           cell "transaction_date" row =
             SqlText (pretty year +:+ "-" +:+ PyNum.two_digits month +:+ "-" +:+
                      PyNum.two_digits day) /\
           (1 <= today - days_ago ->
            Datetime.ymd2ord year month day = today - days_ago) /\
           500 <= cents <= 500000 /\
           cell "amount" row = SqlReal (PyNum.float_of_ratio cents 100))
      (transactions (store built)).
Proof.
  destruct (create_db_result today g db) as (built & Hrun & Hrows).
  exists built. split; [exact Hrun|]. split.
  - rewrite (create_db_rowids _ _ _ _ Hrun). apply rowids_distinct.
  - rewrite Hrows. apply Forall_forall. intros row Hrow.
    apply stored_elem in Hrow as (params & Hparams & Hcells).
    pose proof (proj2 (generate_rows_shape today 5000 g)) as Hshape.
    rewrite Forall_forall in Hshape. specialize (Hshape params Hparams).
    destruct Hshape
      as (customer_id & state & card_type & channel & merchant_cat &
          days_ago & cents & is_fraud & product_version & -> & _ & _ & _ &
          _ & _ & Hdays & Hcents & _).
    destruct (Datetime.ord2ymd (today - days_ago)) as [[year month] day] eqn:E.
    exists days_ago, year, month, day, cents.
    unfold cell. rewrite Hcells, insert_sql_columns.
    clear Hparams Hrows Hrun Hcells.
    split; [exact Hdays|]. split; [exact E|].
    split; [cbn; unfold Datetime.strftime_ymd; by rewrite E|].
    split.
    + intros Hday. pose proof (ymd2ord_ord2ymd _ Hday) as Hback.
      by rewrite E in Hback.
    + split; [exact Hcents|reflexivity].
Qed.

(** A build on 2026-11-05 whose first pass draws 30 days and the number
    103010261747163 for the amount: the first row is dated 2026-10-06
    and holds 62.12. *)
Lemma C7_fixture_row_invariants_witness :
  exists built row rest,
    create_db Samples.a_day Samples.draws empty_db = Ok built /\
    transactions (store built) = row :: rest /\
    cell "transaction_date" row = SqlText "2026-10-06" /\
    cell "amount" row = SqlReal 62.12%float /\
    exists days_ago year month day cents,
      0 <= days_ago <= 365 /\
      Datetime.ord2ymd (Samples.a_day - days_ago) = (year, month, day) /\
      cell "transaction_date" row =
        SqlText (pretty year +:+ "-" +:+ PyNum.two_digits month +:+ "-" +:+
                 PyNum.two_digits day) /\
      (1 <= Samples.a_day - days_ago ->
       Datetime.ymd2ord year month day = Samples.a_day - days_ago) /\
      500 <= cents <= 500000 /\
      cell "amount" row = SqlReal (PyNum.float_of_ratio cents 100).
Proof.
  destruct (C7_fixture_row_invariants Samples.a_day Samples.draws empty_db)
    as (built & Hrun & _ & Hrows).
  destruct (create_db_first_row _ _ _ _ Hrun) as (rest & Hfirst).
  rewrite Hfirst in Hrows. apply Forall_cons in Hrows as [Hrow _].
  eexists built, _, rest. split; [exact Hrun|]. split; [exact Hfirst|].
  split; [vm_compute; reflexivity|]. split; [vm_compute; reflexivity|].
  exact Hrow.
Defined.

End FixtureClaims.

Section InsertStatements.
Import Random Sqlite.

Lemma earlier_make_row_shape today g :
  exists nine,
    fst (EarlierVariant.make_row today g) = nine ++ [SqlText "Grocery"] /\
    length nine = 9%nat.
Proof.
  cbv [EarlierVariant.make_row randint choice uniform random randbelow
       next_raw mbind mret Rand_bind Rand_ret fst].
  by eexists [_; _; _; _; _; _; _; _; _].
Qed.

(** C10 (as amended).  The second [create_db] inserts with nine distinct
    columns, nine placeholders and nine bound values.  The first one
    names the same nine columns and then "merchant_cat" once more, with
    ten placeholders and ten bound values, the tenth being the constant
    "Grocery": the column list repeats a name, and the counts agree. *)
Theorem C10_insert_statements :
  (placeholders InitDb.insert_sql = 9%nat /\
   length (insert_values InitDb.insert_sql) = 9%nat /\
   length (insert_columns InitDb.insert_sql) = 9%nat /\
   NoDup (insert_columns InitDb.insert_sql) /\
   forall today g, length (fst (InitDb.make_row today g)) = 9%nat) /\
  (placeholders EarlierVariant.insert_sql = 10%nat /\
   length (insert_values EarlierVariant.insert_sql) = 10%nat /\
   insert_columns EarlierVariant.insert_sql =
     insert_columns InitDb.insert_sql ++ ["merchant_cat"] /\
   In "merchant_cat" (insert_columns InitDb.insert_sql) /\
   forall today g,
     length (fst (EarlierVariant.make_row today g)) = 10%nat).
Proof.
  split.
  - split; [by vm_compute|]. split; [by vm_compute|]. split; [by vm_compute|].
    split.
    + rewrite insert_sql_columns. apply (bool_decide_unpack _). by vm_compute.
    + intros today g. eapply row_shape_length, make_row_shape.
  - split; [by vm_compute|]. split; [by vm_compute|]. split; [by vm_compute|].
    split.
    + rewrite insert_sql_columns. simpl. tauto.
    + intros today g.
      destruct (earlier_make_row_shape today g) as (nine & -> & Hnine).
      rewrite length_app, Hnine. reflexivity.
Qed.

(** In the first [create_db] the placeholders, the VALUES list, the
    column list and the bound tuple all count ten: no count differs. *)
Lemma C10_no_count_mismatch :
  placeholders EarlierVariant.insert_sql =
    length (fst (EarlierVariant.make_row Samples.a_day Samples.zeros)) /\
  length (insert_values EarlierVariant.insert_sql) =
    length (insert_columns EarlierVariant.insert_sql) /\
  placeholders EarlierVariant.insert_sql = 10%nat.
Proof. split; [by vm_compute|]. split; by vm_compute. Qed.

End InsertStatements.

(** ** The claims at sample inputs *)

Section Witnesses.
Import Pandas Validator App Samples.

Lemma C2_empty_result_single_warning_witness :
  basic_result_validation left_to_right no_rows =
  Ok {| summary := [msg_empty] |}.
Proof. exact (C2_empty_result_single_warning left_to_right no_rows eq_refl). Defined.


(** C3.  A charge and its refund next to an "is_fraud" column of text:
    the amounts add up to zero, the fraud block raises a TypeError, and
    the validator returns no message at all, the zero-amount warning
    included. *)
Example C3_zero_sum_text_flag_raises :
  empty zero_sum_text_flag = false /\
  getitem "amount" zero_sum_text_flag = [Float64 [120.5; -120.5]%float] /\
  eq0 (sum left_to_right (Float64 [120.5; -120.5]%float)) = true /\
  basic_result_validation left_to_right zero_sum_text_flag =
    Raise (TypeError "Could not convert string to numeric") /\
  ~ exists report,
      basic_result_validation left_to_right zero_sum_text_flag = Ok report /\
      (msg_zero ∈ summary report).
Proof.
  split; [reflexivity|]. split; [reflexivity|]. split; [reflexivity|].
  split; [reflexivity|]. by intros (report & Hrun & _).
Qed.

Lemma C4_fraud_thresholds_strict_witness :
  mean left_to_right (Int64 (1 :: repeat 0 19)) = Ok 0.05%float /\
  exists report,
    basic_result_validation left_to_right one_in_twenty = Ok report /\
    (msg_high ∉ summary report) /\ (msg_low ∉ summary report).
Proof.
  split; [reflexivity|].
  destruct (C4_fraud_thresholds_strict left_to_right one_in_twenty eq_refl)
    as [Hlines Hreturns].
  destruct (Hreturns (Int64 (1 :: repeat 0 19)) _ _ eq_refl eq_refl eq_refl)
    as (report & Hrun).
  exists report. split; [exact Hrun|].
  exact (proj1 (Hlines report Hrun) _ (or_introl eq_refl) eq_refl).
Defined.

Lemma C5_count_message_first_witness :
  exists rest,
    basic_result_validation left_to_right counts_by_state =
    Ok {| summary := "✅ Query returned 3 rows and 2 columns." :: rest |}.
Proof.
  exact (proj2 (C5_count_message_first left_to_right counts_by_state eq_refl)
           eq_refl).
Defined.

Lemma question_not_blank : PyStr.strip question <> "".
Proof. intros H. vm_compute in H. discriminate H. Defined.

Lemma C8_failure_halts_without_state_change_witness :
  on_generate_button chat_down store_rejects "" question fresh_run =
    (Stopped,
     {| session_state := ∅;
        page := [Error "Error calling OpenAI API: Connection error."];
        trace := [ChatCompletion "" question] |}) /\
  on_generate_button chat_fenced store_rejects "" question fresh_run =
    (Stopped,
     {| session_state := ∅;
        page := [Error "Error running SQL: no such table: card_transactions"];
        trace := [ChatCompletion "" question; Connect DB_PATH;
                  ReadSqlQuery (Translator.postprocess fenced_select);
                  Close] |}).
Proof.
  split.
  - exact (proj1 (C8_failure_halts_without_state_change chat_down
                    store_rejects "" question fresh_run question_not_blank)
             _ eq_refl).
  - exact (proj2 (C8_failure_halts_without_state_change chat_fenced
                    store_rejects "" question fresh_run question_not_blank)
             _ _ eq_refl eq_refl).
Defined.

Example validator_returns_on_counts :
  exists report,
    basic_result_validation left_to_right counts_by_state = Ok report /\
    (msg_negative ∉ summary report) /\ (msg_zero ∉ summary report) /\
    (msg_high ∉ summary report) /\ (msg_low ∉ summary report).
Proof.
  destruct (validator_returns_on_readable_columns left_to_right
              counts_by_state eq_refl)
    as (report & Hrun & Hamount & Hfraud).
  exists report. split; [exact Hrun|].
  destruct (Hamount eq_refl) as (Hnegative & Hzero & _).
  destruct (Hfraud eq_refl) as (Hhigh & Hlow & _).
  auto.
Defined.

(** C9.  Two columns of numbers that both carry the label "amount" (as
    in SELECT a.amount, b.amount): the validator raises a TypeError, at
    the line that formats the total, and returns no report. *)
Example C9_repeated_amount_raises :
  basic_result_validation left_to_right amount_twice =
  Raise (TypeError "unsupported format string passed to Series.__format__").
Proof. reflexivity. Qed.

Lemma on_generate_button_success_witness :
  on_generate_button chat_fenced store_answers "" question fresh_run =
  (Returned tt,
   {| session_state :=
        <["last_df" := FrameValue counts_by_state]>
          (<["last_sql" := StrValue (Translator.postprocess fenced_select)]>
             (<["last_question" := StrValue question]> ∅));
      page := [];
      trace := [ChatCompletion "" question; Connect DB_PATH;
                ReadSqlQuery (Translator.postprocess fenced_select); Close] |}).
Proof.
  exact (on_generate_button_success chat_fenced store_answers "" question
           fenced_select counts_by_state fresh_run question_not_blank
           eq_refl eq_refl).
Defined.

Lemma validator_reports_total_and_rate_witness :
  exists report,
    basic_result_validation left_to_right refund_pair = Ok report /\
    summary report !! 1%nat = Some (msg_total "0.00") /\
    (msg_rate "0.00" ∈ summary report).
Proof.
  destruct (validator_reports_total_and_rate left_to_right refund_pair
              eq_refl eq_refl) as (report & Hrun & Hamount & Hfraud).
  exists report. split; [exact Hrun|].
  destruct (Hamount _ eq_refl) as (formatted & Hfmt & Hline).
  destruct (Hfraud _ eq_refl) as (m & Hm & Hrate).
  change (format_total (sum left_to_right (Float64 [120.5; -120.5]%float)))
    with (@Ok string "0.00") in Hfmt.
  change (mean left_to_right (Int64 [0; 0])) with (@Ok float 0%float) in Hm.
  injection Hfmt as <-. injection Hm as <-.
  split; [exact Hline | exact Hrate].
Defined.

End Witnesses.

(** ** Further properties *)

Section EarlierVariantFacts.
Import Random Sqlite.

Lemma earlier_row_shape today g :
  EarlierVariant.row_shape (fst (EarlierVariant.make_row today g)).
Proof.
  unfold EarlierVariant.row_shape.
  cbv [EarlierVariant.make_row randint choice uniform random randbelow
       next_raw mbind mret Rand_bind Rand_ret fst].
  eexists _, _, _, _, _, _, _, _, _. split; [reflexivity|].
  by apply choice_elem.
Qed.

Lemma earlier_generate_rows_shape today n :
  forall g,
    length (fst (EarlierVariant.generate_rows today n g)) = n /\
    Forall EarlierVariant.row_shape
           (fst (EarlierVariant.generate_rows today n g)).
Proof.
  induction n as [|n IH]; intros g; [done|].
  cbn [EarlierVariant.generate_rows]. unfold mbind, mret, Rand_bind, Rand_ret.
  pose proof (earlier_row_shape today g) as Hrow.
  destruct (EarlierVariant.make_row today g) as [row g1].
  specialize (IH g1).
  destruct (EarlierVariant.generate_rows today n g1) as [rest g2].
  simpl in *. destruct IH as [-> Hrest]. split; [done|].
  by apply Forall_cons.
Qed.

Lemma earlier_row_length params :
  EarlierVariant.row_shape params -> length params = 10%nat.
Proof. by intros (? & ? & ? & ? & ? & ? & ? & ? & ? & -> & _). Qed.

Lemma earlier_insert_sql_table :
  insert_table EarlierVariant.insert_sql = "card_transactions".
Proof. by vm_compute. Qed.

Lemma earlier_insert_sql_columns :
  insert_columns EarlierVariant.insert_sql =
  ["customer_id"; "state"; "card_type"; "channel"; "transaction_date";
   "amount"; "is_fraud"; "merchant_cat"; "product_version"; "merchant_cat"].
Proof. by vm_compute. Qed.

(** The tuple of the [i]-th pass: ten values, the eighth the category
    drawn in that pass (its sixth draw), the tenth the constant. *)
Lemma earlier_generate_rows_lookup today n :
  forall g i params,
    fst (EarlierVariant.generate_rows today n g) !! i = Some params ->
    exists v1 v2 v3 v4 v5 v6 v7 v9,
      params =
      [v1; v2; v3; v4; v5; v6; v7;
       SqlText (nth (N.to_nat (g (10 * i + 5)%nat mod 7))
                    EarlierVariant.merchant_cats "");
       v9; SqlText "Grocery"].
Proof.
  induction n as [|n IH]; intros g i params; [done|].
  cbn [EarlierVariant.generate_rows]. unfold mbind, mret, Rand_bind, Rand_ret.
  destruct (EarlierVariant.make_row today g) as [row g1] eqn:Hrow.
  specialize (IH g1).
  destruct (EarlierVariant.generate_rows today n g1) as [rest g2].
  cbn [fst] in *.
  cbv [EarlierVariant.make_row randint choice uniform random randbelow
       next_raw mbind mret Rand_bind Rand_ret] in Hrow.
  injection Hrow as <- <-.
  destruct i as [|i]; cbn [lookup list_lookup].
  - intros [= <-]. by eexists _, _, _, _, _, _, _, _.
  - intros Hi. destruct (IH i params Hi) as (v1 & v2 & v3 & v4 & v5 & v6 &
                                              v7 & v9 & ->).
    eexists _, _, _, _, _, _, _, _. do 7 f_equal.
    replace (10 * S i + 5)%nat with (10 + (10 * i + 5))%nat by lia.
    reflexivity.
Qed.

(** Under this model of the store, where a column named twice keeps the
    first value bound to it, the earlier build runs on a store that has
    no [card_transactions] yet and leaves 5000 rows.  The "merchant_cat"
    of the [i]-th row is the eighth value bound for it, which is the
    category the [i]-th pass drew (the sixth of its ten draws, the
    second taken from [merchant_cats]); it is not the constant "Grocery"
    bound in the tenth place, unless that is what was drawn. *)
Theorem earlier_variant_build_runs today g db :
  tables db !! "card_transactions" = None ->
  sqlite_sequence db !! "card_transactions" = None ->
  exists built,
    EarlierVariant.create_db today g db = Ok built /\
    length (InitDb.transactions (InitDb.store built)) = 5000%nat /\
    forall i row,
      InitDb.transactions (InitDb.store built) !! i = Some row ->
      exists params category,
        fst (EarlierVariant.generate_rows today 5000 g) !! i = Some params /\
        category = nth (N.to_nat (g (10 * i + 5)%nat mod 7))
                       EarlierVariant.merchant_cats "" /\
        params !! 7%nat = Some (SqlText category) /\
        params !! 9%nat = Some (SqlText "Grocery") /\
        cell "merchant_cat" row = SqlText category.
Proof.
  intros Htable Hseq.
  unfold EarlierVariant.create_db, create_table_if_not_exists, create_table.
  rewrite Htable. cbn [mbind Result_bind Py.bind].
  unfold delete_from. cbn [tables sqlite_sequence].
  rewrite lookup_insert_eq.
  cbn [mbind Result_bind Py.bind schema autoincrement].
  destruct (earlier_generate_rows_shape today 5000 g) as [Hlen Hshape].
  pose proof (earlier_generate_rows_lookup today 5000 g) as Hlookup.
  destruct (EarlierVariant.generate_rows today 5000 g) as [rows g'].
  cbn [fst] in *.
  match goal with
  | |- context [executemany _ _ ?d] => set (db1 := d)
  end.
  destruct (executemany_fresh_table EarlierVariant.insert_sql rows db1
              EarlierVariant.table_columns) as (db2 & -> & Hrows).
  - rewrite earlier_insert_sql_table. subst db1. cbn [tables].
    by rewrite insert_insert_eq, lookup_insert_eq.
  - rewrite earlier_insert_sql_table. subst db1. by cbn [sqlite_sequence].
  - by vm_compute.
  - by vm_compute.
  - eapply Forall_impl; [exact Hshape|]. intros params Hparams.
    rewrite (earlier_row_length _ Hparams). by vm_compute.
  - cbn [mbind Result_bind Py.bind]. eexists. split; [reflexivity|].
    cbn [InitDb.store]. unfold InitDb.transactions.
    rewrite <- earlier_insert_sql_table, Hrows. cbn [Sqlite.rows].
    split; [by rewrite stored_length|].
    clear Hrows Hshape Hlen. intros i row Hrow.
    unfold stored in Hrow. rewrite list_lookup_imap in Hrow.
    destruct (rows !! i) as [params|] eqn:Hparams; [|done].
    injection Hrow as <-.
    destruct (Hlookup i params Hparams)
      as (v1 & v2 & v3 & v4 & v5 & v6 & v7 & v9 & ->).
    eexists _, _. split; [reflexivity|]. split; [reflexivity|].
    split; [reflexivity|]. split; [reflexivity|].
    reflexivity.
Qed.

(** A build whose first pass draws the number 30 for the category: the
    first row holds "Dining". *)
Lemma earlier_variant_build_runs_witness :
  exists built row,
    EarlierVariant.create_db Samples.a_day Samples.draws empty_db = Ok built /\
    length (InitDb.transactions (InitDb.store built)) = 5000%nat /\
    InitDb.transactions (InitDb.store built) !! 0%nat = Some row /\
    cell "merchant_cat" row = SqlText "Dining".
Proof.
  destruct (earlier_variant_build_runs Samples.a_day Samples.draws empty_db
              eq_refl eq_refl) as (built & Hrun & Hlen & Hrows).
  destruct (lookup_lt_is_Some_2 (InitDb.transactions (InitDb.store built))
              0%nat) as [row Hrow].
  { rewrite Hlen. apply Nat.lt_0_succ. }
  exists built, row. split; [exact Hrun|]. split; [exact Hlen|].
  split; [exact Hrow|].
  destruct (Hrows 0%nat row Hrow) as (params & category & _ & -> & _ & _ & Hcell).
  exact Hcell.
Defined.

End EarlierVariantFacts.

Section FixtureRows.
Import Random Sqlite InitDb.

(** Every row of a build is drawn from the enumerated pools: the
    customer identifier has five digits, state, card tier, channel and
    merchant category come from their lists, the fraud flag is 0 or 1
    and the variant is A or B. *)
Theorem fixture_rows_enumerated today g db :
  exists built,
    create_db today g db = Ok built /\
    Forall
      (fun row =>
         (exists id, 10000 <= id <= 99999 /\ cell "customer_id" row = SqlInt id) /\
         (exists state, In state states /\ cell "state" row = SqlText state) /\
         (exists tier, In tier card_types /\ cell "card_type" row = SqlText tier) /\
         (exists channel,
            In channel channels /\ cell "channel" row = SqlText channel) /\
         (exists category,
            In category merchant_cats /\
            cell "merchant_cat" row = SqlText category) /\
         (exists flag,
            (flag = 0 \/ flag = 1) /\ cell "is_fraud" row = SqlInt flag) /\
         (exists variant,
            In variant ["A"; "B"] /\
            cell "product_version" row = SqlText variant))
      (transactions (store built)).
Proof.
  destruct (create_db_result today g db) as (built & Hrun & Hrows).
  exists built. split; [exact Hrun|].
  rewrite Hrows. apply Forall_forall. intros row Hrow.
  apply stored_elem in Hrow as (params & Hparams & Hcells).
  pose proof (proj2 (generate_rows_shape today 5000 g)) as Hshape.
  rewrite Forall_forall in Hshape. specialize (Hshape params Hparams).
  destruct Hshape
    as (customer_id & state & card_type & channel & merchant_cat &
        days_ago & cents & is_fraud & product_version & -> & Hid & Hstate &
        Htier & Hchannel & Hcategory & _ & _ & Hflag & Hvariant).
  unfold cell. rewrite Hcells, insert_sql_columns.
  clear Hparams Hrows Hrun Hcells.
  split; [by exists customer_id|]. split; [by exists state|].
  split; [by exists card_type|]. split; [by exists channel|].
  split; [by exists merchant_cat|]. split; [by exists is_fraud|].
  by exists product_version.
Qed.

End FixtureRows.

Section HandlerCases.
Import App Samples.

(** A blank question gets the warning and ends the run: no outside call
    is made and the session is untouched. *)
Theorem blank_question_stops chat read prompt question w :
  PyStr.strip question = "" ->
  on_generate_button chat read prompt question w =
  (Stopped,
   {| session_state := session_state w;
      page := page w ++ [Warning "Please enter a question first."];
      trace := trace w |}).
Proof.
  intros Hblank.
  unfold on_generate_button, st_warning, st_stop, show, mbind, Script_bind.
  by rewrite Hblank.
Qed.

Lemma blank_question_stops_witness :
  on_generate_button chat_fenced store_rejects "" "   " fresh_run =
  (Stopped,
   {| session_state := ∅;
      page := [Warning "Please enter a question first."];
      trace := [] |}).
Proof.
  exact (blank_question_stops chat_fenced store_rejects "" "   " fresh_run
           eq_refl).
Defined.

(** The tag removal reaches into the statement: a name that contains
    "sql" loses it. *)
Example tag_removal_inside_statement :
  Translator.postprocess fenced_master = "SELECT name FROM ite_master;".
Proof. by vm_compute. Qed.

End HandlerCases.

(** ** Extraction: what it keeps of the response *)

Section ExtractionFacts.
Import Translator.
Implicit Types s t : string.

Lemma string_length_rev s : String.length (String.rev s) = String.length s.
Proof.
  induction s as [|c s IH]; [done|].
  rewrite rev_cons, length_append, IH. simpl. lia.
Qed.

Lemma length_lstrip s : (String.length (PyStr.lstrip s) <= String.length s)%nat.
Proof.
  induction s as [|c s IH]; simpl; [done|].
  destruct (PyStr.isspace c); simpl; lia.
Qed.

Lemma length_strip s : (String.length (PyStr.strip s) <= String.length s)%nat.
Proof.
  unfold PyStr.strip, PyStr.rstrip. rewrite string_length_rev.
  etransitivity; [apply length_lstrip|]. rewrite string_length_rev.
  apply length_lstrip.
Qed.

Lemma length_remove old skip s :
  (String.length (PyStr.replace_go old "" skip s) <= String.length s)%nat.
Proof.
  revert skip. induction s as [|c s IH]; intros skip; [done|].
  cbn [PyStr.replace_go].
  destruct skip as [|skip];
    [|specialize (IH skip); cbn [String.length]; lia].
  destruct (String.prefix old (String c s)).
  - specialize (IH (String.length old - 1)%nat).
    rewrite length_append. cbn [String.length]. lia.
  - specialize (IH O). cbn [String.length]. lia.
Qed.

Lemma length_split_go sep s :
  forall skip cur part,
    part ∈ PyStr.split_go sep skip cur s ->
    (String.length part <= String.length cur + String.length s)%nat.
Proof.
  induction s as [|c s IH]; intros skip cur part Hpart.
  - apply list_elem_of_singleton in Hpart as ->. rewrite string_length_rev. lia.
  - cbn [PyStr.split_go] in Hpart. destruct skip as [|skip].
    + destruct (String.prefix sep (String c s)).
      * apply elem_of_cons in Hpart as [->|Hpart].
        -- rewrite string_length_rev. lia.
        -- apply IH in Hpart. simpl in *. lia.
      * apply IH in Hpart. simpl in *. lia.
    + apply IH in Hpart. simpl. lia.
Qed.

Lemma length_pick_part parts sql n :
  (forall part, part ∈ parts -> (String.length part <= n)%nat) ->
  (String.length sql <= n)%nat ->
  (String.length (pick_part parts sql) <= n)%nat.
Proof.
  intros Hparts Hsql. induction parts as [|part rest IH]; [done|].
  simpl. destruct (has_select part).
  - apply Hparts. left.
  - apply IH. intros p Hp. apply Hparts. by right.
Qed.

(** What the translator hands on has no white space at either end, and
    is never longer than the service's answer: the clean-up only takes
    text away. *)
Theorem extraction_trims_and_shrinks (content : string) :
  PyStr.strip (postprocess content) = postprocess content /\
  (String.length (postprocess content) <= String.length content)%nat.
Proof.
  unfold postprocess.
  destruct (PyStr.contains fence (PyStr.strip content)).
  - split; [apply strip_idempotent|].
    etransitivity; [apply length_strip|].
    etransitivity; [apply length_remove|].
    apply length_pick_part; [|apply length_strip].
    intros part Hpart. apply length_split_go in Hpart. simpl in Hpart.
    etransitivity; [exact Hpart | apply length_strip].
  - split; [apply strip_idempotent | apply length_strip].
Qed.

Lemma string_prefix_nil s : String.prefix "" s = true.
Proof. by destruct s. Qed.

Lemma tick_free_cons c s :
  PyStr.contains "`" (String c s) = false ->
  c <> "`"%char /\ PyStr.contains "`" s = false.
Proof.
  intros H. apply contains_cons in H as [Hp Hs]. split; [|done].
  intros ->. simpl in Hp. by rewrite string_prefix_nil in Hp.
Qed.

Lemma prefix_fence_cons c s :
  c <> "`"%char -> String.prefix fence (String c s) = false.
Proof.
  intros Hc. unfold fence. cbn [String.prefix].
  destruct (ascii_dec "`" c) as [Heq|]; [by destruct Hc | done].
Qed.

(** Cutting at the fences, a text without back-ticks in front of a fence
    is a piece of its own. *)
Lemma split_go_tick_free pre :
  forall cur rest,
    PyStr.contains "`" pre = false ->
    PyStr.split_go fence 0 cur (pre +:+ fence +:+ rest) =
    (String.rev cur +:+ pre) :: PyStr.split_go fence 0 "" rest.
Proof.
  induction pre as [|c pre IH]; intros cur rest Hpre.
  - rewrite append_nil_r. by destruct rest.
  - apply tick_free_cons in Hpre as [Hc Hpre].
    rewrite append_cons. cbn [PyStr.split_go].
    rewrite (prefix_fence_cons _ _ Hc), (IH _ _ Hpre).
    by rewrite rev_cons, append_assoc.
Qed.

Lemma prefix_append_self sub rest : String.prefix sub (sub +:+ rest) = true.
Proof.
  induction sub as [|a sub IH]; [apply string_prefix_nil|].
  simpl. by destruct (ascii_dec a a).
Qed.

Lemma contains_here sub pre rest :
  PyStr.contains sub (pre +:+ sub +:+ rest) = true.
Proof.
  induction pre as [|c pre IH].
  - change ("" +:+ sub +:+ rest) with (sub +:+ rest).
    pose proof (prefix_append_self sub rest) as H.
    destruct (sub +:+ rest); cbn [PyStr.contains]; by rewrite H.
  - rewrite append_cons. cbn [PyStr.contains]. rewrite IH. apply orb_true_r.
Qed.

(** A fenced block is what the translator keeps, when the trimmed answer
    has no SELECT in front of the block and no back-tick in the text
    before it or in the block: the block comes back with "sql" taken out
    and trimmed, and a block made of the tag "sql" and a body free of
    "sql" comes back as the trimmed body.  Whatever follows the closing
    fence is dropped. *)
Theorem fenced_block_extracted (content pre block rest : string) :
  PyStr.strip content = pre +:+ fence +:+ block +:+ fence +:+ rest ->
  PyStr.contains "`" pre = false ->
  PyStr.contains "`" block = false ->
  has_select pre = false ->
  has_select block = true ->
  postprocess content = PyStr.strip (PyStr.replace "sql" "" block) /\
  (forall body,
     block = "sql" +:+ body -> PyStr.contains "sql" body = false ->
     postprocess content = PyStr.strip body).
Proof.
  intros Hshape Hpre Hblock Hno Hyes.
  assert (postprocess content = PyStr.strip (PyStr.replace "sql" "" block))
    as Hrun.
  { unfold postprocess. rewrite Hshape, contains_here.
    unfold PyStr.split.
    rewrite (split_go_tick_free _ _ _ Hpre), (split_go_tick_free _ _ _ Hblock).
    change (String.rev "" +:+ pre) with pre.
    change (String.rev "" +:+ block) with block.
    cbn [pick_part]. by rewrite Hno, Hyes. }
  split; [exact Hrun|].
  intros body -> Hbody. by rewrite Hrun, replace_leading_tag.
Qed.

Lemma fenced_block_extracted_witness :
  postprocess Samples.fenced_select =
  "SELECT state, SUM(amount) FROM card_transactions GROUP BY state LIMIT 50;".
Proof.
  exact (proj2 (fenced_block_extracted Samples.fenced_select "" "sql
SELECT state, SUM(amount) FROM card_transactions GROUP BY state LIMIT 50;
" "" eq_refl eq_refl eq_refl eq_refl eq_refl) _ eq_refl eq_refl).
Defined.

(** Text in front of the first fence counts as a piece: when it mentions
    SELECT, in any letter case, it is that text which comes back (with
    "sql" taken out, trimmed), and the fenced query is dropped. *)
Theorem prose_before_fence_wins (content pre rest : string) :
  PyStr.strip content = pre +:+ fence +:+ rest ->
  PyStr.contains "`" pre = false ->
  has_select pre = true ->
  postprocess content = PyStr.strip (PyStr.replace "sql" "" pre).
Proof.
  intros Hshape Hpre Hyes.
  unfold postprocess. rewrite Hshape, contains_here.
  unfold PyStr.split. rewrite (split_go_tick_free _ _ _ Hpre).
  change (String.rev "" +:+ pre) with pre.
  cbn [pick_part]. by rewrite Hyes.
Qed.

Lemma prose_before_fence_wins_witness :
  postprocess "Here is the select: ```sql SELECT 1```" = "Here is the select:".
Proof.
  exact (prose_before_fence_wins "Here is the select: ```sql SELECT 1```"
           "Here is the select: " "sql SELECT 1```" eq_refl eq_refl eq_refl).
Defined.

Lemma contains_further sub c s :
  PyStr.contains sub s = true -> PyStr.contains sub (String c s) = true.
Proof. intros H. cbn [PyStr.contains]. rewrite H. apply orb_true_r. Qed.

(** SELECT is looked for in any letter case, the tag only in small
    letters: a fenced block that opens with the tag in capitals, "SQL",
    keeps it, and what comes back is not the bare query. *)
Theorem capital_tag_is_kept (content pre body rest : string) :
  PyStr.strip content = pre +:+ fence +:+ ("SQL" +:+ body) +:+ fence +:+ rest ->
  PyStr.contains "`" pre = false ->
  PyStr.contains "`" body = false ->
  has_select pre = false ->
  has_select body = true ->
  PyStr.contains "sql" body = false ->
  postprocess content = PyStr.strip ("SQL" +:+ body).
Proof.
  intros Hshape Hpre Hbody Hno Hyes Htag.
  assert ("SQL" +:+ body = String "S" (String "Q" (String "L" body))) as Etag
    by reflexivity.
  assert (PyStr.contains "`" ("SQL" +:+ body) = false) as Hblock.
  { rewrite Etag. cbn [PyStr.contains]. rewrite Hbody. by destruct body. }
  assert (has_select ("SQL" +:+ body) = true) as Hselect.
  { unfold has_select in *. rewrite Etag. cbn [PyStr.upper].
    by do 3 apply contains_further. }
  assert (PyStr.contains "sql" ("SQL" +:+ body) = false) as Hfree.
  { rewrite Etag. cbn [PyStr.contains]. rewrite Htag.
    by destruct body as [|c1 [|c2 [|c3 body]]]. }
  destruct (fenced_block_extracted content pre ("SQL" +:+ body) rest
              Hshape Hpre Hblock Hno Hselect) as [Hrun _].
  by rewrite Hrun, replace_absent.
Qed.

Lemma capital_tag_is_kept_witness :
  postprocess "```SQL
SELECT COUNT(*) FROM card_transactions;
```" = "SQL
SELECT COUNT(*) FROM card_transactions;".
Proof.
  exact (capital_tag_is_kept "```SQL
SELECT COUNT(*) FROM card_transactions;
```" "" "
SELECT COUNT(*) FROM card_transactions;
" "" eq_refl eq_refl eq_refl eq_refl eq_refl eq_refl).
Defined.

End ExtractionFacts.

(** ** The validator on frames of any kind *)

Section ValidatorEdges.
Import Pandas Validator.
Variable float_sum : list float -> float.

Lemma has_column_same name df1 df2 :
  getitem name df1 = getitem name df2 ->
  has_column name df1 = has_column name df2.
Proof.
  intros Hget. destruct (has_column name df2) eqn:H2.
  - destruct (has_column name df1) eqn:H1; [done|].
    apply has_column_getitem in H1. rewrite H1 in Hget.
    symmetry in Hget. apply has_column_getitem in Hget. congruence.
  - apply has_column_getitem in H2. rewrite H2 in Hget.
    by apply has_column_getitem.
Qed.

(** The validator looks at the number of rows, the number of columns and
    the columns labelled "amount" and "is_fraud", and at nothing else:
    two results that agree on these get the same report, or the same
    exception. *)
Theorem validator_reads_two_columns df1 df2 :
  len df1 = len df2 ->
  length (columns df1) = length (columns df2) ->
  getitem "amount" df1 = getitem "amount" df2 ->
  getitem "is_fraud" df1 = getitem "is_fraud" df2 ->
  basic_result_validation float_sum df1 = basic_result_validation float_sum df2.
Proof.
  intros Hlen Hcols Hamount Hfraud.
  assert (empty df1 = empty df2) as Hempty.
  { unfold empty. unfold len in Hlen. unfold columns in Hcols.
    rewrite !length_map in Hcols. by rewrite Hlen, Hcols. }
  unfold basic_result_validation. rewrite Hempty, Hlen, Hcols.
  destruct (empty df2); [done|].
  assert (forall checks,
            amount_check float_sum df1 checks = amount_check float_sum df2 checks)
    as ->.
  { intros checks. unfold amount_check.
    by rewrite (has_column_same _ _ _ Hamount), Hamount. }
  destruct (amount_check float_sum df2 _) as [checks|e]; [|done].
  cbn [mbind Result_bind Py.bind].
  unfold fraud_check. by rewrite (has_column_same _ _ _ Hfraud), Hfraud.
Qed.

Lemma has_column_several name df :
  (2 <= length (getitem name df))%nat -> has_column name df = true.
Proof.
  intros H. destruct (has_column name df) eqn:E; [done|].
  apply has_column_getitem in E. rewrite E in H. simpl in H. lia.
Qed.

(** A result with rows in which the label "amount" occurs twice (as in
    SELECT a.amount, b.amount) makes the validator raise a TypeError; so
    does one without "amount" in which "is_fraud" occurs twice. *)
Theorem repeated_label_raises df :
  empty df = false ->
  ((2 <= length (getitem "amount" df))%nat ->
   exists msg, basic_result_validation float_sum df = Raise (TypeError msg)) /\
  (has_column "amount" df = false ->
   (2 <= length (getitem "is_fraud" df))%nat ->
   exists msg, basic_result_validation float_sum df = Raise (TypeError msg)).
Proof.
  intros Hne. unfold basic_result_validation. rewrite Hne. split.
  - intros Hamount. unfold amount_check.
    rewrite (has_column_several _ _ Hamount).
    destruct (getitem "amount" df) as [|c1 [|c2 rest]];
      [simpl in Hamount; lia | simpl in Hamount; lia |].
    by eexists.
  - intros Habsent Hfraud. unfold amount_check. rewrite Habsent.
    cbn [mbind Result_bind Py.bind]. unfold fraud_check.
    rewrite (has_column_several _ _ Hfraud).
    destruct (getitem "is_fraud" df) as [|c1 [|c2 rest]];
      [simpl in Hfraud; lia | simpl in Hfraud; lia |].
    by eexists.
Qed.

(** A fraud column without a single valid entry has no mean: the rate is
    reported as "nan%", and neither the high-rate warning nor the
    low-rate note is given. *)
Theorem fraud_rate_without_values df values :
  empty df = false ->
  column_well_typed "amount" df = true ->
  getitem "is_fraud" df = [Float64 values] ->
  count_valid values = 0%nat ->
  exists report,
    basic_result_validation float_sum df = Ok report /\
    (msg_rate "nan" ∈ summary report) /\
    (msg_high ∉ summary report) /\ (msg_low ∉ summary report).
Proof.
  intros Hne Hamount Hget Hcount.
  assert (well_typed df = true) as Hwt.
  { unfold well_typed. rewrite Hamount. unfold column_well_typed.
    by rewrite Hget. }
  destruct (validate_shape float_sum df Hne Hwt)
    as (amount & fraud & -> & Ha & Hf).
  eexists. split; [done|]. cbn [summary].
  apply amount_lines_apart in Ha as (Hah & Hal & _).
  unfold fraud_lines in Hf. rewrite Hget in Hf.
  destruct Hf as (m & Hm & ->).
  cbn [mean] in Hm. rewrite Hcount in Hm. cbn in Hm. injection Hm as <-.
  change (nan * 100)%float with nan.
  change (PyNum.format_f2 false nan) with "nan".
  change (10 <? nan)%float with false. change (nan <? 0.1)%float with false.
  split; [|split].
  - apply elem_of_cons. right. apply elem_of_app. right. left.
  - intros H. apply elem_of_cons in H as [H|H].
    + cbv [msg_high msg_count String.append] in H. discriminate H.
    + apply elem_of_app in H as [H|H]; [by apply Hah|].
      apply list_elem_of_singleton in H.
      cbv [msg_high msg_rate String.append] in H. discriminate H.
  - intros H. apply elem_of_cons in H as [H|H].
    + cbv [msg_low msg_count String.append] in H. discriminate H.
    + apply elem_of_app in H as [H|H]; [by apply Hal|].
      apply list_elem_of_singleton in H.
      cbv [msg_low msg_rate String.append] in H. discriminate H.
Qed.

End ValidatorEdges.

Section ValidatorEdgesWitnesses.
Import Pandas Validator Samples.

Lemma validator_reads_two_columns_witness :
  basic_result_validation left_to_right refund_pair =
  basic_result_validation left_to_right
    {| index_len := 2;
       cols := [("amount", Float64 [120.5; -120.5]%float);
                ("is_fraud", Int64 [0; 0]);
                ("channel", Object ["POS"; "ATM"])] |}.
Proof.
  exact (validator_reads_two_columns left_to_right refund_pair _
           eq_refl eq_refl eq_refl eq_refl).
Defined.

Lemma repeated_label_raises_witness :
  exists msg,
    basic_result_validation left_to_right
      {| index_len := 1;
         cols := [("amount", Float64 [12.5]%float);
                  ("amount", Float64 [7.25]%float)] |} =
    Raise (TypeError msg).
Proof.
  exact (proj1 (repeated_label_raises left_to_right
                  {| index_len := 1;
                     cols := [("amount", Float64 [12.5]%float);
                              ("amount", Float64 [7.25]%float)] |} eq_refl)
           (le_n 2)).
Defined.

Lemma fraud_rate_without_values_witness :
  exists report,
    basic_result_validation left_to_right
      {| index_len := 2; cols := [("is_fraud", Float64 [nan; nan])] |} =
    Ok report /\
    (msg_rate "nan" ∈ summary report) /\
    (msg_high ∉ summary report) /\ (msg_low ∉ summary report).
Proof.
  exact (fraud_rate_without_values left_to_right
           {| index_len := 2; cols := [("is_fraud", Float64 [nan; nan])] |}
           [nan; nan] eq_refl eq_refl eq_refl eq_refl).
Defined.

End ValidatorEdgesWitnesses.

(** ** Running a query *)

Section RunSqlFacts.
Import App.
Variable read_sql_query : string -> Result Pandas.DataFrame.

(** [run_sql] opens the store, runs the one query and closes the store,
    whether the query raises or answers; the frame or the exception is
    passed on as it is, and neither the session nor the page is
    touched. *)
Theorem run_sql_closes_connection sql w :
  run_sql read_sql_query sql w =
  (match read_sql_query sql with
   | Ok df => Returned df
   | Raise e => Raised e
   end,
   {| session_state := session_state w; page := page w;
      trace := trace w ++ [Connect DB_PATH; ReadSqlQuery sql; Close] |}).
Proof.
  unfold run_sql, try_finally, log, answer, mbind, Script_bind. simpl.
  destruct (read_sql_query sql); simpl; by rewrite <- !app_assoc.
Qed.

End RunSqlFacts.

(** ** The earlier build, run again *)

Section SequenceFacts.
Import Sqlite.

(** A run of inserts into an AUTOINCREMENT table moves its
    [sqlite_sequence] entry on by the number of rows. *)
Lemma insert_rows_sequence name names n seq_of_params :
  forall db t db',
    tables db !! name = Some t ->
    autoincrement t = true ->
    max_rowid t <= default 0 (sqlite_sequence db !! name) ->
    insert_rows name names n seq_of_params db = Ok db' ->
    default 0 (sqlite_sequence db' !! name) =
    default 0 (sqlite_sequence db !! name) + Z.of_nat (length seq_of_params).
Proof.
  induction seq_of_params as [|params rest IH];
    intros db t db' Ht Hauto Hmax Hrun.
  - injection Hrun as <-. simpl. lia.
  - cbn [insert_rows] in Hrun. unfold insert_row in Hrun.
    destruct (negb (length params =? n)%nat); [done|].
    rewrite Ht in Hrun. cbn [mbind Result_bind Py.bind] in Hrun.
    set (last := default 0 (sqlite_sequence db !! name)) in *.
    assert (Hid : next_rowid name t db = last + 1).
    { unfold next_rowid. rewrite Hauto. fold last. lia. }
    rewrite Hid, Hauto in Hrun.
    eapply IH in Hrun.
    + rewrite Hrun. cbn [sqlite_sequence]. rewrite lookup_insert_eq.
      change (default 0 (Some (last + 1))) with (last + 1).
      cbn [length]. lia.
    + cbn [tables]. apply lookup_insert_eq.
    + done.
    + cbn [sqlite_sequence]. rewrite lookup_insert_eq.
      change (default 0 (Some (last + 1))) with (last + 1).
      rewrite max_rowid_snoc. unfold max_rowid in *.
      cbn [Sqlite.rows rowid] in *. lia.
Qed.

(** [executemany] into an AUTOINCREMENT table that holds no row. *)
Lemma executemany_emptied_table sql seq_of_params db columns :
  tables db !! insert_table sql =
    Some {| schema := columns; autoincrement := true; rows := [] |} ->
  0 <= default 0 (sqlite_sequence db !! insert_table sql) ->
  forallb (fun c => existsb (same_name c) columns) (insert_columns sql) = true ->
  length (insert_values sql) = length (insert_columns sql) ->
  Forall (fun params => length params = placeholders sql) seq_of_params ->
  exists db',
    executemany sql seq_of_params db = Ok db' /\
    tables db' !! insert_table sql =
      Some {| schema := columns; autoincrement := true;
              rows := stored (insert_columns sql)
                        (default 0 (sqlite_sequence db !! insert_table sql))
                        seq_of_params |} /\
    default 0 (sqlite_sequence db' !! insert_table sql) =
    default 0 (sqlite_sequence db !! insert_table sql) +
    Z.of_nat (length seq_of_params).
Proof.
  intros Ht Hseq Hcols Hvalues Hlen. unfold executemany.
  rewrite Ht. cbn [schema]. rewrite Hcols, Hvalues, Nat.eqb_refl.
  cbn [negb].
  destruct (insert_rows_autoincrement (insert_table sql) (insert_columns sql)
              (placeholders sql) seq_of_params db _ Ht eq_refl)
    as (db' & Hrun & Htables).
  - exact Hseq.
  - exact Hlen.
  - exists db'. split; [exact Hrun|]. split.
    + rewrite Htables, lookup_insert_eq. reflexivity.
    + exact (insert_rows_sequence _ _ _ _ _ _ _ Ht eq_refl Hseq Hrun).
Qed.

Lemma rowids_from (k : nat) n :
  (fun i => (0 + Z.of_nat k) + 1 + Z.of_nat i) <$> seq 0 n =
  Z.of_nat <$> seq (S k) n.
Proof.
  transitivity (Z.of_nat <$> (Nat.add (S k) <$> seq 0 n)).
  - rewrite <- list_fmap_compose. apply list_fmap_ext. intros i x _.
    unfold compose. lia.
  - by rewrite fmap_add_seq, Nat.add_0_r.
Qed.

End SequenceFacts.

Section EarlierRebuild.
Import Random Sqlite.

(** The earlier build on a store whose [card_transactions], if it has
    one, is the table this build creates. *)
Lemma earlier_build_result today g db :
  match tables db !! "card_transactions" with
  | None => True
  | Some t =>
      schema t = EarlierVariant.table_columns /\ autoincrement t = true
  end ->
  0 <= default 0 (sqlite_sequence db !! "card_transactions") ->
  exists built,
    EarlierVariant.create_db today g db = Ok built /\
    tables (InitDb.store built) !! "card_transactions" =
      Some {| schema := EarlierVariant.table_columns; autoincrement := true;
              rows :=
                stored (insert_columns EarlierVariant.insert_sql)
                  (default 0 (sqlite_sequence db !! "card_transactions"))
                  (fst (EarlierVariant.generate_rows today 5000 g)) |} /\
    default 0 (sqlite_sequence (InitDb.store built) !! "card_transactions") =
    default 0 (sqlite_sequence db !! "card_transactions") +
    Z.of_nat (length (fst (EarlierVariant.generate_rows today 5000 g))).
Proof.
  intros Htable Hseq.
  unfold EarlierVariant.create_db, create_table_if_not_exists, create_table.
  destruct (earlier_generate_rows_shape today 5000 g) as [_ Hshape].
  assert (exists db1,
            (match tables db !! "card_transactions" with
             | Some _ => Ok db
             | None =>
                 Ok {| tables :=
                         <["card_transactions" :=
                             {| schema := EarlierVariant.table_columns;
                                autoincrement := true; rows := [] |}]>
                           (tables db);
                       sqlite_sequence := sqlite_sequence db |}
             end ≫= delete_from "card_transactions") = Ok db1 /\
            tables db1 !! "card_transactions" =
              Some {| schema := EarlierVariant.table_columns;
                      autoincrement := true; rows := [] |} /\
            sqlite_sequence db1 = sqlite_sequence db)
    as (db1 & Hprepare & Htable1 & Hseq1).
  { destruct (tables db !! "card_transactions") as [t|] eqn:Ht.
    - destruct Htable as [Hschema Hauto].
      cbn [mbind Result_bind Py.bind]. unfold delete_from. rewrite Ht.
      eexists. split; [reflexivity|]. cbn [tables sqlite_sequence].
      by rewrite lookup_insert_eq, Hschema, Hauto.
    - cbn [mbind Result_bind Py.bind]. unfold delete_from.
      cbn [tables sqlite_sequence]. rewrite lookup_insert_eq.
      eexists. split; [reflexivity|]. cbn [tables sqlite_sequence].
      by rewrite lookup_insert_eq. }
  destruct (tables db !! "card_transactions") eqn:Ht;
    cbn [mbind Result_bind Py.bind] in Hprepare |- *;
    rewrite Hprepare; cbn [mbind Result_bind Py.bind];
    destruct (EarlierVariant.generate_rows today 5000 g) as [rows g'];
    cbn [fst] in *;
    rewrite <- earlier_insert_sql_table in Htable1;
    (destruct (executemany_emptied_table EarlierVariant.insert_sql rows db1
                 EarlierVariant.table_columns Htable1)
      as (db2 & -> & Hrows & Hlast);
     [ rewrite earlier_insert_sql_table, Hseq1; exact Hseq
     | by vm_compute
     | by vm_compute
     | eapply Forall_impl; [exact Hshape|]; intros params Hparams;
       rewrite (earlier_row_length _ Hparams); by vm_compute
     | ]);
    cbn [mbind Result_bind Py.bind]; eexists; (split; [reflexivity|]);
    cbn [InitDb.store]; rewrite earlier_insert_sql_table, Hseq1 in Hrows, Hlast;
    by split.
Qed.

(** Run twice on a store without the table, the earlier build numbers
    its first 5000 rows 1 to 5000 and the next 5000 rows 5001 to 10000:
    emptying the table does not give the identifiers back. *)
Theorem earlier_variant_rebuild_continues_ids today1 g1 today2 g2 db :
  tables db !! "card_transactions" = None ->
  sqlite_sequence db !! "card_transactions" = None ->
  exists first second,
    EarlierVariant.create_db today1 g1 db = Ok first /\
    EarlierVariant.create_db today2 g2 (InitDb.store first) = Ok second /\
    map rowid (InitDb.transactions (InitDb.store first)) =
      Z.of_nat <$> seq 1 5000 /\
    map rowid (InitDb.transactions (InitDb.store second)) =
      Z.of_nat <$> seq (S 5000) 5000.
Proof.
  intros Htable Hseq.
  destruct (earlier_build_result today1 g1 db) as (first & Hfirst & Hrows1 & Hlast1).
  { by rewrite Htable. }
  { by rewrite Hseq. }
  destruct (earlier_build_result today2 g2 (InitDb.store first))
    as (second & Hsecond & Hrows2 & _).
  { by rewrite Hrows1. }
  { rewrite Hlast1, Hseq. cbn [default]. lia. }
  exists first, second. split; [exact Hfirst|]. split; [exact Hsecond|].
  pose proof (proj1 (earlier_generate_rows_shape today1 5000 g1)) as Hlen1.
  pose proof (proj1 (earlier_generate_rows_shape today2 5000 g2)) as Hlen2.
  unfold InitDb.transactions. rewrite Hrows1, Hrows2. cbn [Sqlite.rows].
  rewrite !stored_rowids, Hlast1, Hseq. cbn [default].
  rewrite rowids_from, Hlen1, Hlen2. split; [|reflexivity].
  apply rowids_from_one.
Qed.

Lemma earlier_variant_rebuild_continues_ids_witness :
  exists first second,
    EarlierVariant.create_db Samples.a_day Samples.zeros empty_db = Ok first /\
    EarlierVariant.create_db Samples.a_day Samples.zeros (InitDb.store first) =
      Ok second /\
    map rowid (InitDb.transactions (InitDb.store second)) =
      Z.of_nat <$> seq (S 5000) 5000.
Proof.
  destruct (earlier_variant_rebuild_continues_ids Samples.a_day Samples.zeros
              Samples.a_day Samples.zeros empty_db eq_refl eq_refl)
    as (first & second & Hfirst & Hsecond & _ & Hids).
  exists first, second. split; [exact Hfirst|]. split; [exact Hsecond|].
  exact Hids.
Defined.

Lemma forallb_false {A} (f : A -> bool) (l : list A) x :
  In x l -> f x = false -> forallb f l = false.
Proof.
  intros Hin Hx. destruct (forallb f l) eqn:E; [|done].
  rewrite forallb_forall in E. rewrite (E x Hin) in Hx. done.
Qed.

Lemma existsb_absent column columns :
  ~ In (PyStr.upper column) (map PyStr.upper columns) ->
  existsb (same_name column) columns = false.
Proof.
  intros Habsent. destruct (existsb (same_name column) columns) eqn:E; [|done].
  apply existsb_exists in E as (c & Hin & Heq).
  apply String.eqb_eq in Heq. destruct Habsent. rewrite Heq. by apply in_map.
Qed.

(** The earlier build keeps a [card_transactions] table it finds.  When
    that table lacks one of the columns the INSERT names (in whatever
    letter case: SQLite does not tell column names apart by case), the
    build raises and stores nothing, where the later build, which drops
    the table first, succeeds on the same store. *)
Theorem earlier_variant_needs_matching_table today g db t column :
  tables db !! "card_transactions" = Some t ->
  In column (insert_columns EarlierVariant.insert_sql) ->
  ~ In (PyStr.upper column) (map PyStr.upper (schema t)) ->
  (exists msg,
     EarlierVariant.create_db today g db = Raise (OperationalError msg)) /\
  (exists built, InitDb.create_db today g db = Ok built).
Proof.
  intros Ht Hnamed Habsent. split.
  - unfold EarlierVariant.create_db, create_table_if_not_exists.
    rewrite Ht. cbn [mbind Result_bind Py.bind]. unfold delete_from.
    rewrite Ht. cbn [mbind Result_bind Py.bind].
    destruct (EarlierVariant.generate_rows today 5000 g) as [rows g'].
    unfold executemany. rewrite earlier_insert_sql_table.
    cbn [tables]. rewrite lookup_insert_eq. cbn [schema].
    rewrite (forallb_false _ _ column Hnamed (existsb_absent _ _ Habsent)).
    by eexists.
  - destruct (create_db_result today g db) as (built & Hrun & _).
    by exists built.
Qed.

End EarlierRebuild.

Section EarlierRebuildWitnesses.
Import Sqlite.

Lemma earlier_variant_needs_matching_table_witness :
  exists msg,
    EarlierVariant.create_db Samples.a_day Samples.zeros
      {| tables :=
           {["card_transactions" :=
               {| schema := ["transaction_id"; "customer_id"; "amount"];
                  autoincrement := true; rows := [] |}]};
         sqlite_sequence := ∅ |} =
    Raise (OperationalError msg).
Proof.
  refine (proj1 (earlier_variant_needs_matching_table Samples.a_day
                   Samples.zeros _ _ "state" _ _ _)).
  - apply lookup_singleton_eq.
  - rewrite earlier_insert_sql_columns. simpl. tauto.
  - vm_compute. intros [H|[H|[H|[]]]]; discriminate H.
Defined.

End EarlierRebuildWitnesses.

(** ** The dates of the fixture *)

Section DateFacts.
Import Datetime.

(** [_ord2ymd] gives a month of the year and a day of the month, and for
    the days from 1000-01-01 to 9999-12-31 a year of four digits. *)
Lemma ord2ymd_range ordinal :
  364878 <= ordinal <= 3652059 ->
  exists year month day,
    ord2ymd ordinal = (year, month, day) /\
    1000 <= year <= 9999 /\ 1 <= month <= 12 /\ 1 <= day <= 31.
Proof.
  intros Hord. unfold ord2ymd. cbv zeta.
  set (n0 := ordinal - 1).
  set (n400 := n0 / 146097). set (r400 := n0 mod 146097).
  set (n100 := r400 / 36524). set (r100 := r400 mod 36524).
  set (n4 := r100 / 1461). set (r4 := r100 mod 1461).
  set (n1 := r4 / 365). set (n := r4 mod 365).
  pose proof (Z.div_mod n0 146097 ltac:(lia)) as E400.
  pose proof (Z.mod_pos_bound n0 146097 ltac:(lia)) as B400.
  pose proof (Z.div_mod r400 36524 ltac:(lia)) as E100.
  pose proof (Z.mod_pos_bound r400 36524 ltac:(lia)) as B100.
  pose proof (Z.div_mod r100 1461 ltac:(lia)) as E4.
  pose proof (Z.mod_pos_bound r100 1461 ltac:(lia)) as B4.
  pose proof (Z.div_mod r4 365 ltac:(lia)) as E1.
  pose proof (Z.mod_pos_bound r4 365 ltac:(lia)) as B1.
  fold n400 r400 in E400, B400. fold n100 r100 in E100, B100.
  fold n4 r4 in E4, B4. fold n1 n in E1, B1.
  assert (n0 = ordinal - 1) as En0 by reflexivity.
  clearbody n n1 r4 n4 r100 n100 r400 n400 n0.
  destruct (Z.eqb_spec n1 4) as [H1|H1];
    [|destruct (Z.eqb_spec n100 4) as [H100|H100]]; cbn [orb].
  - eexists _, _, _. split; [reflexivity|]. lia.
  - eexists _, _, _. split; [reflexivity|]. lia.
  - rewrite Z.shiftr_div_pow2 by lia.
    set (month := (n + 50) / 2 ^ 5).
    pose proof (Z.div_mod (n + 50) (2 ^ 5) ltac:(lia)) as Em.
    pose proof (Z.mod_pos_bound (n + 50) (2 ^ 5) ltac:(lia)) as Bm.
    fold month in Em. change (2 ^ 5) with 32 in Em, Bm.
    set (leapyear := (n1 =? 3) && (negb (n4 =? 24) || (n100 =? 3))).
    clearbody month leapyear.
    assert (month = 1 \/ month = 2 \/ month = 3 \/ month = 4 \/ month = 5 \/
            month = 6 \/ month = 7 \/ month = 8 \/ month = 9 \/ month = 10 \/
            month = 11 \/ month = 12) as Hmonth by lia.
    destruct Hmonth as [->|[->|[->|[->|[->|[->|[->|[->|[->|[->|[->| ->]]]]]]]]]]];
      destruct leapyear; cbn;
      match goal with
      | |- context [n <? ?p] => destruct (Z.ltb_spec n p)
      end;
      (eexists _, _, _; split; [reflexivity|]);
      repeat match goal with
        | |- context [days_in_month ?m] =>
            let v := eval vm_compute in (days_in_month m) in
            change (days_in_month m) with v
        | |- context [(?a =? 2)] =>
            let v := eval vm_compute in (a =? 2) in
            change (a =? 2) with v
        end;
      cbn [andb]; lia.
Qed.

Lemma pretty_year_length (year : Z) :
  1000 <= year <= 9999 -> String.length (pretty year) = 4%nat.
Proof.
  intros Hyear.
  assert (forallb (fun y => (String.length (pretty y) =? 4)%nat)
            (seqZ 1000 9000) = true) as Hall by (by vm_compute).
  rewrite forallb_forall in Hall.
  apply Nat.eqb_eq, Hall, list_elem_of_In, elem_of_seqZ. lia.
Qed.

Lemma two_digits_length (k : Z) :
  0 <= k <= 99 -> String.length (PyNum.two_digits k) = 2%nat.
Proof.
  intros Hk.
  assert (forallb (fun y => (String.length (PyNum.two_digits y) =? 2)%nat)
            (seqZ 0 100) = true) as Hall by (by vm_compute).
  rewrite forallb_forall in Hall.
  apply Nat.eqb_eq, Hall, list_elem_of_In, elem_of_seqZ. lia.
Qed.

End DateFacts.

Section FixtureDates.
Import Random Sqlite InitDb.

(** Built on a day from 1001-01-01 to 9999-12-31, every row carries a
    transaction date of the form YYYY-MM-DD: ten characters, a year of
    four digits, a month from 01 to 12 and a day from 01 to 31. *)
Theorem fixture_dates_well_formed today g db :
  365243 <= today <= 3652059 ->
  exists built,
    create_db today g db = Ok built /\
    Forall
      (fun row =>
         exists year month day text,
           cell "transaction_date" row = SqlText text /\
           text = pretty year +:+ "-" +:+ PyNum.two_digits month +:+ "-" +:+
                  PyNum.two_digits day /\
           1000 <= year <= 9999 /\ 1 <= month <= 12 /\ 1 <= day <= 31 /\
           String.length text = 10%nat)
      (transactions (store built)).
Proof.
  intros Htoday.
  destruct (create_db_result today g db) as (built & Hrun & Hrows).
  exists built. split; [exact Hrun|].
  rewrite Hrows. apply Forall_forall. intros row Hrow.
  apply stored_elem in Hrow as (params & Hparams & Hcells).
  pose proof (proj2 (generate_rows_shape today 5000 g)) as Hshape.
  rewrite Forall_forall in Hshape. specialize (Hshape params Hparams).
  destruct Hshape
    as (customer_id & state & card_type & channel & merchant_cat &
        days_ago & cents & is_fraud & product_version & -> & _ & _ & _ &
        _ & _ & Hdays & _).
  destruct (ord2ymd_range (today - days_ago) ltac:(lia))
    as (year & month & day & Hymd & Hyear & Hmonth & Hday).
  exists year, month, day. eexists.
  unfold cell. rewrite Hcells, insert_sql_columns.
  clear Hparams Hrows Hrun Hcells.
  split; [reflexivity|].
  unfold Datetime.strftime_ymd. rewrite Hymd.
  split; [reflexivity|]. split; [exact Hyear|].
  split; [exact Hmonth|]. split; [exact Hday|].
  rewrite !length_append, (pretty_year_length _ Hyear),
    (two_digits_length month), (two_digits_length day) by lia.
  reflexivity.
Qed.

Lemma fixture_dates_well_formed_witness :
  exists built,
    create_db Samples.a_day Samples.zeros empty_db = Ok built /\
    Forall
      (fun row =>
         exists text,
           cell "transaction_date" row = SqlText text /\
           String.length text = 10%nat)
      (transactions (store built)).
Proof.
  destruct (fixture_dates_well_formed Samples.a_day Samples.zeros empty_db)
    as (built & Hrun & Hrows).
  - unfold Samples.a_day. lia.
  - exists built. split; [exact Hrun|].
    eapply Forall_impl; [exact Hrows|].
    intros row (year & month & day & text & Hcell & _ & _ & _ & _ & Hlen).
    exists text. split; [exact Hcell | exact Hlen].
Defined.

End FixtureDates.

(** ** What a build prints *)

Section BuildOutput.
Import Random Sqlite InitDb.

Lemma create_db_printed today g db built :
  create_db today g db = Ok built ->
  printed built =
  "✅ Created " +:+ pretty (length (fst (generate_rows today 5000 g))) +:+
  " synthetic transactions in " +:+ DB_PATH.
Proof.
  unfold create_db.
  destruct (create_table _ _ _ _) as [db1|e]; [|done].
  cbn [mbind Result_bind Py.bind].
  destruct (generate_rows today 5000 g) as [rows g'].
  destruct (executemany insert_sql rows db1) as [db2|e]; [|done].
  cbn [mbind Result_bind Py.bind fst]. by intros [= <-].
Qed.

(** The line a build prints gives the number of rows it stored: 5000,
    in [card_transactions.db], from any store, on any day and whatever
    the generator hands out. *)
Theorem build_reports_row_count today g db :
  exists built,
    create_db today g db = Ok built /\
    printed built =
      "✅ Created 5000 synthetic transactions in card_transactions.db" /\
    printed built =
      "✅ Created " +:+ pretty (length (transactions (store built))) +:+
      " synthetic transactions in " +:+ DB_PATH.
Proof.
  destruct (create_db_result today g db) as (built & Hrun & Hrows).
  exists built. split; [exact Hrun|].
  pose proof (create_db_printed _ _ _ _ Hrun) as Hprinted.
  pose proof (proj1 (generate_rows_shape today 5000 g)) as Hlen.
  rewrite Hrows, stored_length, Hprinted, Hlen.
  clear Hrun Hrows Hprinted Hlen. split; [by vm_compute | reflexivity].
Qed.

End BuildOutput.

(** ** The page, run by run *)

Section HandlerRuns.
Import App.
Variable chat_completion : string -> string -> Result string.
Variable read_sql_query : string -> Result Pandas.DataFrame.
Variable SCHEMA_PROMPT : string.

(** The four ways through the handler. *)
Lemma on_generate_button_cases question w :
  on_generate_button chat_completion read_sql_query SCHEMA_PROMPT question w =
  if String.eqb (PyStr.strip question) ""
  then (Stopped,
        {| session_state := session_state w;
           page := page w ++ [Warning "Please enter a question first."];
           trace := trace w |})
  else
    match chat_completion SCHEMA_PROMPT question with
    | Raise e =>
        (Stopped,
         {| session_state := session_state w;
            page := page w ++
                    [Error ("Error calling OpenAI API: " +:+ exc_str e)];
            trace := trace w ++ [ChatCompletion SCHEMA_PROMPT question] |})
    | Ok content =>
        let sql := Translator.postprocess content in
        match read_sql_query sql with
        | Raise e =>
            (Stopped,
             {| session_state := session_state w;
                page := page w ++ [Error ("Error running SQL: " +:+ exc_str e)];
                trace := trace w ++
                         [ChatCompletion SCHEMA_PROMPT question;
                          Connect DB_PATH; ReadSqlQuery sql; Close] |})
        | Ok df =>
            (Returned tt,
             {| session_state :=
                  <["last_df" := FrameValue df]>
                    (<["last_sql" := StrValue sql]>
                       (<["last_question" := StrValue question]>
                          (session_state w)));
                page := page w;
                trace := trace w ++
                         [ChatCompletion SCHEMA_PROMPT question;
                          Connect DB_PATH; ReadSqlQuery sql; Close] |})
        end
    end.
Proof.
  unfold on_generate_button, generate_sql_from_question, run_sql,
    try_except, try_finally, st_error, st_warning, st_stop, show, log,
    answer, set_state, mbind, mret, Script_bind, Script_ret.
  destruct (String.eqb (PyStr.strip question) ""); [done|]. simpl.
  destruct (chat_completion SCHEMA_PROMPT question) as [content|e]; [|done].
  simpl.
  destruct (read_sql_query (Translator.postprocess content)); simpl;
    by rewrite <- !app_assoc.
Qed.

End HandlerRuns.

Section PageFacts.
Import Pandas Page.
Variable float_sum : list float -> float.
Variable chat_completion : string -> string -> Result string.
Variable read_sql_query : string -> Result DataFrame.
Variable SCHEMA_PROMPT : string.
Variable report_completion : string -> Result string.
Variable to_markdown : DataFrame -> Result string.

Notation "'run_main'" :=
  (main float_sum chat_completion read_sql_query SCHEMA_PROMPT
     report_completion to_markdown).
Notation "'run_show_last_result'" :=
  (show_last_result float_sum report_completion to_markdown).

Lemma shown_nothing w : shown w [] [] = w.
Proof. destruct w. unfold shown. simpl. by rewrite !app_nil_r. Qed.

Lemma shown_shown w elements events elements' events' :
  shown (shown w elements events) elements' events' =
  shown w (elements ++ elements') (events ++ events').
Proof. unfold shown. simpl. by rewrite !app_assoc. Qed.

(** The handler, run in place. *)
Lemma embed_handler question w :
  embed (App.on_generate_button chat_completion read_sql_query SCHEMA_PROMPT
           question) w =
  if String.eqb (PyStr.strip question) ""
  then (Stopped,
        shown w [Alert (App.Warning "Please enter a question first.")] [])
  else
    match chat_completion SCHEMA_PROMPT question with
    | Raise e =>
        (Stopped,
         shown w
           [Alert (App.Error ("Error calling OpenAI API: " +:+ exc_str e))]
           [Call (App.ChatCompletion SCHEMA_PROMPT question)])
    | Ok content =>
        let sql := Translator.postprocess content in
        match read_sql_query sql with
        | Raise e =>
            (Stopped,
             shown w [Alert (App.Error ("Error running SQL: " +:+ exc_str e))]
               (request_calls SCHEMA_PROMPT question sql))
        | Ok df =>
            (Returned tt,
             {| session_state :=
                  <["last_df" := App.FrameValue df]>
                    (<["last_sql" := App.StrValue sql]>
                       (<["last_question" := App.StrValue question]>
                          (session_state w)));
                page := page w;
                trace := trace w ++ request_calls SCHEMA_PROMPT question sql |})
        end
    end.
Proof.
  unfold embed. rewrite on_generate_button_cases.
  destruct (String.eqb (PyStr.strip question) ""); [done|].
  destruct (chat_completion SCHEMA_PROMPT question) as [content|e]; [|done].
  cbv zeta.
  destruct (read_sql_query (Translator.postprocess content)); [|done].
  cbn [App.session_state App.page App.trace fmap list_fmap app].
  by rewrite app_nil_r.
Qed.

Lemma write_lines_shown lines w :
  write_lines lines w =
  (Returned tt, shown w (map (fun line => Write ["- "; line]) lines) []).
Proof.
  revert w. induction lines as [|line rest IH]; intros w.
  - cbn [write_lines map]. by rewrite shown_nothing.
  - cbn [write_lines map]. unfold mbind, Page_bind, show.
    by rewrite IH, shown_shown.
Qed.

(** The report of a ticked box, lines 242-252. *)
Lemma report_block question sql df w :
  try_except
    (report_text ←
       generate_ai_report report_completion to_markdown question sql df;
     st_markdown "### Step 4 · AI-generated analysis & recommendations";;
     st_markdown report_text)
    (fun e => st_error ("Error calling OpenAI for report: " +:+ failure_str e))
    w =
  match to_markdown (head 10 df) with
  | Raise e =>
      (Returned tt,
       shown w
         [Alert (App.Error ("Error calling OpenAI for report: " +:+ exc_str e))]
         [])
  | Ok preview =>
      match report_completion (report_prompt question sql preview) with
      | Raise e =>
          (Returned tt,
           shown w
             [Alert (App.Error
                       ("Error calling OpenAI for report: " +:+ exc_str e))]
             [ReportCompletion (report_prompt question sql preview)])
      | Ok content =>
          (Returned tt,
           shown w [report_heading; Markdown (PyStr.strip content)]
             [ReportCompletion (report_prompt question sql preview)])
      end
  end.
Proof.
  unfold try_except, generate_ai_report, st_markdown, st_error, show, log,
    answer, mbind, mret, Page_bind, Page_ret.
  destruct (to_markdown (head 10 df)) as [preview|e].
  - destruct (report_completion (report_prompt question sql preview))
      as [content|e]; by rewrite !shown_shown.
  - done.
Qed.

(** *** Running a script step by step *)

Lemma bind_show {B} el (k : Script B) w :
  (show el;; k) w = k (shown w [el] []).
Proof. reflexivity. Qed.

Lemma bind_markdown {B} body (k : Script B) w :
  (st_markdown body;; k) w = k (shown w [Markdown body] []).
Proof. reflexivity. Qed.

Lemma bind_widget {A B} el (value : A) (k : A -> Script B) w :
  (widget el value ≫= k) w = k value (shown w [el] []).
Proof. reflexivity. Qed.

Lemma bind_has_key {B} key (k : bool -> Script B) w :
  (has_key key ≫= k) w =
  k (match session_state w !! key with Some _ => true | None => false end) w.
Proof. reflexivity. Qed.

Lemma bind_get_frame {B} key (k : DataFrame -> Script B) w df :
  session_state w !! key = Some (App.FrameValue df) ->
  (get_frame key ≫= k) w = k df w.
Proof.
  intros H. unfold mbind, Page_bind, get_frame. by rewrite H.
Qed.

Lemma bind_get_text {B} key (k : string -> Script B) w text :
  session_state w !! key = Some (App.StrValue text) ->
  (get_text key ≫= k) w = k text w.
Proof.
  intros H. unfold mbind, Page_bind, get_text. by rewrite H.
Qed.

Lemma bind_returned {A B} (m : Script A) (k : A -> Script B) w a w' :
  m w = (Returned a, w') -> (m ≫= k) w = k a w'.
Proof. intros H. unfold mbind, Page_bind. by rewrite H. Qed.

Lemma bind_stopped {A B} (m : Script A) (k : A -> Script B) w w' :
  m w = (Stopped, w') -> (m ≫= k) w = (Stopped, w').
Proof. intros H. unfold mbind, Page_bind. by rewrite H. Qed.

(** The fold with the validator's lines, lines 234-237. *)
Lemma validation_fold df w :
  st_expander "✅ Auto validation on query result"
    (result_check ← answer (Validator.basic_result_validation float_sum df);
     write_lines (Validator.summary result_check)) w =
  match Validator.basic_result_validation float_sum df with
  | Ok report =>
      (Returned tt,
       shown w
         [Expander "✅ Auto validation on query result"
            (map (fun line => Write ["- "; line]) (Validator.summary report))]
         [])
  | Raise e =>
      (Raised (Library e),
       shown w [Expander "✅ Auto validation on query result" []] [])
  end.
Proof.
  unfold st_expander, answer, mbind, Page_bind.
  destruct (Validator.basic_result_validation float_sum df) as [report|e].
  - rewrite write_lines_shown. unfold shown. cbn [session_state page trace app].
    by rewrite app_nil_r.
  - unfold shown. by rewrite app_nil_r.
Qed.

(** With no stored result the last block does nothing. *)
Lemma show_last_result_absent inputs w :
  session_state w !! "last_df" = None ->
  run_show_last_result inputs w = (Returned tt, w).
Proof.
  intros Hnone. unfold show_last_result. by rewrite bind_has_key, Hnone.
Qed.

(** The last block on a stored result. *)
Lemma show_last_result_stored inputs w df sql question :
  session_state w !! "last_df" = Some (App.FrameValue df) ->
  session_state w !! "last_sql" = Some (App.StrValue sql) ->
  session_state w !! "last_question" = Some (App.StrValue question) ->
  run_show_last_result inputs w =
  if negb (is_unique (columns df))
  then (Raised (Library (ValueError ("Duplicate column names found: " +:+
                                     labels_repr (columns df)))),
        shown w (result_top sql df) [])
  else
  match Validator.basic_result_validation float_sum df with
  | Raise e => (Raised (Library e), shown w (result_view sql df []) [])
  | Ok report =>
      let w1 := shown w (result_view sql df (Validator.summary report)) [] in
      if empty df then (Returned tt, w1)
      else if report_checkbox inputs then
        match to_markdown (head 10 df) with
        | Raise e =>
            (Returned tt,
             shown w1
               [report_box;
                Alert (App.Error
                         ("Error calling OpenAI for report: " +:+ exc_str e))]
               [])
        | Ok preview =>
            match report_completion (report_prompt question sql preview) with
            | Raise e =>
                (Returned tt,
                 shown w1
                   [report_box;
                    Alert (App.Error
                             ("Error calling OpenAI for report: " +:+
                              exc_str e))]
                   [ReportCompletion (report_prompt question sql preview)])
            | Ok content =>
                (Returned tt,
                 shown w1
                   [report_box; report_heading;
                    Markdown (PyStr.strip content)]
                   [ReportCompletion (report_prompt question sql preview)])
            end
        end
      else (Returned tt, shown w1 [report_box] [])
  end.
Proof.
  intros Hdf Hsql Hquestion. unfold show_last_result.
  rewrite bind_has_key, Hdf. cbv beta iota.
  rewrite (bind_get_frame _ _ _ _ Hdf). cbv beta.
  rewrite (bind_get_text _ _ _ _ Hsql). cbv beta.
  rewrite (bind_get_text _ _ _ _ Hquestion). cbv beta.
  rewrite bind_markdown, bind_show, bind_markdown, bind_show, !shown_shown.
  cbn [app]. unfold st_dataframe.
  destruct (is_unique (columns df)); cbn [negb];
    [|unfold mbind, Page_bind; reflexivity].
  rewrite bind_show, shown_shown. cbn [app].
  unfold mbind at 1. unfold Page_bind at 1. rewrite validation_fold.
  destruct (Validator.basic_result_validation float_sum df) as [report|e].
  - cbv zeta.
    destruct (empty df); cbn [negb]; [by rewrite !shown_shown|].
    rewrite bind_widget.
    destruct (report_checkbox inputs); [|by rewrite !shown_shown].
    rewrite report_block.
    destruct (to_markdown (head 10 df)) as [preview|e];
      [destruct (report_completion (report_prompt question sql preview))|];
      by rewrite !shown_shown.
  - by rewrite shown_shown.
Qed.

(** The script up to the request, for a run that has its API key. *)
Lemma main_with_key inputs w :
  missing (api_key inputs) = false ->
  run_main inputs w =
  ((if generate_button inputs
    then embed (App.on_generate_button chat_completion read_sql_query
                  SCHEMA_PROMPT (user_question inputs))
    else mret tt);;
   run_show_last_result inputs)
    (shown w (header ++ question_form) []).
Proof.
  intros Hkey. unfold main, page_header, require_api_key, ask_question.
  rewrite Hkey. unfold widget, st_markdown.
  unfold mbind, mret, Page_bind, Page_ret, show.
  cbv beta iota zeta. by rewrite !shown_shown.
Qed.

Lemma main_without_key inputs w :
  missing (api_key inputs) = true ->
  run_main inputs w =
  (Stopped,
   shown w
     (header ++
      [Alert (App.Error
                "OPENAI_API_KEY not found. Please add it to your .env file.")])
     []).
Proof.
  intros Hkey. unfold main, page_header, require_api_key. rewrite Hkey.
  unfold st_error, st_stop, mbind, Page_bind, show. cbv beta iota.
  by rewrite !shown_shown.
Qed.

(** A run in which the button was not pressed. *)
Lemma main_rerun inputs w :
  missing (api_key inputs) = false ->
  generate_button inputs = false ->
  run_main inputs w =
  run_show_last_result inputs (shown w (header ++ question_form) []).
Proof.
  intros Hkey Hbutton. by rewrite (main_with_key _ _ Hkey), Hbutton.
Qed.

(** A run in which the button was pressed. *)
Lemma main_request inputs w :
  missing (api_key inputs) = false ->
  generate_button inputs = true ->
  run_main inputs w =
  (embed (App.on_generate_button chat_completion read_sql_query SCHEMA_PROMPT
            (user_question inputs));;
   run_show_last_result inputs)
    (shown w (header ++ question_form) []).
Proof.
  intros Hkey Hbutton. by rewrite (main_with_key _ _ Hkey), Hbutton.
Qed.

(** What the handler stores is found again. *)
Lemma stored_lookups (state : gmap string App.Value) df sql question :
  let state' :=
    <["last_df" := App.FrameValue df]>
      (<["last_sql" := App.StrValue sql]>
         (<["last_question" := App.StrValue question]> state)) in
  state' !! "last_df" = Some (App.FrameValue df) /\
  state' !! "last_sql" = Some (App.StrValue sql) /\
  state' !! "last_question" = Some (App.StrValue question).
Proof.
  cbv zeta. split; [apply lookup_insert_eq|]. split.
  - rewrite lookup_insert_ne by discriminate. apply lookup_insert_eq.
  - rewrite !lookup_insert_ne by discriminate. apply lookup_insert_eq.
Qed.

Lemma is_blank (text : string) : text = "" -> String.eqb text "" = true.
Proof. by intros ->. Qed.

Lemma is_not_blank (text : string) : text <> "" -> String.eqb text "" = false.
Proof. intros H. by apply String.eqb_neq. Qed.

(** *** The runs *)

(** Without an API key the run shows its title, its caption and the
    error, and stops there: no question box, no button, no call, and the
    session is left as it is, whatever it holds and whatever the other
    inputs are. *)
Theorem missing_api_key_stops inputs w :
  missing (api_key inputs) = true ->
  run_main inputs w =
  (Stopped,
   shown w
     (header ++
      [Alert (App.Error
                "OPENAI_API_KEY not found. Please add it to your .env file.")])
     []).
Proof.
  intros Hkey. unfold main, page_header, require_api_key. rewrite Hkey.
  unfold st_error, st_stop, mbind, Page_bind, show. cbv beta iota.
  by rewrite !shown_shown.
Qed.

(** A request that does not go through (blank question, translation
    raises, query raises) ends the whole run at its message: the block
    that shows the last result is not reached, so a result stored by an
    earlier run stays in the session but is not shown. *)
Theorem failed_request_shows_no_result inputs w :
  missing (api_key inputs) = false ->
  generate_button inputs = true ->
  (PyStr.strip (user_question inputs) = "" ->
   run_main inputs w =
   (Stopped,
    shown w
      (header ++ question_form ++
       [Alert (App.Warning "Please enter a question first.")])
      [])) /\
  (forall e,
     PyStr.strip (user_question inputs) <> "" ->
     chat_completion SCHEMA_PROMPT (user_question inputs) = Raise e ->
     run_main inputs w =
     (Stopped,
      shown w
        (header ++ question_form ++
         [Alert (App.Error ("Error calling OpenAI API: " +:+ exc_str e))])
        [Call (App.ChatCompletion SCHEMA_PROMPT (user_question inputs))])) /\
  (forall content e,
     PyStr.strip (user_question inputs) <> "" ->
     chat_completion SCHEMA_PROMPT (user_question inputs) = Ok content ->
     read_sql_query (Translator.postprocess content) = Raise e ->
     run_main inputs w =
     (Stopped,
      shown w
        (header ++ question_form ++
         [Alert (App.Error ("Error running SQL: " +:+ exc_str e))])
        (request_calls SCHEMA_PROMPT (user_question inputs)
           (Translator.postprocess content)))).
Proof.
  intros Hkey Hbutton. rewrite (main_request _ _ Hkey Hbutton).
  split; [|split].
  - intros Hblank. erewrite bind_stopped;
      [|by rewrite embed_handler, (is_blank _ Hblank)].
    by rewrite shown_shown, <- app_assoc.
  - intros e Hquestion Hchat. erewrite bind_stopped;
      [|by rewrite embed_handler, (is_not_blank _ Hquestion), Hchat].
    by rewrite shown_shown, <- app_assoc.
  - intros content e Hquestion Hchat Hread. erewrite bind_stopped;
      [|by rewrite embed_handler, (is_not_blank _ Hquestion), Hchat; cbv zeta;
           rewrite Hread].
    by rewrite shown_shown, <- app_assoc.
Qed.

(** With nothing stored and no request, the run shows the header and the
    question form and nothing else, and makes no call. *)
Theorem no_request_nothing_stored inputs w :
  missing (api_key inputs) = false ->
  generate_button inputs = false ->
  session_state w !! "last_df" = None ->
  run_main inputs w =
  (Returned tt, shown w (header ++ question_form) []).
Proof.
  intros Hkey Hbutton Hnone. rewrite (main_rerun _ _ Hkey Hbutton).
  by apply show_last_result_absent.
Qed.

(** A run without a request shows the stored query and result again
    (a result whose column labels are all different, which is what
    [st.dataframe] takes), with the validator's lines in the fold and
    the report box under them, and makes no call: neither the chat
    service nor the store is asked a second time. *)
Theorem rerun_shows_stored_result inputs w df sql question report :
  missing (api_key inputs) = false ->
  generate_button inputs = false ->
  session_state w !! "last_df" = Some (App.FrameValue df) ->
  session_state w !! "last_sql" = Some (App.StrValue sql) ->
  session_state w !! "last_question" = Some (App.StrValue question) ->
  is_unique (columns df) = true ->
  Validator.basic_result_validation float_sum df = Ok report ->
  empty df = false ->
  report_checkbox inputs = false ->
  run_main inputs w =
  (Returned tt,
   shown w
     (header ++ question_form ++
      result_view sql df (Validator.summary report) ++ [report_box])
     []).
Proof.
  intros Hkey Hbutton Hdf Hsql Hquestion Hunique Hreport Hempty Hbox.
  rewrite (main_rerun _ _ Hkey Hbutton).
  rewrite (show_last_result_stored inputs
             (shown w (header ++ question_form) []) df sql question
             Hdf Hsql Hquestion).
  rewrite Hunique, Hreport, Hempty, Hbox. cbv zeta. cbn [negb].
  by rewrite !shown_shown, <- !app_assoc.
Qed.

(** A stored result without rows, its column labels all different, is
    shown with the one empty-result warning in the fold; the report box
    is not offered and no call is made, whatever the box's state and
    whatever the columns hold. *)
Theorem empty_result_offers_no_report inputs w df sql question :
  missing (api_key inputs) = false ->
  generate_button inputs = false ->
  session_state w !! "last_df" = Some (App.FrameValue df) ->
  session_state w !! "last_sql" = Some (App.StrValue sql) ->
  session_state w !! "last_question" = Some (App.StrValue question) ->
  is_unique (columns df) = true ->
  empty df = true ->
  run_main inputs w =
  (Returned tt,
   shown w
     (header ++ question_form ++ result_view sql df [Validator.msg_empty])
     []).
Proof.
  intros Hkey Hbutton Hdf Hsql Hquestion Hunique Hempty.
  rewrite (main_rerun _ _ Hkey Hbutton).
  rewrite (show_last_result_stored inputs
             (shown w (header ++ question_form) []) df sql question
             Hdf Hsql Hquestion).
  rewrite Hunique, (empty_frame_report float_sum df Hempty), Hempty.
  cbv zeta. cbn [negb].
  by rewrite !shown_shown, <- !app_assoc.
Qed.

(** A request that goes through, and answers with a frame whose column
    labels are all different, is shown in the same run: the three
    session keys are written, and the page shows the cleaned-up query,
    the number of rows, the frame and the validator's lines for exactly
    the frame the query returned, after the four calls of the request and
    no other. *)
Theorem generate_and_show inputs w content df report :
  missing (api_key inputs) = false ->
  generate_button inputs = true ->
  PyStr.strip (user_question inputs) <> "" ->
  chat_completion SCHEMA_PROMPT (user_question inputs) = Ok content ->
  read_sql_query (Translator.postprocess content) = Ok df ->
  is_unique (columns df) = true ->
  Validator.basic_result_validation float_sum df = Ok report ->
  empty df = true \/ report_checkbox inputs = false ->
  run_main inputs w =
  (Returned tt,
   {| session_state :=
        <["last_df" := App.FrameValue df]>
          (<["last_sql" := App.StrValue (Translator.postprocess content)]>
             (<["last_question" := App.StrValue (user_question inputs)]>
                (session_state w)));
      page :=
        page w ++ header ++ question_form ++
        result_view (Translator.postprocess content) df
          (Validator.summary report) ++
        (if empty df then [] else [report_box]);
      trace :=
        trace w ++
        request_calls SCHEMA_PROMPT (user_question inputs)
          (Translator.postprocess content) |}).
Proof.
  intros Hkey Hbutton Hquestion Hchat Hread Hunique Hreport Hquiet.
  rewrite (main_request _ _ Hkey Hbutton).
  erewrite bind_returned;
    [|by rewrite embed_handler, (is_not_blank _ Hquestion), Hchat; cbv zeta;
         rewrite Hread].
  destruct (stored_lookups (session_state w) df
              (Translator.postprocess content) (user_question inputs))
    as (Hdf & Hsql & Hq).
  match goal with
  | |- run_show_last_result inputs ?w' = _ =>
      rewrite (show_last_result_stored inputs w' df
                 (Translator.postprocess content) (user_question inputs)
                 Hdf Hsql Hq)
  end.
  rewrite Hunique, Hreport. cbv zeta. cbn [negb].
  unfold shown. cbn [session_state page trace].
  destruct (empty df).
  - by rewrite !app_nil_r, <- !app_assoc.
  - destruct Hquiet as [Hempty| ->]; [done|].
    cbn [session_state page trace]. by rewrite !app_nil_r, <- !app_assoc.
Qed.

(** With the box ticked on a stored result that has rows and column
    labels that are all different, the report is asked for once, with the prompt built from the stored question, the
    stored query and the rendering of the first ten rows, and its text
    is shown trimmed under the Step 4 heading. *)
Theorem report_shown inputs w df sql question report preview content :
  missing (api_key inputs) = false ->
  generate_button inputs = false ->
  session_state w !! "last_df" = Some (App.FrameValue df) ->
  session_state w !! "last_sql" = Some (App.StrValue sql) ->
  session_state w !! "last_question" = Some (App.StrValue question) ->
  is_unique (columns df) = true ->
  Validator.basic_result_validation float_sum df = Ok report ->
  empty df = false ->
  report_checkbox inputs = true ->
  to_markdown (head 10 df) = Ok preview ->
  report_completion (report_prompt question sql preview) = Ok content ->
  run_main inputs w =
  (Returned tt,
   shown w
     (header ++ question_form ++
      result_view sql df (Validator.summary report) ++
      [report_box; report_heading; Markdown (PyStr.strip content)])
     [ReportCompletion (report_prompt question sql preview)]).
Proof.
  intros Hkey Hbutton Hdf Hsql Hquestion Hunique Hreport Hempty Hbox Hpreview
    Htext.
  rewrite (main_rerun _ _ Hkey Hbutton).
  rewrite (show_last_result_stored inputs
             (shown w (header ++ question_form) []) df sql question
             Hdf Hsql Hquestion).
  rewrite Hunique, Hreport, Hempty, Hbox, Hpreview, Htext. cbv zeta.
  cbn [negb].
  by rewrite !shown_shown, <- !app_assoc.
Qed.

(** A report that cannot be had does not end the run: on a stored
    result with rows and column labels that are all different, whether
    the rendering of the preview raises (then no call is made) or the
    chat call raises, the error is shown under the result, the run goes
    to its end and the session is left as it is. *)
Theorem report_failure_keeps_page inputs w df sql question report :
  missing (api_key inputs) = false ->
  generate_button inputs = false ->
  session_state w !! "last_df" = Some (App.FrameValue df) ->
  session_state w !! "last_sql" = Some (App.StrValue sql) ->
  session_state w !! "last_question" = Some (App.StrValue question) ->
  is_unique (columns df) = true ->
  Validator.basic_result_validation float_sum df = Ok report ->
  empty df = false ->
  report_checkbox inputs = true ->
  (forall e,
     to_markdown (head 10 df) = Raise e ->
     run_main inputs w =
     (Returned tt,
      shown w
        (header ++ question_form ++
         result_view sql df (Validator.summary report) ++
         [report_box;
          Alert (App.Error ("Error calling OpenAI for report: " +:+ exc_str e))])
        [])) /\
  (forall preview e,
     to_markdown (head 10 df) = Ok preview ->
     report_completion (report_prompt question sql preview) = Raise e ->
     run_main inputs w =
     (Returned tt,
      shown w
        (header ++ question_form ++
         result_view sql df (Validator.summary report) ++
         [report_box;
          Alert (App.Error ("Error calling OpenAI for report: " +:+ exc_str e))])
        [ReportCompletion (report_prompt question sql preview)])).
Proof.
  intros Hkey Hbutton Hdf Hsql Hquestion Hunique Hreport Hempty Hbox.
  rewrite (main_rerun _ _ Hkey Hbutton).
  rewrite (show_last_result_stored inputs
             (shown w (header ++ question_form) []) df sql question
             Hdf Hsql Hquestion).
  rewrite Hunique, Hreport, Hempty, Hbox. cbv zeta. cbn [negb]. split.
  - intros e ->. by rewrite !shown_shown, <- !app_assoc.
  - intros preview e -> ->. by rewrite !shown_shown, <- !app_assoc.
Qed.

(** An exception of the validator is caught nowhere: on a stored result
    whose column labels are all different, the run ends with it after
    the query, the row count and the frame were shown and the fold was
    opened, empty; the report box is not reached. *)
Theorem validator_exception_ends_run inputs w df sql question e :
  missing (api_key inputs) = false ->
  generate_button inputs = false ->
  session_state w !! "last_df" = Some (App.FrameValue df) ->
  session_state w !! "last_sql" = Some (App.StrValue sql) ->
  session_state w !! "last_question" = Some (App.StrValue question) ->
  is_unique (columns df) = true ->
  Validator.basic_result_validation float_sum df = Raise e ->
  run_main inputs w =
  (Raised (Library e),
   shown w (header ++ question_form ++ result_view sql df []) []).
Proof.
  intros Hkey Hbutton Hdf Hsql Hquestion Hunique Hraise.
  rewrite (main_rerun _ _ Hkey Hbutton).
  rewrite (show_last_result_stored inputs
             (shown w (header ++ question_form) []) df sql question
             Hdf Hsql Hquestion).
  rewrite Hunique, Hraise. cbn [negb]. by rewrite !shown_shown, <- !app_assoc.
Qed.


(** The last block leaves the session as it is, and on a coherent
    session no look-up goes wrong. *)
Lemma show_last_result_coherent inputs w :
  coherent (session_state w) ->
  session_state (snd (run_show_last_result inputs w)) = session_state w /\
  (forall key, fst (run_show_last_result inputs w) <> Raised (KeyError key)) /\
  (forall key, fst (run_show_last_result inputs w) <> Raised (WrongKind key)).
Proof.
  unfold coherent. intros Hstate.
  destruct (session_state w !! "last_df") as [v|] eqn:Hdf.
  - destruct Hstate as ((df & ->) & (sql & Hsql) & (question & Hquestion)).
    rewrite (show_last_result_stored inputs w df sql question
               Hdf Hsql Hquestion).
    destruct (is_unique (columns df)); cbn [negb]; [|by repeat split].
    destruct (Validator.basic_result_validation float_sum df) as [report|e];
      [|by repeat split].
    cbv zeta. destruct (empty df); [by repeat split|].
    destruct (report_checkbox inputs); [|by repeat split].
    destruct (to_markdown (head 10 df)) as [preview|e]; [|by repeat split].
    destruct (report_completion (report_prompt question sql preview));
      by repeat split.
  - rewrite (show_last_result_absent _ _ Hdf). by repeat split.
Qed.

(** Whatever the inputs and whatever the services answer, a run that
    starts on a coherent session (an empty one, for instance) ends on a
    coherent session, and none of its session look-ups goes wrong: no
    KeyError, and no value of the wrong kind. *)
Theorem session_stays_coherent inputs w :
  coherent (session_state w) ->
  coherent (session_state (snd (run_main inputs w))) /\
  (forall key, fst (run_main inputs w) <> Raised (KeyError key)) /\
  (forall key, fst (run_main inputs w) <> Raised (WrongKind key)).
Proof.
  intros Hstate.
  set (good := fun r : Outcome unit * World =>
         coherent (session_state (snd r)) /\
         (forall key, fst r <> Raised (KeyError key)) /\
         (forall key, fst r <> Raised (WrongKind key))).
  change (good (run_main inputs w)).
  assert (forall w' : World,
            session_state w' = session_state w -> good (Stopped, w'))
    as Hstopped.
  { intros w' Hsame. unfold good. cbn [fst snd]. rewrite Hsame.
    by repeat split. }
  assert (forall w' : World,
            coherent (session_state w') ->
            good (run_show_last_result inputs w'))
    as Hshow.
  { intros w' Hw'.
    destruct (show_last_result_coherent inputs w' Hw')
      as (Hsame & Hkeys & Hkinds).
    unfold good. rewrite Hsame. by repeat split. }
  destruct (missing (api_key inputs)) eqn:Hkey.
  { rewrite (main_without_key _ _ Hkey). by apply Hstopped. }
  rewrite (main_with_key _ _ Hkey).
  destruct (generate_button inputs); [|by apply Hshow].
  unfold mbind at 1. unfold Page_bind at 1. rewrite embed_handler.
  destruct (String.eqb (PyStr.strip (user_question inputs)) "");
    [by apply Hstopped|].
  destruct (chat_completion SCHEMA_PROMPT (user_question inputs))
    as [content|e]; [|by apply Hstopped].
  cbv zeta.
  destruct (read_sql_query (Translator.postprocess content)) as [df|e];
    [|by apply Hstopped].
  apply Hshow.
  destruct (stored_lookups (session_state w) df
              (Translator.postprocess content) (user_question inputs))
    as (Hdf & Hsql & Hq).
  unfold coherent. cbn [session_state shown].
  rewrite Hdf, Hsql, Hq. split; [by eexists|]. split; by eexists.
Qed.

End PageFacts.

Section PageWitnesses.
Import Pandas Page Samples PageSamples.

Lemma missing_api_key_stops_witness :
  main left_to_right chat_fenced store_answers "" report_written as_table
    no_key (session_with counts_by_state) =
  (Stopped,
   shown (session_with counts_by_state)
     (header ++
      [Alert (App.Error
                "OPENAI_API_KEY not found. Please add it to your .env file.")])
     []).
Proof.
  exact (missing_api_key_stops left_to_right chat_fenced store_answers ""
           report_written as_table no_key (session_with counts_by_state)
           eq_refl).
Defined.

Lemma failed_request_shows_no_result_witness :
  main left_to_right chat_down store_answers "" report_written as_table
    pressed (session_with counts_by_state) =
  (Stopped,
   shown (session_with counts_by_state)
     (header ++ question_form ++
      [Alert (App.Error "Error calling OpenAI API: Connection error.")])
     [Call (App.ChatCompletion "" question)]).
Proof.
  exact (proj1 (proj2 (failed_request_shows_no_result left_to_right chat_down
                         store_answers "" report_written as_table pressed
                         (session_with counts_by_state) eq_refl eq_refl))
           _ question_not_blank eq_refl).
Defined.

Lemma no_request_nothing_stored_witness :
  main left_to_right chat_fenced store_answers "" report_written as_table
    idle fresh_page =
  (Returned tt, shown fresh_page (header ++ question_form) []).
Proof.
  exact (no_request_nothing_stored left_to_right chat_fenced store_answers ""
           report_written as_table idle fresh_page eq_refl eq_refl eq_refl).
Defined.

Lemma rerun_shows_stored_result_witness :
  main left_to_right chat_down store_rejects "" report_down as_table
    idle (session_with counts_by_state) =
  (Returned tt,
   shown (session_with counts_by_state)
     (header ++ question_form ++
      result_view sample_sql counts_by_state [Validator.msg_count 3 2] ++
      [report_box])
     []).
Proof.
  exact (rerun_shows_stored_result left_to_right chat_down store_rejects ""
           report_down as_table idle (session_with counts_by_state)
           counts_by_state sample_sql question
           {| Validator.summary := [Validator.msg_count 3 2] |}
           eq_refl eq_refl eq_refl eq_refl eq_refl eq_refl eq_refl eq_refl
           eq_refl).
Defined.

Lemma empty_result_offers_no_report_witness :
  main left_to_right chat_down store_rejects "" report_written as_table
    ticked (session_with no_rows) =
  (Returned tt,
   shown (session_with no_rows)
     (header ++ question_form ++
      result_view sample_sql no_rows [Validator.msg_empty])
     []).
Proof.
  exact (empty_result_offers_no_report left_to_right chat_down store_rejects
           "" report_written as_table ticked (session_with no_rows) no_rows
           sample_sql question eq_refl eq_refl eq_refl eq_refl eq_refl
           eq_refl eq_refl).
Defined.

Lemma generate_and_show_witness :
  main left_to_right chat_fenced store_answers "" report_written as_table
    pressed fresh_page =
  (Returned tt,
   {| session_state :=
        <["last_df" := App.FrameValue counts_by_state]>
          (<["last_sql" :=
               App.StrValue (Translator.postprocess fenced_select)]>
             (<["last_question" := App.StrValue question]> ∅));
      page :=
        header ++ question_form ++
        result_view (Translator.postprocess fenced_select) counts_by_state
          [Validator.msg_count 3 2] ++
        [report_box];
      trace :=
        request_calls "" question (Translator.postprocess fenced_select) |}).
Proof.
  exact (generate_and_show left_to_right chat_fenced store_answers ""
           report_written as_table pressed fresh_page fenced_select
           counts_by_state
           {| Validator.summary := [Validator.msg_count 3 2] |}
           eq_refl eq_refl question_not_blank eq_refl eq_refl eq_refl eq_refl
           (or_intror eq_refl)).
Defined.

Lemma report_shown_witness :
  main left_to_right chat_down store_rejects "" report_written as_table
    ticked (session_with counts_by_state) =
  (Returned tt,
   shown (session_with counts_by_state)
     (header ++ question_form ++
      result_view sample_sql counts_by_state [Validator.msg_count 3 2] ++
      [report_box; report_heading;
       Markdown "Volume is level across the three states."])
     [ReportCompletion (report_prompt question sample_sql "| state | n |")]).
Proof.
  exact (report_shown left_to_right chat_down store_rejects ""
           report_written as_table ticked (session_with counts_by_state)
           counts_by_state sample_sql question
           {| Validator.summary := [Validator.msg_count 3 2] |}
           "| state | n |" _
           eq_refl eq_refl eq_refl eq_refl eq_refl eq_refl eq_refl eq_refl
           eq_refl eq_refl eq_refl).
Defined.

Lemma report_failure_keeps_page_witness :
  main left_to_right chat_down store_rejects "" report_down as_table
    ticked (session_with counts_by_state) =
  (Returned tt,
   shown (session_with counts_by_state)
     (header ++ question_form ++
      result_view sample_sql counts_by_state [Validator.msg_count 3 2] ++
      [report_box;
       Alert (App.Error "Error calling OpenAI for report: Connection error.")])
     [ReportCompletion (report_prompt question sample_sql "| state | n |")]).
Proof.
  exact (proj2 (report_failure_keeps_page left_to_right chat_down
                  store_rejects "" report_down as_table ticked
                  (session_with counts_by_state) counts_by_state sample_sql
                  question
                  {| Validator.summary := [Validator.msg_count 3 2] |}
                  eq_refl eq_refl eq_refl eq_refl eq_refl eq_refl eq_refl
                  eq_refl eq_refl)
           _ _ eq_refl eq_refl).
Defined.

Lemma validator_exception_ends_run_witness :
  main left_to_right chat_down store_rejects "" report_written as_table
    ticked (session_with amount_text) =
  (Raised
     (Library
        (ValueError "Unknown format code 'f' for object of type 'str'")),
   shown (session_with amount_text)
     (header ++ question_form ++ result_view sample_sql amount_text []) []).
Proof.
  exact (validator_exception_ends_run left_to_right chat_down store_rejects
           "" report_written as_table ticked (session_with amount_text)
           amount_text sample_sql question _
           eq_refl eq_refl eq_refl eq_refl eq_refl eq_refl eq_refl).
Defined.


Lemma session_stays_coherent_witness :
  coherent
    (session_state
       (snd (main left_to_right chat_fenced store_answers "" report_written
               as_table pressed fresh_page))).
Proof.
  exact (proj1 (session_stays_coherent left_to_right chat_fenced
                  store_answers "" report_written as_table pressed
                  fresh_page I)).
Defined.

End PageWitnesses.

(** ** The primitives against CPython 3.11 *)

Section AgainstPython.

(** Text in front of the first fence is a piece like the others: when it
    mentions "select", it is the one returned. *)
Example prose_before_fence :
  Translator.postprocess "Here is the select: ```sql SELECT 1```" =
  "Here is the select:".
Proof. by vm_compute. Qed.

Example split_fences :
  PyStr.split "```" "a``````b````" = ["a"; ""; "b"; "`"].
Proof. by vm_compute. Qed.

Example split_without_separator : PyStr.split "```" "no fences" = ["no fences"].
Proof. by vm_compute. Qed.

Example replace_single_pass : PyStr.replace "sql" "" "ssqlql" = "sql".
Proof. by vm_compute. Qed.

Example replace_case_sensitive :
  PyStr.replace "sql" "" "mysql sqlite SQL" = "my ite SQL".
Proof. by vm_compute. Qed.

Example upper_ascii :
  PyStr.upper "sElEcT 1 {|}~`@[]^_az" = "SELECT 1 {|}~`@[]^_AZ".
Proof. by vm_compute. Qed.

Example format_ties_to_even :
  PyNum.format_f2 true 1234567.125%float = "1,234,567.12".
Proof. by vm_compute. Qed.

Example format_exact_value : PyNum.format_f2 false 2.675%float = "2.67".
Proof. by vm_compute. Qed.

Example format_negative_zero : PyNum.format_f2 false (-0.004)%float = "-0.00".
Proof. by vm_compute. Qed.

Example format_large : PyNum.format_f2 true 1e22%float =
  "10,000,000,000,000,000,000,000.00".
Proof. by vm_compute. Qed.

Example format_int64_min :
  PyNum.format_f2 true (PyNum.float_of_Z (- 2 ^ 63)) =
  "-9,223,372,036,854,775,808.00".
Proof. by vm_compute. Qed.

Example rate_of_five_percent : (0.05 * 100)%float = 5%float.
Proof. reflexivity. Qed.

Example round2_exact_value : PyNum.round2 2.675 = 2.67%float.
Proof. by vm_compute. Qed.

Example round2_ties_to_even : PyNum.round2 0.125 = 0.12%float.
Proof. by vm_compute. Qed.

Example round2_negative_zero : PyNum.round2 (-0.001) = (-0)%float.
Proof. by vm_compute. Qed.

Example round2_large : PyNum.round2 1e22 = 1e22%float.
Proof. by vm_compute. Qed.

(** The binary64 nearest to a number of hundredths: the ends of the
    fixture's range are binary64 numbers themselves, and the quotient is
    the one of the float division. *)
Example float_of_ratio_ends :
  PyNum.float_of_ratio 500 100 = 5%float /\
  PyNum.float_of_ratio 500000 100 = 5000%float /\
  PyNum.float_of_ratio 6212 100 = (6212 / 100)%float.
Proof. repeat split; by vm_compute. Qed.

(** A draw that [uniform] rounds onto a tie: 62.125 exactly, which
    [round] takes to the even hundredth. *)
Example uniform_rounds_to_tie :
  fst (Random.uniform 5 5000 (fun _ => 103010261747163%N)) = 62.125%float /\
  PyNum.round2 62.125 = 62.12%float.
Proof. split; by vm_compute. Qed.

Example random_below_threshold :
  (fst (Random.random (fun _ => 270215977642229%N)) <? 0.03)%float = true /\
  (fst (Random.random (fun _ => 270215977642230%N)) <? 0.03)%float = false.
Proof. split; by vm_compute. Qed.

Example strftime_leap_day : Datetime.strftime_ymd 738945 = "2024-02-29".
Proof. by vm_compute. Qed.

Example strftime_century : Datetime.strftime_ymd 693655 = "1900-03-01".
Proof. by vm_compute. Qed.

Example strftime_year_end : Datetime.strftime_ymd 739616 = "2025-12-31".
Proof. by vm_compute. Qed.

Example strftime_sample_day :
  Datetime.strftime_ymd Samples.a_day = "2026-11-05".
Proof. by vm_compute. Qed.

End AgainstPython.
